(** * GNUMC: the geometric core of the Minecraft skin 3D previewer

    A shallow embedding of [mathutil.py], [model.py], [interaction.py] and
    of the mesh builder and the orbit camera of [renderer.py]: the 4x4
    linear algebra kernel and the two camera matrices, the box-unwrap mesh
    builder, the character model with its poses, the ray caster that maps a
    screen position back to a texel, and the vertex and index lists the
    renderer uploads.

    Numbers.  Python runs this code on binary64 floats (the [int] literals
    of the source are small integers, which binary64 holds exactly and on
    which both kinds of number agree).  The embedding uses the Standard
    Library's [spec_float] at precision 53 and maximal exponent 1024: an
    executable, axiom-free IEEE 754 binary64 with round-to-nearest-even.
    A statement about every [float] covers every binary64 value.
    The linear algebra kernel is written once over an interface [Arith], so
    that it can also be read in exact rational arithmetic.

    The platform.  [math.cos], [math.sin], [math.tan] and the [pow] behind
    [x ** 2] come from the C library, which rounds them as it likes, and
    the upload of the mesh goes through OpenGL: each is a parameter of the
    code that calls it (the classes [Trig], [Tan], [Pow], [GL]), and a
    theorem holds for whatever the platform provides.  The stand-ins that
    run the examples are named as such.

    Exceptions.  A Python operation that can raise is a computation in the
    error monad [result]: [/] raises [ZeroDivisionError] on a zero divisor,
    [**] raises [OverflowError] when [pow] overflows, [int()] raises on NaN
    and infinities, indexing raises [IndexError].

    Left out: the shaders, the drawing and the texture uploads of the
    renderer, its [_update_matrices], and the GTK host. *)

From Stdlib Require Import ZArith List String Bool Lia.
From Stdlib Require Import QArith Qabs Field.
From Stdlib Require Import Floats.SpecFloat.
Import ListNotations.
Close Scope Q_scope.


(* ================================================================== *)
(** ** Python exceptions as an error monad *)

Module Py.

Inductive exn : Type :=
| ZeroDivisionError
| OverflowError
| ValueError
| IndexError
| KeyError.

Inductive result (A : Type) : Type :=
| Ok (a : A)
| Raise (e : exn).

Arguments Ok {A} a.
Arguments Raise {A} e.

Definition bind {A B : Type} (c : result A) (k : A -> result B) : result B :=
  match c with
  | Ok a => k a
  | Raise e => Raise e
  end.

Definition returns {A : Type} (c : result A) : Prop := exists a, c = Ok a.

(** [for x in xs: body] over a loop state. *)
Fixpoint for_each {A S : Type} (xs : list A) (body : A -> S -> result S)
  (s : S) : result S :=
  match xs with
  | [] => Ok s
  | x :: xs' => bind (body x s) (for_each xs' body)
  end.

(** A list comprehension whose element expression may raise. *)
Fixpoint map_r {A B : Type} (f : A -> result B) (xs : list A)
  : result (list B) :=
  match xs with
  | [] => Ok []
  | x :: xs' =>
      bind (f x) (fun y => bind (map_r f xs') (fun ys => Ok (y :: ys)))
  end.

End Py.

Import Py.

Declare Scope py_scope.
Delimit Scope py_scope with py.
Notation "x <- c ;; k" := (bind c (fun x => k))
  (at level 61, c at next level, right associativity) : py_scope.
Notation "' p <- c ;; k" := (bind c (fun x => let 'p := x in k))
  (at level 61, p pattern, c at next level, right associativity) : py_scope.
Open Scope py_scope.

(* ================================================================== *)
(** ** The arithmetic the kernel is written over *)

Class Arith (T : Type) : Type := {
  a_zero : T;
  a_one : T;
  a_add : T -> T -> T;
  a_sub : T -> T -> T;
  a_mul : T -> T -> T;
  a_opp : T -> T;
  a_quot : T -> T -> T;        (* the quotient, for a divisor that is not zero *)
  a_abs : T -> T;
  a_ltb : T -> T -> bool;
  a_is_zero : T -> bool;       (* [x == 0] *)
  a_eps12 : T                  (* the literal [1e-12] *)
}.

(** Python's [x / y]. *)
Definition a_div {T} `{Arith T} (x y : T) : result T :=
  if a_is_zero y then Raise ZeroDivisionError else Ok (a_quot x y).

(* ================================================================== *)
(** ** mathutil.py: column-major 4x4 matrices as flat lists of 16 entries *)

Module mathutil.
Section Kernel.

Context {T : Type} `{AT : Arith T}.

Local Notation "x + y" := (a_add x y).
Local Notation "x - y" := (a_sub x y).
Local Notation "x * y" := (a_mul x y).
Local Notation "- x" := (a_opp x).

Definition Matrix4 : Type := list T.
Definition Vector4 : Type := (T * T * T * T)%type.

(** [m[i]] once the index is known to be in range. *)
Definition at_ (m : Matrix4) (i : nat) : T := nth i m a_zero.

(** [m[i]]. *)
Definition item (m : Matrix4) (i : nat) : result T :=
  match nth_error m i with
  | Some x => Ok x
  | None => Raise IndexError
  end.

(** [m[i] = x] on a list that has the slot. *)
Fixpoint store (m : Matrix4) (i : nat) (x : T) : Matrix4 :=
  match m, i with
  | [], _ => []
  | _ :: m', O => x :: m'
  | y :: m', S i' => y :: store m' i' x
  end.

Definition identity : Matrix4 :=
  [ a_one;  a_zero; a_zero; a_zero;
    a_zero; a_one;  a_zero; a_zero;
    a_zero; a_zero; a_one;  a_zero;
    a_zero; a_zero; a_zero; a_one ].

Definition range4 : list nat := [0; 1; 2; 3]%nat.

(** [mat4_multiply(a, b)]: three nested loops filling [result[col*4+row]]. *)
Definition mat4_multiply (a b : Matrix4) : result Matrix4 :=
  for_each range4 (fun row =>
    for_each range4 (fun col res =>
      s <- for_each range4 (fun k s =>
             x <- item a (k * 4 + row) ;;
             y <- item b (col * 4 + k) ;;
             Ok (s + x * y)) a_zero ;;
      Ok (store res (col * 4 + row)%nat s)))
    (repeat a_zero 16).

(** The sixteen assignments [inv[0] = ...], ..., [inv[15] = ...] of
    [mat4_inverse], in the order of the source. *)
Definition cofactors (m : Matrix4) : Matrix4 :=
  let e := at_ m in
  let i0 := e 5 * e 10 * e 15 - e 5 * e 11 * e 14 - e 9 * e 6 * e 15 + e 9 * e 7 * e 14 + e 13 * e 6 * e 11 - e 13 * e 7 * e 10 in
  let i4 := (- e 4) * e 10 * e 15 + e 4 * e 11 * e 14 + e 8 * e 6 * e 15 - e 8 * e 7 * e 14 - e 12 * e 6 * e 11 + e 12 * e 7 * e 10 in
  let i8 := e 4 * e 9 * e 15 - e 4 * e 11 * e 13 - e 8 * e 5 * e 15 + e 8 * e 7 * e 13 + e 12 * e 5 * e 11 - e 12 * e 7 * e 9 in
  let i12 := (- e 4) * e 9 * e 14 + e 4 * e 10 * e 13 + e 8 * e 5 * e 14 - e 8 * e 6 * e 13 - e 12 * e 5 * e 10 + e 12 * e 6 * e 9 in
  let i1 := (- e 1) * e 10 * e 15 + e 1 * e 11 * e 14 + e 9 * e 2 * e 15 - e 9 * e 3 * e 14 - e 13 * e 2 * e 11 + e 13 * e 3 * e 10 in
  let i5 := e 0 * e 10 * e 15 - e 0 * e 11 * e 14 - e 8 * e 2 * e 15 + e 8 * e 3 * e 14 + e 12 * e 2 * e 11 - e 12 * e 3 * e 10 in
  let i9 := (- e 0) * e 9 * e 15 + e 0 * e 11 * e 13 + e 8 * e 1 * e 15 - e 8 * e 3 * e 13 - e 12 * e 1 * e 11 + e 12 * e 3 * e 9 in
  let i13 := e 0 * e 9 * e 14 - e 0 * e 10 * e 13 - e 8 * e 1 * e 14 + e 8 * e 2 * e 13 + e 12 * e 1 * e 10 - e 12 * e 2 * e 9 in
  let i2 := e 1 * e 6 * e 15 - e 1 * e 7 * e 14 - e 5 * e 2 * e 15 + e 5 * e 3 * e 14 + e 13 * e 2 * e 7 - e 13 * e 3 * e 6 in
  let i6 := (- e 0) * e 6 * e 15 + e 0 * e 7 * e 14 + e 4 * e 2 * e 15 - e 4 * e 3 * e 14 - e 12 * e 2 * e 7 + e 12 * e 3 * e 6 in
  let i10 := e 0 * e 5 * e 15 - e 0 * e 7 * e 13 - e 4 * e 1 * e 15 + e 4 * e 3 * e 13 + e 12 * e 1 * e 7 - e 12 * e 3 * e 5 in
  let i14 := (- e 0) * e 5 * e 14 + e 0 * e 6 * e 13 + e 4 * e 1 * e 14 - e 4 * e 2 * e 13 - e 12 * e 1 * e 6 + e 12 * e 2 * e 5 in
  let i3 := (- e 1) * e 6 * e 11 + e 1 * e 7 * e 10 + e 5 * e 2 * e 11 - e 5 * e 3 * e 10 - e 9 * e 2 * e 7 + e 9 * e 3 * e 6 in
  let i7 := e 0 * e 6 * e 11 - e 0 * e 7 * e 10 - e 4 * e 2 * e 11 + e 4 * e 3 * e 10 + e 8 * e 2 * e 7 - e 8 * e 3 * e 6 in
  let i11 := (- e 0) * e 5 * e 11 + e 0 * e 7 * e 9 + e 4 * e 1 * e 11 - e 4 * e 3 * e 9 - e 8 * e 1 * e 7 + e 8 * e 3 * e 5 in
  let i15 := e 0 * e 5 * e 10 - e 0 * e 6 * e 9 - e 4 * e 1 * e 10 + e 4 * e 2 * e 9 + e 8 * e 1 * e 6 - e 8 * e 2 * e 5 in
  [i0; i1; i2; i3; i4; i5; i6; i7; i8; i9; i10; i11; i12; i13; i14; i15].

(** [det = m[0]*inv[0] + m[1]*inv[4] + m[2]*inv[8] + m[3]*inv[12]] *)
Definition det_of (m : Matrix4) : T :=
  let inv := cofactors m in
  at_ m 0 * at_ inv 0 + at_ m 1 * at_ inv 4 + at_ m 2 * at_ inv 8
  + at_ m 3 * at_ inv 12.

(** [mat4_inverse(m)]: cofactor expansion; [None] when [|det| < 1e-12].
    Every entry of [m[0..15]] is read before anything else can fail, so a
    list that is too short raises [IndexError] at the first cofactor. *)
Definition mat4_inverse (m : Matrix4) : result (option Matrix4) :=
  if (List.length m <? 16)%nat then Raise IndexError else
    let inv := cofactors m in
    let det := det_of m in
    if a_ltb (a_abs det) a_eps12 then Ok None else
      det <- a_div a_one det ;;
      Ok (Some (map (fun x => x * det) inv)).

(** [mat4_mul_vec4(m, v)]. *)
Definition mat4_mul_vec4 (m : Matrix4) (v : Vector4) : result Vector4 :=
  let '(x, y, z, w) := v in
  if (List.length m <? 16)%nat then Raise IndexError else
    let e := at_ m in
    Ok (e 0 * x + e 4 * y + e 8 * z  + e 12 * w,
        e 1 * x + e 5 * y + e 9 * z  + e 13 * w,
        e 2 * x + e 6 * y + e 10 * z + e 14 * w,
        e 3 * x + e 7 * y + e 11 * z + e 15 * w).

End Kernel.
End mathutil.

(* ================================================================== *)
(** ** binary64: the numbers Python computes with *)

Module B64.

Local Open Scope Z_scope.

Definition prec : Z := 53.
Definition emax : Z := 1024.

Definition float : Type := spec_float.

Definition fadd : float -> float -> float := SFadd prec emax.
Definition fsub : float -> float -> float := SFsub prec emax.
Definition fmul : float -> float -> float := SFmul prec emax.
Definition fquot : float -> float -> float := SFdiv prec emax.
Definition fsqrt : float -> float := SFsqrt prec emax.
Definition fopp : float -> float := SFopp.
Definition fabs : float -> float := SFabs.
Definition flt : float -> float -> bool := SFltb.
Definition feq : float -> float -> bool := SFeqb.

(** An integer literal, and a decimal literal [n/d] whose numerator and
    denominator are exact in binary64: one correctly rounded division is
    then the correctly rounded value of the literal. *)
Definition of_Z (z : Z) : float := binary_normalize prec emax z 0 false.
Definition lit (n d : Z) : float := fquot (of_Z n) (of_Z d).

Definition zero : float := S754_zero false.
Definition one : float := of_Z 1.
Definition two : float := of_Z 2.
Definition inf : float := S754_infinity false.
Definition eps12 : float := lit 1 (10 ^ 12).   (* 1e-12 *)
Definition eps7 : float := lit 1 (10 ^ 7).     (* 1e-7 *)

Definition is_nan (x : float) : bool :=
  match x with S754_nan => true | _ => false end.
Definition is_inf (x : float) : bool :=
  match x with S754_infinity _ => true | _ => false end.
Definition is_finite (x : float) : bool :=
  match x with S754_zero _ | S754_finite _ _ _ => true | _ => false end.

(** Python's [x / y] on floats: a zero divisor of either sign raises. *)
Definition py_div (x y : float) : result float :=
  if feq y zero then Raise ZeroDivisionError else Ok (fquot x y).

(** What a call into the C library leaves in [errno]. *)
Inductive errno : Type := E_none | ERANGE | E_other.

(** C's [pow(x, 2.0)] belongs to the platform's C library, as [cos] and
    [sin] do, and is correctly rounded on none in particular: the model takes
    the value and the [errno] it leaves as it finds them. *)
Class Pow : Type := {
  c_pow_2 : float -> float * errno
}.

(** Python's [x ** 2] on a float: CPython's [float_pow] at the exponent
    [2.0].  A NaN is returned as it is, an infinity as [fabs(x)], a zero as
    [0.0] and [1.0] or [-1.0] as [1.0], all without a call to [pow]; any
    other [x] goes to [pow(fabs(x), 2.0)].  After the call an infinite
    result counts as [ERANGE] and [ERANGE] with a zero result as no error;
    [ERANGE] raises [OverflowError] and any other [errno] [ValueError]. *)
Definition py_sq {libc : Pow} (x : float) : result float :=
  if is_nan x then Ok x
  else if is_inf x then Ok (fabs x)
  else if feq x zero then Ok zero
  else
    let iv := if flt x zero then fopp x else x in
    if feq iv one then Ok one
    else
      let '(ix, e) := c_pow_2 iv in
      let e := match e with
               | E_none => if is_inf ix then ERANGE else E_none
               | ERANGE => if feq ix zero then E_none else ERANGE
               | E_other => E_other
               end in
      match e with
      | E_none => Ok ix
      | ERANGE => Raise OverflowError
      | E_other => Raise ValueError
      end.

(** [math.sqrt]: a domain error below zero. *)
Definition py_sqrt (x : float) : result float :=
  if flt x zero then Raise ValueError else Ok (fsqrt x).

(** The integer part of [m * 2^e], towards zero. *)
Definition magnitude (m : positive) (e : Z) : Z :=
  match e with
  | Z0 => Zpos m
  | Zpos p => Zpos m * 2 ^ Zpos p
  | Zneg p => Zpos m / 2 ^ Zpos p
  end.

(** Python's [int(x)]: truncation towards zero; NaN and the infinities
    raise. *)
Definition py_int (x : float) : result Z :=
  match x with
  | S754_nan => Raise ValueError
  | S754_infinity _ => Raise OverflowError
  | S754_zero _ => Ok 0%Z
  | S754_finite s m e => Ok (cond_Zopp s (magnitude m e))
  end.

(** The mathematical floor of a finite float. *)
Definition floor (x : float) : option Z :=
  match x with
  | S754_nan | S754_infinity _ => None
  | S754_zero _ => Some 0%Z
  | S754_finite s m e =>
      Some match e with
           | Z0 => cond_Zopp s (Zpos m)
           | Zpos p => cond_Zopp s (Zpos m) * 2 ^ Zpos p
           | Zneg p => cond_Zopp s (Zpos m) / 2 ^ Zpos p
           end
  end.

#[global] Instance float_arith : Arith float := {
  a_zero := zero;
  a_one := one;
  a_add := fadd;
  a_sub := fsub;
  a_mul := fmul;
  a_opp := fopp;
  a_quot := fquot;
  a_abs := fabs;
  a_ltb := flt;
  a_is_zero := fun x => feq x zero;
  a_eps12 := eps12
}.

(** Not below zero: a square, and a sum of squares. *)
Definition unsigned (x : float) : Prop :=
  match x with
  | S754_zero s | S754_infinity s | S754_finite s _ _ => s = false
  | S754_nan => True
  end.

End B64.

Declare Scope float_scope.
Delimit Scope float_scope with f.

(** ** Exact rationals: the same kernel without rounding *)

Module Exact.

#[global] Instance rational_arith : Arith Q := {
  a_zero := 0%Q;
  a_one := 1%Q;
  a_add := Qplus;
  a_sub := Qminus;
  a_mul := Qmult;
  a_opp := Qopp;
  a_quot := Qdiv;
  a_abs := Qabs;
  a_ltb := fun x y => negb (Qle_bool y x);
  a_is_zero := fun x => Qeq_bool x 0%Q;
  a_eps12 := (1 # 1000000000000)%Q
}.

End Exact.

(* ================================================================== *)
(** ** model.py: box parts, the box unwrap, poses *)

Module model.

Import B64.
Local Open Scope Z_scope.
Local Open Scope string_scope.

Local Infix "+" := fadd : float_scope.
Local Infix "-" := fsub : float_scope.
Local Infix "*" := fmul : float_scope.

Definition vec3 : Type := (float * float * float)%type.
Definition uv : Type := (float * float)%type.
(** [(u_min, v_min, u_max, v_max)] *)
Definition rect : Type := (float * float * float * float)%type.
(** A dict with string keys, in insertion order. *)
Definition dict (V : Type) : Type := list (string * V).
(** [(face_name, vertices, uvs)] *)
Definition quad : Type := (string * list vec3 * list uv)%type.

Definition TEX_W : Z := 64.
Definition TEX_H : Z := 64.

(** [d[k]] *)
Fixpoint dict_get {V : Type} (d : dict V) (k : string) : result V :=
  match d with
  | [] => Raise KeyError
  | (k', v) :: d' => if String.eqb k' k then Ok v else dict_get d' k
  end.

(** The nested [norm] of [_box_uvs]. *)
Definition norm (tex_w tex_h px_u px_v px_w px_h : float) : result rect :=
  a <- py_div px_u tex_w ;;
  b <- py_div px_v tex_h ;;
  c <- py_div (px_u + px_w)%f tex_w ;;
  d <- py_div (px_v + px_h)%f tex_h ;;
  Ok (a, b, c, d).

Definition _box_uvs (u0 v0 w h d tex_w tex_h : float) : result (dict rect) :=
  let norm := norm tex_w tex_h in
  right  <- norm u0                   (v0 + d)%f d h ;;
  front  <- norm (u0 + d)%f           (v0 + d)%f w h ;;
  left   <- norm (u0 + d + w)%f       (v0 + d)%f d h ;;
  back   <- norm (u0 + d + w + d)%f   (v0 + d)%f w h ;;
  top    <- norm (u0 + d)%f           v0         w d ;;
  bottom <- norm (u0 + d + w)%f       v0         w d ;;
  Ok [ ("right", right); ("front", front); ("left", left);
       ("back", back); ("top", top); ("bottom", bottom) ].

Record BoxPart : Type := mkBoxPart {
  name : string;
  origin : vec3;
  size : vec3;
  uv_origin : uv;
  inflate : float;
  uvs : dict rect;
  pivot : vec3;
  rotation : vec3
}.

Definition set_rotation (p : BoxPart) (r : vec3) : BoxPart :=
  mkBoxPart (name p) (origin p) (size p) (uv_origin p) (inflate p)
            (uvs p) (pivot p) r.

(** [BoxPart.__init__]; [None] stands for an argument left at its default
    ([pivot=None], [rotation=None]). *)
Definition BoxPart_init (name : string) (origin size : vec3) (uv_origin : uv)
  (inflate : float) (pivot rotation : option vec3) : result BoxPart :=
  let '(ox, oy, oz) := origin in
  let '(w, h, d) := size in
  let inf := inflate in
  let origin' := (ox - inf, oy - inf, oz - inf)%f in
  let size' := (w + two * inf, h + two * inf, d + two * inf)%f in
  uvs <- _box_uvs (fst uv_origin) (snd uv_origin) w h d
                  (of_Z TEX_W) (of_Z TEX_H) ;;
  pivot' <- match pivot with
            | Some p => Ok p
            | None =>
                hw <- py_div w two ;;
                hh <- py_div h two ;;
                hd <- py_div d two ;;
                Ok (ox + hw, oy + hh, oz + hd)%f
            end ;;
  let rotation' := match rotation with
                   | Some r => r
                   | None => (zero, zero, zero)
                   end in
  Ok (mkBoxPart name origin' size' uv_origin inflate uvs pivot' rotation').

(** [BoxPart.get_face_quads] *)
Definition get_face_quads (self : BoxPart) : result (list quad) :=
  let '(x0, y0, z0) := origin self in
  let '(w, h, d) := size self in
  let x1 := (x0 + w)%f in
  let y1 := (y0 + h)%f in
  let z1 := (z0 + d)%f in
  '(u0, v0, u1, v1) <- dict_get (uvs self) "front" ;;
  let front := ("front",
    [(x0, y0, z0); (x1, y0, z0); (x1, y1, z0); (x0, y1, z0)],
    [(u1, v1); (u0, v1); (u0, v0); (u1, v0)]) in
  '(u0, v0, u1, v1) <- dict_get (uvs self) "back" ;;
  let back := ("back",
    [(x1, y0, z1); (x0, y0, z1); (x0, y1, z1); (x1, y1, z1)],
    [(u1, v1); (u0, v1); (u0, v0); (u1, v0)]) in
  '(u0, v0, u1, v1) <- dict_get (uvs self) "right" ;;
  let right := ("right",
    [(x0, y0, z1); (x0, y0, z0); (x0, y1, z0); (x0, y1, z1)],
    [(u1, v1); (u0, v1); (u0, v0); (u1, v0)]) in
  '(u0, v0, u1, v1) <- dict_get (uvs self) "left" ;;
  let left := ("left",
    [(x1, y0, z0); (x1, y0, z1); (x1, y1, z1); (x1, y1, z0)],
    [(u1, v1); (u0, v1); (u0, v0); (u1, v0)]) in
  '(u0, v0, u1, v1) <- dict_get (uvs self) "top" ;;
  let top := ("top",
    [(x0, y1, z0); (x1, y1, z0); (x1, y1, z1); (x0, y1, z1)],
    [(u0, v0); (u1, v0); (u1, v1); (u0, v1)]) in
  '(u0, v0, u1, v1) <- dict_get (uvs self) "bottom" ;;
  let bottom := ("bottom",
    [(x0, y0, z1); (x1, y0, z1); (x1, y0, z0); (x0, y0, z0)],
    [(u0, v0); (u1, v0); (u1, v1); (u0, v1)]) in
  Ok [front; back; right; left; top; bottom].

(** [PlayerModel].  A part is a Python object shared by the model's lists
    and by the list [get_all_parts()] returns; [_apply_pose] assigns to
    [part.rotation] through that list.  Each assignment depends only on the
    part's own name, so updating the parts in place in both lists is the
    same store. *)
Record PlayerModel : Type := mkPlayerModel {
  base_parts : list BoxPart;
  overlay_parts : list BoxPart
}.

Definition get_all_parts (self : PlayerModel) : list BoxPart :=
  base_parts self ++ overlay_parts self.

(** [for part in self.get_all_parts(): body(part)] *)
Definition for_all_parts (body : BoxPart -> BoxPart) (self : PlayerModel)
  : PlayerModel :=
  mkPlayerModel (map body (base_parts self)) (map body (overlay_parts self)).

(** [needle in hay] on strings. *)
Fixpoint contains (needle hay : string) : bool :=
  if String.prefix needle hay then true
  else match hay with
       | EmptyString => false
       | String _ hay' => contains needle hay'
       end.

Definition rot (x y z : Z) : vec3 := (of_Z x, of_Z y, of_Z z).

Definition walking (part : BoxPart) : BoxPart :=
  if contains "rightArm" (name part) || contains "rightSleeve" (name part)
  then set_rotation part (rot 30 0 0)
  else if contains "leftArm" (name part) || contains "leftSleeve" (name part)
  then set_rotation part (rot (-30) 0 0)
  else if contains "rightLeg" (name part) || contains "rightPants" (name part)
  then set_rotation part (rot (-30) 0 0)
  else if contains "leftLeg" (name part) || contains "leftPants" (name part)
  then set_rotation part (rot 30 0 0)
  else part.

Definition arms_out (part : BoxPart) : BoxPart :=
  if contains "rightArm" (name part) || contains "rightSleeve" (name part)
  then set_rotation part (rot 0 0 90)
  else if contains "leftArm" (name part) || contains "leftSleeve" (name part)
  then set_rotation part (rot 0 0 (-90))
  else part.

(** [PlayerModel._apply_pose] *)
Definition _apply_pose (self : PlayerModel) (pose_index : Z) : PlayerModel :=
  let self := for_all_parts (fun part => set_rotation part (rot 0 0 0)) self in
  if Z.eqb pose_index 1 then for_all_parts walking self
  else if Z.eqb pose_index 2 then for_all_parts arms_out self
  else self.

Definition set_pose (self : PlayerModel) (pose_index : Z) : PlayerModel :=
  _apply_pose self pose_index.

(** [math.cos] and [math.sin] belong to the platform's C library; the
    model takes them as it finds them, together with whatever they raise. *)
Class Trig : Type := {
  math_cos : float -> result float;
  math_sin : float -> result float
}.

(** [math.radians(x)] is [x * (pi / 180.0)] with the binary64 [pi]. *)
Definition pi : float := S754_finite false 7074237752028440 (-51).
Definition deg_to_rad : float := fquot pi (of_Z 180).
Definition radians (x : float) : float := (x * deg_to_rad)%f.

Section Rotation.

Context {libm : Trig}.

(** [_rotate_point]: Euler X, then Y, then Z, about [pivot]. *)
Definition _rotate_point (px py pz : float) (pivot rotation_deg : vec3)
  : result vec3 :=
  let '(cx, cy, cz) := pivot in
  let '(rx, ry, rz) := rotation_deg in
  let rx := radians rx in
  let ry := radians ry in
  let rz := radians rz in
  let x := (px - cx)%f in
  let y := (py - cy)%f in
  let z := (pz - cz)%f in
  cos_a <- math_cos rx ;;
  sin_a <- math_sin rx ;;
  let '(y, z) := (cos_a * y - sin_a * z, sin_a * y + cos_a * z)%f in
  cos_a <- math_cos ry ;;
  sin_a <- math_sin ry ;;
  let '(x, z) := (cos_a * x + sin_a * z, fopp sin_a * x + cos_a * z)%f in
  cos_a <- math_cos rz ;;
  sin_a <- math_sin rz ;;
  let '(x, y) := (cos_a * x - sin_a * y, sin_a * x + cos_a * y)%f in
  Ok (x + cx, y + cy, z + cz)%f.

(** [get_transformed_quads] *)
Definition get_transformed_quads (part : BoxPart) : result (list quad) :=
  quads <- get_face_quads part ;;
  let '(rx, ry, rz) := rotation part in
  if feq rx zero && feq ry zero && feq rz zero then Ok quads
  else
    map_r (fun q : quad =>
             let '(face_name, verts, uvs) := q in
             new_verts <- map_r (fun v : vec3 =>
                                   let '(vx, vy, vz) := v in
                                   _rotate_point vx vy vz (pivot part)
                                                 (rotation part)) verts ;;
             Ok (face_name, new_verts, uvs))
          quads.

End Rotation.

Definition v3 (x y z : float) : vec3 := (x, y, z).
Definition i3 (x y z : Z) : vec3 := (of_Z x, of_Z y, of_Z z).
Definition i2 (x y : Z) : uv := (of_Z x, of_Z y).
Definition half : float := lit 1 2.

(** [SteveModel.__init__]: the classic model, 4-pixel-wide arms. *)
Definition SteveModel : result PlayerModel :=
  base <- map_r (fun c => c) [
    BoxPart_init "head"     (i3 (-4) 24 (-4)) (i3 8 8 8)  (i2 0 0) zero
                 (Some (i3 0 24 0)) None;
    BoxPart_init "body"     (i3 (-4) 12 (-2)) (i3 8 12 4) (i2 16 16) zero
                 (Some (i3 0 24 0)) None;
    BoxPart_init "rightArm" (i3 (-8) 12 (-2)) (i3 4 12 4) (i2 40 16) zero
                 (Some (i3 (-5) 22 0)) None;
    BoxPart_init "leftArm"  (i3 4 12 (-2))    (i3 4 12 4) (i2 32 48) zero
                 (Some (i3 5 22 0)) None;
    BoxPart_init "rightLeg" (v3 (fopp (lit 39 10)) (of_Z 0) (of_Z (-2)))
                 (i3 4 12 4) (i2 0 16) zero
                 (Some (v3 (fopp (lit 19 10)) (of_Z 12) (of_Z 0))) None;
    BoxPart_init "leftLeg"  (v3 (fopp (lit 1 10)) (of_Z 0) (of_Z (-2)))
                 (i3 4 12 4) (i2 16 48) zero
                 (Some (v3 (lit 19 10) (of_Z 12) (of_Z 0))) None ] ;;
  overlay <- map_r (fun c => c) [
    BoxPart_init "hat"         (i3 (-4) 24 (-4)) (i3 8 8 8)  (i2 32 0) half
                 (Some (i3 0 24 0)) None;
    BoxPart_init "jacket"      (i3 (-4) 12 (-2)) (i3 8 12 4) (i2 16 32) half
                 (Some (i3 0 24 0)) None;
    BoxPart_init "rightSleeve" (i3 (-8) 12 (-2)) (i3 4 12 4) (i2 40 32) half
                 (Some (i3 (-5) 22 0)) None;
    BoxPart_init "leftSleeve"  (i3 4 12 (-2))    (i3 4 12 4) (i2 48 48) half
                 (Some (i3 5 22 0)) None;
    BoxPart_init "rightPants"  (v3 (fopp (lit 39 10)) (of_Z 0) (of_Z (-2)))
                 (i3 4 12 4) (i2 0 32) half
                 (Some (v3 (fopp (lit 19 10)) (of_Z 12) (of_Z 0))) None;
    BoxPart_init "leftPants"   (v3 (fopp (lit 1 10)) (of_Z 0) (of_Z (-2)))
                 (i3 4 12 4) (i2 0 48) half
                 (Some (v3 (lit 19 10) (of_Z 12) (of_Z 0))) None ] ;;
  Ok (mkPlayerModel base overlay).

(** [AlexModel.__init__]: the slim model, 3-pixel-wide arms. *)
Definition AlexModel : result PlayerModel :=
  base <- map_r (fun c => c) [
    BoxPart_init "head"     (i3 (-4) 24 (-4)) (i3 8 8 8)  (i2 0 0) zero
                 (Some (i3 0 24 0)) None;
    BoxPart_init "body"     (i3 (-4) 12 (-2)) (i3 8 12 4) (i2 16 16) zero
                 (Some (i3 0 24 0)) None;
    BoxPart_init "rightArm" (i3 (-7) 12 (-2)) (i3 3 12 4) (i2 40 16) zero
                 (Some (v3 (of_Z (-5)) (lit 43 2) (of_Z 0))) None;
    BoxPart_init "leftArm"  (i3 4 12 (-2))    (i3 3 12 4) (i2 32 48) zero
                 (Some (v3 (of_Z 5) (lit 43 2) (of_Z 0))) None;
    BoxPart_init "rightLeg" (v3 (fopp (lit 39 10)) (of_Z 0) (of_Z (-2)))
                 (i3 4 12 4) (i2 0 16) zero
                 (Some (v3 (fopp (lit 19 10)) (of_Z 12) (of_Z 0))) None;
    BoxPart_init "leftLeg"  (v3 (fopp (lit 1 10)) (of_Z 0) (of_Z (-2)))
                 (i3 4 12 4) (i2 16 48) zero
                 (Some (v3 (lit 19 10) (of_Z 12) (of_Z 0))) None ] ;;
  overlay <- map_r (fun c => c) [
    BoxPart_init "hat"         (i3 (-4) 24 (-4)) (i3 8 8 8)  (i2 32 0) half
                 (Some (i3 0 24 0)) None;
    BoxPart_init "jacket"      (i3 (-4) 12 (-2)) (i3 8 12 4) (i2 16 32) half
                 (Some (i3 0 24 0)) None;
    BoxPart_init "rightSleeve" (i3 (-7) 12 (-2)) (i3 3 12 4) (i2 40 32) half
                 (Some (v3 (of_Z (-5)) (lit 43 2) (of_Z 0))) None;
    BoxPart_init "leftSleeve"  (i3 4 12 (-2))    (i3 3 12 4) (i2 48 48) half
                 (Some (v3 (of_Z 5) (lit 43 2) (of_Z 0))) None;
    BoxPart_init "rightPants"  (v3 (fopp (lit 39 10)) (of_Z 0) (of_Z (-2)))
                 (i3 4 12 4) (i2 0 32) half
                 (Some (v3 (fopp (lit 19 10)) (of_Z 12) (of_Z 0))) None;
    BoxPart_init "leftPants"   (v3 (fopp (lit 1 10)) (of_Z 0) (of_Z (-2)))
                 (i3 4 12 4) (i2 0 48) half
                 (Some (v3 (lit 19 10) (of_Z 12) (of_Z 0))) None ] ;;
  Ok (mkPlayerModel base overlay).

End model.

(* ================================================================== *)
(** ** interaction.py: unprojection, ray casting, picking *)

Module interaction.

Import B64 model.
Local Open Scope Z_scope.

Local Infix "+" := fadd : float_scope.
Local Infix "-" := fsub : float_scope.
Local Infix "*" := fmul : float_scope.

Definition Matrix4 : Type := list float.
Definition Vector4 : Type := (float * float * float * float)%type.

Definition _mat4_inverse : Matrix4 -> result (option Matrix4) :=
  mathutil.mat4_inverse.
Definition _mat4_mul_vec4 : Matrix4 -> Vector4 -> result Vector4 :=
  mathutil.mat4_mul_vec4.

(** [xs[i]] on a Python list. *)
Definition item {A : Type} (xs : list A) (i : nat) : result A :=
  match nth_error xs i with
  | Some x => Ok x
  | None => Raise IndexError
  end.

(** The two screen-to-NDC lines of [_unproject]. *)
Definition ndc (mx my viewport_w viewport_h : float) : result (float * float) :=
  sx <- py_div (two * mx)%f viewport_w ;;
  let ndc_x := (sx - one)%f in
  sy <- py_div (two * my)%f viewport_h ;;
  let ndc_y := (one - sy)%f in
  Ok (ndc_x, ndc_y).

(** [tuple(c / v[3] for c in v)] *)
Definition persp_divide (v : Vector4) : result Vector4 :=
  let '(x, y, z, w) := v in
  x' <- py_div x w ;;
  y' <- py_div y w ;;
  z' <- py_div z w ;;
  w' <- py_div w w ;;
  Ok (x', y', z', w').

Section Unprojection.

Context {libc : Pow}.

(** [math.sqrt(d[0]**2 + d[1]**2 + d[2]**2)] *)
Definition length3 (d : vec3) : result float :=
  let '(d0, d1, d2) := d in
  a <- py_sq d0 ;;
  b <- py_sq d1 ;;
  c <- py_sq d2 ;;
  py_sqrt (a + b + c)%f.

(** [_unproject]; [None] is the pair [(None, None)] of the source. *)
Definition _unproject (mx my viewport_w viewport_h : float)
  (proj view : Matrix4) : result (option (vec3 * vec3)) :=
  '(ndc_x, ndc_y) <- ndc mx my viewport_w viewport_h ;;
  inv_proj <- _mat4_inverse proj ;;
  inv_view <- _mat4_inverse view ;;
  match inv_proj, inv_view with
  | Some inv_proj, Some inv_view =>
      let near_clip := (ndc_x, ndc_y, fopp one, one) in
      let far_clip := (ndc_x, ndc_y, one, one) in
      near_eye <- _mat4_mul_vec4 inv_proj near_clip ;;
      far_eye <- _mat4_mul_vec4 inv_proj far_clip ;;
      if flt (fabs (snd near_eye)) eps12 || flt (fabs (snd far_eye)) eps12
      then Ok None
      else
        near_eye <- persp_divide near_eye ;;
        far_eye <- persp_divide far_eye ;;
        '(nx, ny, nz, _) <- _mat4_mul_vec4 inv_view near_eye ;;
        '(fx, fy, fz, _) <- _mat4_mul_vec4 inv_view far_eye ;;
        let origin := (nx, ny, nz) in
        let direction := (fx - nx, fy - ny, fz - nz)%f in
        dl <- length3 direction ;;
        if flt dl eps12 then Ok None
        else
          let '(d0, d1, d2) := direction in
          e0 <- py_div d0 dl ;;
          e1 <- py_div d1 dl ;;
          e2 <- py_div d2 dl ;;
          Ok (Some (origin, (e0, e1, e2)))
  | _, _ => Ok None
  end.

End Unprojection.

Definition EPSILON : float := eps7.

(** [_ray_triangle_intersect]: Moller-Trumbore; [(t, u_tex, v_tex)]. *)
Definition _ray_triangle_intersect (origin direction v0 v1 v2 : vec3)
  (uv0 uv1 uv2 : uv) : result (option (float * float * float)) :=
  let '(ox, oy, oz) := origin in
  let '(dx, dy, dz) := direction in
  let '(v0x, v0y, v0z) := v0 in
  let '(v1x, v1y, v1z) := v1 in
  let '(v2x, v2y, v2z) := v2 in
  let '(e1x, e1y, e1z) := (v1x - v0x, v1y - v0y, v1z - v0z)%f in
  let '(e2x, e2y, e2z) := (v2x - v0x, v2y - v0y, v2z - v0z)%f in
  let '(hx, hy, hz) := (dy * e2z - dz * e2y,
                        dz * e2x - dx * e2z,
                        dx * e2y - dy * e2x)%f in
  let a := (e1x * hx + e1y * hy + e1z * hz)%f in
  if flt (fabs a) EPSILON then Ok None
  else
    f <- py_div one a ;;
    let '(sx, sy, sz) := (ox - v0x, oy - v0y, oz - v0z)%f in
    let u := (f * (sx * hx + sy * hy + sz * hz))%f in
    if flt u zero || flt one u then Ok None
    else
      let '(qx, qy, qz) := (sy * e1z - sz * e1y,
                            sz * e1x - sx * e1z,
                            sx * e1y - sy * e1x)%f in
      let v := (f * (dx * qx + dy * qy + dz * qz))%f in
      if flt v zero || flt one (u + v)%f then Ok None
      else
        let t := (f * (e2x * qx + e2y * qy + e2z * qz))%f in
        if flt t EPSILON then Ok None
        else
          let w0 := (one - u - v)%f in
          let tex_u := (w0 * fst uv0 + u * fst uv1 + v * fst uv2)%f in
          let tex_v := (w0 * snd uv0 + u * snd uv1 + v * snd uv2)%f in
          Ok (Some (t, tex_u, tex_v)).

(** [_ray_quad_intersect]: triangles (0,1,2) and then (0,2,3). *)
Definition _ray_quad_intersect (origin direction : vec3)
  (verts : list vec3) (uvs : list uv)
  : result (option (float * float * float)) :=
  a0 <- item verts 0 ;; a1 <- item verts 1 ;; a2 <- item verts 2 ;;
  t0 <- item uvs 0 ;; t1 <- item uvs 1 ;; t2 <- item uvs 2 ;;
  result <- _ray_triangle_intersect origin direction a0 a1 a2 t0 t1 t2 ;;
  match result with
  | Some hit => Ok (Some hit)
  | None =>
      a0 <- item verts 0 ;; a2 <- item verts 2 ;; a3 <- item verts 3 ;;
      t0 <- item uvs 0 ;; t2 <- item uvs 2 ;; t3 <- item uvs 3 ;;
      _ray_triangle_intersect origin direction a0 a2 a3 t0 t2 t3
  end.

(** [max(0, min(dim - 1, p))] *)
Definition clamp (dim p : Z) : Z := Z.max 0 (Z.min (dim - 1) p).

Section Pick.

Context {libm : Trig} {libc : Pow}.

(** The loop state of [pick]: [(best_t, best_uv)]. *)
Definition best : Type := (float * option uv)%type.

(** The body of the inner loop of [pick]. *)
Definition test_quad (origin direction : vec3) (q : quad) (b : best)
  : result best :=
  let '(face_name, verts, uvs) := q in
  hit <- _ray_quad_intersect origin direction verts uvs ;;
  match hit with
  | Some (t, tex_u, tex_v) =>
      if flt t (fst b) then Ok (t, Some (tex_u, tex_v)) else Ok b
  | None => Ok b
  end.

(** The two nested loops of [pick]. *)
Definition closest_hit (origin direction : vec3) (parts : list BoxPart)
  : result best :=
  for_each parts (fun part b =>
      quads <- get_transformed_quads part ;;
      for_each quads (test_quad origin direction) b)
    (inf, None).

(** The texel of the winning UV: the last four lines of [pick]. *)
Definition texel (best_uv : uv) : result (Z * Z) :=
  let '(tex_u, tex_v) := best_uv in
  px <- py_int (tex_u * of_Z TEX_W)%f ;;
  py <- py_int (tex_v * of_Z TEX_H)%f ;;
  Ok (clamp TEX_W px, clamp TEX_H py).

(** [RayCaster.pick] *)
Definition pick (mx my viewport_w viewport_h : float) (proj view : Matrix4)
  (model : PlayerModel) (overlay_visible : bool) : result (option (Z * Z)) :=
  ray <- _unproject mx my viewport_w viewport_h proj view ;;
  match ray with
  | None => Ok None
  | Some (origin, direction) =>
      let parts := if overlay_visible then get_all_parts model
                   else base_parts model in
      '(best_t, best_uv) <- closest_hit origin direction parts ;;
      match best_uv with
      | None => Ok None
      | Some best_uv => px_py <- texel best_uv ;; Ok (Some px_py)
      end
  end.

End Pick.

End interaction.

(* ================================================================== *)
(** ** What the specification says, in its own words *)

Module Spec.

Import B64 model interaction.
Local Open Scope Z_scope.
Local Open Scope string_scope.

Local Infix "+" := fadd : float_scope.
Local Infix "-" := fsub : float_scope.
Local Infix "*" := fmul : float_scope.
Local Infix "/" := fquot : float_scope.

(** *** Texels (4.4): [px = floor(u * textureWidth)], clamped to
    [[0, dimension-1]]. *)
Definition texel_spec (best_uv : uv) : option (Z * Z) :=
  let '(u, v) := best_uv in
  match floor (u * of_Z 64)%f, floor (v * of_Z 64)%f with
  | Some px, Some py =>
      Some (Z.max 0 (Z.min (64 - 1) px), Z.max 0 (Z.min (64 - 1) py))
  | _, _ => None
  end.

(** *** The box unwrap (4.2): pixel rectangles [(x, y, width, height)]. *)
Definition pixel_rects (u0 v0 w h d : float)
  : dict (float * float * float * float) :=
  [ ("right",  (u0,                 (v0 + d)%f, d, h));
    ("front",  ((u0 + d)%f,         (v0 + d)%f, w, h));
    ("left",   ((u0 + d + w)%f,     (v0 + d)%f, d, h));
    ("back",   ((u0 + d + w + d)%f, (v0 + d)%f, w, h));
    ("top",    ((u0 + d)%f,         v0,         w, d));
    ("bottom", ((u0 + d + w)%f,     v0,         w, d)) ].

(** Normalized [(uMin, vMin, uMax, vMax)]: x-extents over the atlas width,
    y-extents over the atlas height. *)
Definition normalized (atlas_w atlas_h : float)
  (r : float * float * float * float) : rect :=
  let '(x, y, width, height) := r in
  (x / atlas_w, y / atlas_h, (x + width) / atlas_w, (y + height) / atlas_h)%f.

Definition box_unwrap (atlas_w atlas_h u0 v0 w h d : float) : dict rect :=
  map (fun kr => (fst kr, normalized atlas_w atlas_h (snd kr)))
      (pixel_rects u0 v0 w h d).

(** *** Winding (4.2).  The direction each face looks at, as the comments
    of [get_face_quads] give it. *)
Definition facing (face : string) : vec3 :=
  if String.eqb face "front" then i3 0 0 (-1)
  else if String.eqb face "back" then i3 0 0 1
  else if String.eqb face "right" then i3 (-1) 0 0
  else if String.eqb face "left" then i3 1 0 0
  else if String.eqb face "top" then i3 0 1 0
  else if String.eqb face "bottom" then i3 0 (-1) 0
  else i3 0 0 0.

Definition sub3 (a b : vec3) : vec3 :=
  let '(ax, ay, az) := a in
  let '(bx, by_, bz) := b in
  (ax - bx, ay - by_, az - bz)%f.

Definition cross (a b : vec3) : vec3 :=
  let '(ax, ay, az) := a in
  let '(bx, by_, bz) := b in
  (ay * bz - az * by_, az * bx - ax * bz, ax * by_ - ay * bx)%f.

Definition dot (a b : vec3) : float :=
  let '(ax, ay, az) := a in
  let '(bx, by_, bz) := b in
  (ax * bx + ay * by_ + az * bz)%f.

(** The right-hand normals of the four turns of a quad, [v0 -> v1 -> v2]
    and so on round: the vertices wind counter-clockwise for whoever these
    normals point at. *)
Definition turns (verts : list vec3) : list vec3 :=
  let v := fun i => nth i verts (i3 0 0 0) in
  [ cross (sub3 (v 1) (v 0)) (sub3 (v 2) (v 1));
    cross (sub3 (v 2) (v 1)) (sub3 (v 3) (v 2));
    cross (sub3 (v 3) (v 2)) (sub3 (v 0) (v 3));
    cross (sub3 (v 0) (v 3)) (sub3 (v 1) (v 0)) ]%nat.

Definition counter_clockwise_from_outside (q : quad) : bool :=
  let '(face, verts, _) := q in
  forallb (fun n => flt zero (dot n (facing face))) (turns verts).

Definition clockwise_from_outside (q : quad) : bool :=
  let '(face, verts, _) := q in
  forallb (fun n => flt (dot n (facing face)) zero) (turns verts).

(** The eight corners of the stored box. *)
Definition corners (p : BoxPart) : list vec3 :=
  let '(x0, y0, z0) := origin p in
  let '(w, h, d) := size p in
  let x1 := (x0 + w)%f in
  let y1 := (y0 + h)%f in
  let z1 := (z0 + d)%f in
  [ (x0, y0, z0); (x1, y0, z0); (x0, y1, z0); (x1, y1, z0);
    (x0, y0, z1); (x1, y0, z1); (x0, y1, z1); (x1, y1, z1) ].

(** The four corners of a UV rectangle. *)
Definition rect_corners (r : rect) : list uv :=
  let '(u0, v0, u1, v1) := r in [ (u0, v0); (u1, v0); (u1, v1); (u0, v1) ].

(** *** Poses (4.3) *)
Definition right_arm (n : string) : bool :=
  contains "rightArm" n || contains "rightSleeve" n.
Definition left_arm (n : string) : bool :=
  contains "leftArm" n || contains "leftSleeve" n.
Definition right_leg (n : string) : bool :=
  contains "rightLeg" n || contains "rightPants" n.
Definition left_leg (n : string) : bool :=
  contains "leftLeg" n || contains "leftPants" n.

(** A part with its rotation put aside: all that a pose must not touch. *)
Definition unposed (p : BoxPart) : BoxPart := set_rotation p (rot 0 0 0).

(** The walking rule read literally: each region gets its rotation. *)
Definition walking_as_stated : Prop :=
  forall (m : PlayerModel) (p : BoxPart),
    In p (get_all_parts (set_pose m 1)) ->
    (right_arm (name p) = true -> rotation p = rot 30 0 0) /\
    (left_arm (name p) = true -> rotation p = rot (-30) 0 0) /\
    (right_leg (name p) = true -> rotation p = rot (-30) 0 0) /\
    (left_leg (name p) = true -> rotation p = rot 30 0 0).

(** [rx == 0 and ry == 0 and rz == 0] *)
Definition all_zero (r : vec3) : bool :=
  let '(rx, ry, rz) := r in feq rx zero && feq ry zero && feq rz zero.

(** The face name and the UV list of a quad: all but its vertices. *)
Definition face_and_uvs (q : quad) : string * list uv :=
  (fst (fst q), snd q).

(** *** Model variants (4.3), read literally. *)
Definition variants_as_stated : Prop :=
  exists steve alex,
    SteveModel = Ok steve /\ AlexModel = Ok alex /\
    map name (get_all_parts steve) = map name (get_all_parts alex) /\
    map origin (get_all_parts steve) = map origin (get_all_parts alex) /\
    map uv_origin (get_all_parts steve) = map uv_origin (get_all_parts alex).

Definition is_arm (n : string) : bool := right_arm n || left_arm n.

(** *** The inverse (4.1, 8) *)

(** [|x - y| <= tol] *)
Definition within (tol x y : float) : bool := SFleb (fabs (x - y)%f) tol.

Definition approx_identity (tol : float) (m : list float) : bool :=
  (List.length m =? 16)%nat &&
  forallb (fun xy => within tol (fst xy) (snd xy))
          (combine m mathutil.identity).


(** *** Unprojection (4.4), steps 1 to 6 *)

Definition ndc_x (screen_x viewport_w : float) : float :=
  (two * screen_x / viewport_w - one)%f.
Definition ndc_y (screen_y viewport_h : float) : float :=
  (one - two * screen_y / viewport_h)%f.

(** Matrix times vector, for a matrix of sixteen entries. *)
Definition transform (m : list float) (v : Vector4) : Vector4 :=
  let '(x, y, z, w) := v in
  let e := fun i => nth i m zero in
  (e 0 * x + e 4 * y + e 8 * z + e 12 * w,
   e 1 * x + e 5 * y + e 9 * z + e 13 * w,
   e 2 * x + e 6 * y + e 10 * z + e 14 * w,
   e 3 * x + e 7 * y + e 11 * z + e 15 * w)%f%nat.

Definition w_of (v : Vector4) : float := snd v.

Definition divide_by_w (v : Vector4) : Vector4 :=
  let '(x, y, z, w) := v in (x / w, y / w, z / w, w / w)%f.

Definition xyz (v : Vector4) : vec3 := fst v.

(** A square is what [x ** 2] gives on the platform; NaN stands in where
    Python raises instead. *)
Definition squared {libc : Pow} (x : float) : float :=
  match py_sq x with
  | Ok s => s
  | Raise _ => S754_nan
  end.

Definition length_of {libc : Pow} (d : vec3) : float :=
  let '(d0, d1, d2) := d in
  fsqrt (squared d0 + squared d1 + squared d2)%f.

Definition normalize {libc : Pow} (d : vec3) : vec3 :=
  let '(d0, d1, d2) := d in
  (d0 / length_of d, d1 / length_of d, d2 / length_of d)%f.

Definition inverted (m : list float) : option (list float) :=
  match mathutil.mat4_inverse m with
  | Ok r => r
  | Raise _ => None
  end.

(** Steps 1 to 5: the near and far world points; nothing when an
    inversion fails or a perspective divide is refused. *)
Definition near_and_far (screen_x screen_y viewport_w viewport_h : float)
  (proj view : list float) : option (vec3 * vec3) :=
  let x := ndc_x screen_x viewport_w in
  let y := ndc_y screen_y viewport_h in
  match inverted proj, inverted view with
  | Some inv_proj, Some inv_view =>
      let near_eye := transform inv_proj (x, y, fopp one, one) in
      let far_eye := transform inv_proj (x, y, one, one) in
      if flt (fabs (w_of near_eye)) eps12 || flt (fabs (w_of far_eye)) eps12
      then None
      else Some (xyz (transform inv_view (divide_by_w near_eye)),
                 xyz (transform inv_view (divide_by_w far_eye)))
  | _, _ => None
  end.

(** Step 6. *)
Definition unproject_spec {libc : Pow}
  (screen_x screen_y viewport_w viewport_h : float)
  (proj view : list float) : option (vec3 * vec3) :=
  match near_and_far screen_x screen_y viewport_w viewport_h proj view with
  | Some (near, far) =>
      if flt (length_of (sub3 far near)) eps12 then None
      else Some (near, normalize (sub3 far near))
  | None => None
  end.

(** Python returns [x ** 2]: no [OverflowError]. *)
Definition square_returns {libc : Pow} (x : float) : bool :=
  match py_sq x with
  | Ok _ => true
  | Raise _ => false
  end.

(** The length of [d] can be taken: Python returns the three squares, and
    their sum is not below zero (it never is where [pow] of a positive
    number is not negative). *)
Definition squares_fit {libc : Pow} (d : vec3) : bool :=
  let '(d0, d1, d2) := d in
  square_returns d0 && square_returns d1 && square_returns d2
  && negb (flt (squared d0 + squared d1 + squared d2)%f zero).

(** On matrices of sixteen entries: a failed inversion gives "no result",
    and every call returns, "no result" or a ray. *)
Definition unproject_as_stated {libc : Pow} : Prop :=
  forall (mx my viewport_w viewport_h : float) (proj view : list float),
    List.length proj = 16%nat -> List.length view = 16%nat ->
    (mathutil.mat4_inverse proj = Ok None \/
     mathutil.mat4_inverse view = Ok None ->
     _unproject mx my viewport_w viewport_h proj view = Ok None) /\
    returns (_unproject mx my viewport_w viewport_h proj view).

(** *** Picking (4.4): the winning UV is the UV of a hit quad. *)
Definition hit_of {libm : Trig} (origin direction : vec3)
  (parts : list BoxPart) (b : best) : Prop :=
  exists part quads q,
    In part parts /\ get_transformed_quads part = Ok quads /\ In q quads /\
    exists u v,
      _ray_quad_intersect origin direction (snd (fst q)) (snd q)
      = Ok (Some (fst b, u, v)) /\
      snd b = Some (u, v).

(** *** What [BoxPart.__init__] stores (3) *)
Definition built (name : string) (origin size : vec3) (uv_origin : uv)
  (inflate : float) (pivot rotation : option vec3) : BoxPart :=
  let '(ox, oy, oz) := origin in
  let '(w, h, d) := size in
  mkBoxPart name
    (ox - inflate, oy - inflate, oz - inflate)%f
    (w + two * inflate, h + two * inflate, d + two * inflate)%f
    uv_origin inflate
    (box_unwrap (of_Z 64) (of_Z 64) (fst uv_origin) (snd uv_origin) w h d)
    match pivot with
    | Some p => p
    | None => (ox + w / two, oy + h / two, oz + d / two)%f
    end
    match rotation with
    | Some r => r
    | None => (zero, zero, zero)
    end.

(** *** The two variants, part by part (4.3) *)
Definition arm_variant_pair (s a : BoxPart) : Prop :=
  name s = name a /\ uv_origin s = uv_origin a /\
  inflate s = inflate a /\ rotation s = rotation a /\
  (is_arm (name s) = false -> s = a) /\
  (is_arm (name s) = true ->
   let grow := fun x : Z => (of_Z x + two * inflate s)%f in
   size s = (grow 4, grow 12, grow 4) /\
   size a = (grow 3, grow 12, grow 4) /\
   (exists x z, pivot s = (x, of_Z 22, z) /\ pivot a = (x, lit 43 2, z)) /\
   (left_arm (name s) = true -> origin s = origin a) /\
   (right_arm (name s) = true ->
    exists y z, origin s = ((of_Z (-8) - inflate s)%f, y, z) /\
                origin a = ((of_Z (-7) - inflate s)%f, y, z))).

(** *** Inputs for the examples *)

(** A stand-in for the platform's [cos] and [sin], only to run examples:
    truncated Maclaurin series. *)
Definition series_cos (x : float) : float :=
  let x2 := (x * x)%f in
  (one - x2 / of_Z 2 + x2 * x2 / of_Z 24 - x2 * x2 * x2 / of_Z 720)%f.
Definition series_sin (x : float) : float :=
  let x2 := (x * x)%f in
  (x - x * x2 / of_Z 6 + x * x2 * x2 / of_Z 120
   - x * x2 * x2 * x2 / of_Z 5040)%f.

#[local] Instance series_libm : Trig := {
  math_cos := fun x => Ok (series_cos x);
  math_sin := fun x => Ok (series_sin x)
}.

(** A stand-in for the platform's [pow(x, 2.0)], only to run examples: the
    correctly rounded square, with [errno] left alone.  It is what any
    [pow] returns where the square is a binary64 number, as for 2, and
    where the square is far beyond the largest one, as for 2e200. *)
#[local] Instance rounded_pow : Pow := {
  c_pow_2 := fun x => (x * x, E_none)%f
}.

Definition identity4 : list float := mathutil.identity.

(** [BoxPart("test", (0, 0, 0), (2, 3, 4), (0, 0))] of the tests. *)
Definition test_box : result BoxPart :=
  BoxPart_init "test" (i3 0 0 0) (i3 2 3 4) (i2 0 0) zero None None.

(** A part that two walking rules name. *)
Definition two_region_part : BoxPart :=
  built "leftArm.rightArm" (i3 0 0 0) (i3 1 1 1) (i2 0 0) zero None None.


(** The identity view with [view[8] = -1e200]: a shear along x. *)
Definition sheared_view : list float :=
  [ one; zero; zero; zero;
    zero; one; zero; zero;
    fopp (of_Z (10 ^ 200)); zero; one; zero;
    zero; zero; zero; one ].

(** The near and far world points under the sheared view at the centre of
    a 600x700 viewport, and how far apart they are along x: 2e200. *)
Definition sheared_ends : vec3 * vec3 :=
  match near_and_far (of_Z 300) (of_Z 350) (of_Z 600) (of_Z 700)
                     identity4 sheared_view with
  | Some ends => ends
  | None => (i3 0 0 0, i3 0 0 0)
  end.

Definition shear_gap : float :=
  fst (fst (sub3 (snd sheared_ends) (fst sheared_ends))).

(** A projection that only doubles the depth: the near and far points of
    the centre of the viewport are then one apart, and Python squares 0
    and 1 without a call to [pow]. *)
Definition doubled_depth : list float :=
  [ one; zero; zero; zero;
    zero; one; zero; zero;
    zero; zero; two; zero;
    zero; zero; zero; one ].

(** The matrix of [test_a_times_a_inv_is_identity], in exact rationals. *)
Definition scale_translate : list Q :=
  [ 2; 0; 0; 0;
    0; 1 # 2; 0; 0;
    0; 0; 3; 0;
    5; -3; 7; 1 ]%Q.

Definition scale_translate_inverse : list Q :=
  match mathutil.mat4_inverse scale_translate with
  | Ok (Some inv) => inv
  | _ => []
  end.

Definition steve : PlayerModel :=
  match SteveModel with
  | Ok m => m
  | Raise _ => mkPlayerModel [] []
  end.

(** The right arm of the walking classic model. *)
Definition swung_arm : BoxPart :=
  nth 2 (base_parts (set_pose steve 1)) two_region_part.

Definition swung_arm_quads : list quad :=
  match get_transformed_quads swung_arm with
  | Ok quads => quads
  | Raise _ => []
  end.

End Spec.


(* ================================================================== *)
(** ** mathutil.py: the two camera matrices, on binary64 *)

Module camera.

Import B64 model.
Local Open Scope Z_scope.

Local Infix "+" := fadd : float_scope.
Local Infix "-" := fsub : float_scope.
Local Infix "*" := fmul : float_scope.

(** [math.tan], as the platform has it. *)
Class Tan : Type := {
  math_tan : float -> result float
}.

(** [perspective(fov_deg, aspect, near, far)]; the entries the source
    writes as the integers [0] and [-1] are taken as the floats of the same
    value. *)
Definition perspective {libm : Tan} (fov_deg aspect near far : float)
  : result (list float) :=
  half_fov <- py_div (radians fov_deg) two ;;
  t <- math_tan half_fov ;;
  f <- py_div one t ;;
  let nf := (near - far)%f in
  m0 <- py_div f aspect ;;
  m10 <- py_div (far + near)%f nf ;;
  m14 <- py_div (two * far * near)%f nf ;;
  Ok [ m0;   zero; zero; zero;
       zero; f;    zero; zero;
       zero; zero; m10;  of_Z (-1);
       zero; zero; m14;  zero ].

(** [math.sqrt(x*x + y*y + z*z)] *)
Definition norm3 (x y z : float) : result float :=
  py_sqrt (x * x + y * y + z * z)%f.

(** [look_at(eye, center, up)]; the integers [0] and [1] of the last
    row likewise. *)
Definition look_at (eye center up : vec3) : result (list float) :=
  let '(eye0, eye1, eye2) := eye in
  let '(center0, center1, center2) := center in
  let '(up0, up1, up2) := up in
  let fx := (center0 - eye0)%f in
  let fy := (center1 - eye1)%f in
  let fz := (center2 - eye2)%f in
  fl <- norm3 fx fy fz ;;
  fx <- py_div fx fl ;; fy <- py_div fy fl ;; fz <- py_div fz fl ;;
  let sx := (fy * up2 - fz * up1)%f in
  let sy := (fz * up0 - fx * up2)%f in
  let sz := (fx * up1 - fy * up0)%f in
  sl <- norm3 sx sy sz ;;
  sx <- py_div sx sl ;; sy <- py_div sy sl ;; sz <- py_div sz sl ;;
  let ux := (sy * fz - sz * fy)%f in
  let uy := (sz * fx - sx * fz)%f in
  let uz := (sx * fy - sy * fx)%f in
  Ok [ sx; ux; fopp fx; zero;
       sy; uy; fopp fy; zero;
       sz; uz; fopp fz; zero;
       fopp (sx * eye0 + sy * eye1 + sz * eye2)%f;
       fopp (ux * eye0 + uy * eye1 + uz * eye2)%f;
       (fx * eye0 + fy * eye1 + fz * eye2)%f;
       one ].

End camera.

(* ================================================================== *)
(** ** renderer.py: the mesh handed to the GPU, and the orbit camera *)

Module renderer.

Import B64 model interaction.
Local Open Scope Z_scope.

Local Infix "+" := fadd : float_scope.
Local Infix "-" := fsub : float_scope.
Local Infix "*" := fmul : float_scope.

(** Python's two-argument [max] and [min]: the first argument stays
    unless the second is strictly beyond it. *)
Definition py_max (a b : float) : float := if flt a b then b else a.
Definition py_min (a b : float) : float := if flt b a then b else a.

(** What [build_model_buffers] and its nested [_add_parts] accumulate:
    the lists [vertices] and [indices] and the counter [vertex_offset]. *)
Record buffers : Type := mkBuffers {
  vertices : list float;
  indices : list nat;
  vertex_offset : nat
}.

(** The face normal of a quad: [e1 x e2] of its first triangle, divided
    by its length when [nl > 0]. *)
Definition face_normal (verts : list vec3) : result vec3 :=
  v0 <- item verts 0 ;; v1 <- item verts 1 ;; v2 <- item verts 2 ;;
  let '(v0x, v0y, v0z) := v0 in
  let '(v1x, v1y, v1z) := v1 in
  let '(v2x, v2y, v2z) := v2 in
  let '(e1x, e1y, e1z) := (v1x - v0x, v1y - v0y, v1z - v0z)%f in
  let '(e2x, e2y, e2z) := (v2x - v0x, v2y - v0y, v2z - v0z)%f in
  let nx := (e1y * e2z - e1z * e2y)%f in
  let ny := (e1z * e2x - e1x * e2z)%f in
  let nz := (e1x * e2y - e1y * e2x)%f in
  nl <- py_sqrt (nx * nx + ny * ny + nz * nz)%f ;;
  if flt zero nl then
    nx <- py_div nx nl ;; ny <- py_div ny nl ;; nz <- py_div nz nl ;;
    Ok (nx, ny, nz)
  else Ok (nx, ny, nz).

(** The body of the loop over the quads of a part. *)
Definition add_quad (q : quad) (b : buffers) : result buffers :=
  let '(face_name, verts, uvs) := q in
  '(nx, ny, nz) <- face_normal verts ;;
  vs <- for_each [0; 1; 2; 3]%nat (fun i vs =>
          '(x, y, z) <- item verts i ;;
          '(u, v) <- item uvs i ;;
          Ok (vs ++ [x; y; z] ++ [u; v] ++ [nx; ny; nz]))
        (vertices b) ;;
  let o := vertex_offset b in
  Ok (mkBuffers vs
        (indices b ++ [o; o + 1; o + 2; o; o + 2; o + 3]%nat)
        (o + 4)%nat).

(** The rest of [build_model_buffers], from [struct.pack] to the last
    [glBindVertexArray] (lines 147 to 169), packs the two lists and hands
    them to OpenGL: it acts on the GPU through the platform's library, and
    the model takes it as a whole, with whatever it raises. *)
Class GL : Type := {
  upload : list float -> list nat -> result unit
}.

Section Buffers.

Context {libm : Trig} {gl : GL}.

(** The nested [_add_parts(parts)]. *)
Definition _add_parts (parts : list BoxPart) (b : buffers) : result buffers :=
  for_each parts (fun part b =>
      quads <- get_transformed_quads part ;;
      for_each quads add_quad b)
    b.

(** What [build_model_buffers] leaves behind: the vertex floats and the
    indices it has uploaded, and the fields [_base_index_count],
    [_overlay_index_offset], [_index_count], [_vertex_count] of the
    renderer. *)
Record mesh : Type := mkMesh {
  mesh_vertices : list float;
  mesh_indices : list nat;
  _base_index_count : nat;
  _overlay_index_offset : nat;
  _index_count : nat;
  _vertex_count : nat
}.

(** [build_model_buffers]: the two calls of [_add_parts], the four
    fields, then the upload. *)
Definition build_model_buffers (model : PlayerModel) : result mesh :=
  b <- _add_parts (base_parts model) (mkBuffers [] [] 0) ;;
  let base_index_count := List.length (indices b) in
  let overlay_index_offset := List.length (indices b) in
  b <- _add_parts (overlay_parts model) b ;;
  _ <- upload (vertices b) (indices b) ;;
  Ok (mkMesh (vertices b) (indices b) base_index_count overlay_index_offset
             (List.length (indices b)) (vertex_offset b)).

End Buffers.

(** The orbit camera of [Renderer]. *)
Record orbit : Type := mkOrbit {
  _cam_yaw : float;
  _cam_pitch : float;
  _cam_distance : float;
  _cam_target : vec3
}.

(** [camera_rotate(dx, dy)] *)
Definition camera_rotate (self : orbit) (dx dy : float) : orbit :=
  let yaw := (_cam_yaw self + dx * lit 1 2)%f in
  let pitch := (_cam_pitch self + dy * lit 1 2)%f in
  let pitch := py_max (of_Z (-89)) (py_min (of_Z 89) pitch) in
  mkOrbit yaw pitch (_cam_distance self) (_cam_target self).

(** [camera_zoom(delta)] *)
Definition camera_zoom (self : orbit) (delta : float) : orbit :=
  let distance := (_cam_distance self + delta * two)%f in
  let distance := py_max (of_Z 10) (py_min (of_Z 120) distance) in
  mkOrbit (_cam_yaw self) (_cam_pitch self) distance (_cam_target self).

(** [reset_camera()] *)
Definition reset_camera (self : orbit) : orbit :=
  mkOrbit (of_Z 205) (of_Z 15) (of_Z 45) (i3 0 16 0).

End renderer.

(* ================================================================== *)
(** ** Further vocabulary for statements about this code *)

Module Spec2.

Import B64 model interaction Spec.
Local Open Scope Z_scope.
Local Open Scope string_scope.

(** [x <= y] *)
Definition fle (x y : float) : bool := SFleb x y.

(** Two UV rectangles share no interior point. *)
Definition apart (a b : rect) : bool :=
  let '(au0, av0, au1, av1) := a in
  let '(bu0, bv0, bu1, bv1) := b in
  fle au1 bu0 || fle bu1 au0 || fle av1 bv0 || fle bv1 av0.

(** A proper rectangle inside the unit square. *)
Definition in_atlas (r : rect) : bool :=
  let '(u0, v0, u1, v1) := r in
  fle zero u0 && flt u0 u1 && fle u1 one
  && fle zero v0 && flt v0 v1 && fle v1 one.

Fixpoint pairwise {A : Type} (r : A -> A -> bool) (xs : list A) : bool :=
  match xs with
  | [] => true
  | x :: xs' => forallb (r x) xs' && pairwise r xs'
  end.

(** Every face rectangle of every part of a model. *)
Definition atlas_rects (m : PlayerModel) : list rect :=
  flat_map (fun p => map snd (uvs p)) (get_all_parts m).

(** The rotation a pose gives to a part of that name. *)
Definition pose_rotation (pose_index : Z) (n : string) : vec3 :=
  if Z.eqb pose_index 1 then
    if right_arm n then rot 30 0 0
    else if left_arm n then rot (-30) 0 0
    else if right_leg n then rot (-30) 0 0
    else if left_leg n then rot 30 0 0
    else rot 0 0 0
  else if Z.eqb pose_index 2 then
    if right_arm n then rot 0 0 90
    else if left_arm n then rot 0 0 (-90)
    else rot 0 0 0
  else rot 0 0 0.

(** Equal rationals, entry by entry. *)
Definition same_entries (a b : list Q) : Prop := Forall2 Qeq a b.

Definition same_vector (u v : Q * Q * Q * Q) : Prop :=
  let '(u0, u1, u2, u3) := u in
  let '(v0, v1, v2, v3) := v in
  (u0 == v0 /\ u1 == v1 /\ u2 == v2 /\ u3 == v3)%Q.

(** A loop state of [pick] whose distance is that of another or below it. *)
Definition not_above (b' b : best) : Prop :=
  fst b' = fst b \/ flt (fst b') (fst b) = true.

(** The mesh [b'] is the mesh [b] with [n] more quads: eight floats a
    vertex and six indices every four vertices appended, each new index
    naming a new vertex. *)
Definition grows (b b' : renderer.buffers) : Prop :=
  exists (floats : list float) (more : list nat) (n : nat),
    renderer.vertices b' = (renderer.vertices b ++ floats)%list /\
    List.length floats = (32 * n)%nat /\
    renderer.indices b' = (renderer.indices b ++ more)%list /\
    List.length more = (6 * n)%nat /\
    Forall (fun i => (renderer.vertex_offset b <= i
                      < renderer.vertex_offset b')%nat) more /\
    renderer.vertex_offset b' = (renderer.vertex_offset b + 4 * n)%nat.

(** A library function that returns a finite number at [x]. *)
Definition finite_at (f : float -> result float) (x : float) : Prop :=
  exists v, f x = Ok v /\ is_finite v = true.

(** A quad of four vertices and four UVs. *)
Definition four_each (q : quad) : Prop :=
  List.length (snd (fst q)) = 4%nat /\ List.length (snd q) = 4%nat.

(** [get_face_quads] finds the six faces of a part. *)
Definition has_faces (p : BoxPart) : bool :=
  match get_face_quads p with
  | Ok _ => true
  | Raise _ => false
  end.

Definition alex : PlayerModel :=
  match AlexModel with
  | Ok m => m
  | Raise _ => mkPlayerModel [] []
  end.

(** *** Inputs for the examples *)

(** The view from [(0, 0, 10)] towards the origin, [y] up. *)
Definition front_view : list float :=
  match camera.look_at (i3 0 0 10) (i3 0 0 0) (i3 0 1 0) with
  | Ok m => m
  | Raise _ => []
  end.

(** A matrix of sixteen zeros. *)
Definition flat : list float := repeat zero 16.

(** A part whose [uvs] has lost its faces. *)
Definition bare_part : BoxPart :=
  mkBoxPart "bare" (i3 0 0 0) (i3 1 1 1) (i2 0 0) zero []
            (i3 0 0 0) (i3 0 0 0).

Definition bare_model : PlayerModel := mkPlayerModel [bare_part] [].

(** The swung arm, as a base part and again as an overlay part. *)
Definition two_arms : PlayerModel := mkPlayerModel [swung_arm] [swung_arm].

Definition swung_arm_face_quads : list quad :=
  match get_face_quads swung_arm with
  | Ok quads => quads
  | Raise _ => []
  end.

(** A stand-in for an OpenGL context that takes every upload, only to run
    examples. *)
#[local] Instance accepting_gl : renderer.GL := {
  renderer.upload := fun _ _ => Ok tt
}.

Definition two_arms_mesh : renderer.mesh :=
  match renderer.build_model_buffers (libm := series_libm)
          (gl := accepting_gl) two_arms with
  | Ok m => m
  | Raise _ => renderer.mkMesh [] [] 0 0 0 0
  end.

(** A ray along [z] through the swung arm, and one that passes it by. *)
Definition arm_ray_origin : vec3 := i3 (-6) 18 (-20).
Definition far_ray_origin : vec3 := i3 19 0 (-1).
Definition forward : vec3 := i3 0 0 1.

(** What the ray meets in a quad; [None] also when the test raises. *)
Definition meets (origin direction : vec3) (q : quad)
  : option (float * float * float) :=
  match _ray_quad_intersect origin direction (snd (fst q)) (snd q) with
  | Ok hit => hit
  | Raise _ => None
  end.

Definition misses (origin direction : vec3) (q : quad) : bool :=
  match _ray_quad_intersect origin direction (snd (fst q)) (snd q) with
  | Ok None => true
  | _ => false
  end.

Definition arm_hit : best :=
  match closest_hit (libm := series_libm) arm_ray_origin forward
          [swung_arm] with
  | Ok b => b
  | Raise _ => (inf, None)
  end.

(** The back face of the swung arm and where the ray meets it. *)
Definition back_quad : quad := nth 1 swung_arm_quads ("", [], []).

Definition back_hit : float * float * float :=
  match meets arm_ray_origin forward back_quad with
  | Some hit => hit
  | None => (zero, zero, zero)
  end.

(** A unit square in the plane [z = 0] with the whole texture on it. *)
Definition unit_square : list vec3 := [i3 0 0 0; i3 1 0 0; i3 1 1 0; i3 0 1 0].
Definition whole_texture : list uv := [i2 0 0; i2 1 0; i2 1 1; i2 0 1].

(** A triangle in the plane [z = 0] and the ray that meets it from
    [z = -1]. *)
Definition triangle_hit : float * float * float :=
  match _ray_triangle_intersect (i3 0 0 (-1)) forward
          (i3 (-1) (-1) 0) (i3 1 (-1) 0) (i3 0 1 0)
          (i2 0 0) (i2 1 0) (i2 0 1) with
  | Ok (Some hit) => hit
  | _ => (zero, zero, zero)
  end.

(** A stand-in for the platform's [tan], only to run examples. *)
#[local] Instance series_tan : camera.Tan := {
  camera.math_tan := fun x => Ok (fquot (series_sin x) (series_cos x))
}.

(** [tan] of half the field of view of 45 degrees, by the stand-in. *)
Definition half_fov_tan : float :=
  match camera.math_tan (Tan := series_tan)
          (fquot (radians (of_Z 45)) two) with
  | Ok t => t
  | Raise _ => zero
  end.

End Spec2.

(* ================================================================== *)
(** ** Facts about binary64 *)

Module B64Facts.

Import B64.
Local Open Scope Z_scope.

Lemma feq_zero_inv (x : float) :
  feq x zero = true -> exists s, x = S754_zero s.
Proof.
  destruct x as [s|s| |s m e]; cbn; try discriminate.
  - eauto.
  - destruct s; discriminate.
  - destruct s; discriminate.
Qed.

Lemma flt_zero_sign (s : bool) (y : float) :
  flt (S754_zero s) y = flt zero y.
Proof. destruct y; reflexivity. Qed.

(** A divisor that passed [abs(y) < eps] is not zero. *)
Lemma guarded_abs (eps y : float) :
  flt zero eps = true -> flt (fabs y) eps = false -> feq y zero = false.
Proof.
  intros He Hy. destruct (feq y zero) eqn:E; [|reflexivity].
  apply feq_zero_inv in E as [s ->]. cbn in Hy.
  change (S754_zero false) with zero in Hy. congruence.
Qed.

Lemma guarded (eps y : float) :
  flt zero eps = true -> flt y eps = false -> feq y zero = false.
Proof.
  intros He Hy. destruct (feq y zero) eqn:E; [|reflexivity].
  apply feq_zero_inv in E as [s ->].
  rewrite flt_zero_sign in Hy. congruence.
Qed.

Lemma py_div_ok (x y : float) :
  feq y zero = false -> py_div x y = Ok (fquot x y).
Proof. unfold py_div. intros ->. reflexivity. Qed.

Lemma eps12_pos : flt zero eps12 = true.
Proof. vm_compute. reflexivity. Qed.

Lemma eps7_pos : flt zero eps7 = true.
Proof. vm_compute. reflexivity. Qed.

Lemma two_nonzero : feq two zero = false.
Proof. vm_compute. reflexivity. Qed.

Lemma sixty_four_nonzero : feq (of_Z 64) zero = false.
Proof. vm_compute. reflexivity. Qed.

(** Truncation and floor agree once clamped below at zero. *)
Lemma int_floor_clamped (dim : Z) (x : float) (z : Z) :
  py_int x = Ok z ->
  exists f, floor x = Some f /\ Z.max 0 (Z.min (dim - 1) z) = Z.max 0 (Z.min (dim - 1) f).
Proof.
  destruct x as [s|s| |s m e]; cbn; try discriminate.
  - intros [= <-]. eauto.
  - intros [= <-]. eexists; split; [reflexivity|].
    unfold magnitude, cond_Zopp.
    destruct s; [|destruct e; reflexivity].
    destruct e as [|p|p].
    + reflexivity.
    + rewrite Z.mul_opp_l. reflexivity.
    + assert (P : 0 < 2 ^ Z.pos p) by (apply Z.pow_pos_nonneg; lia).
      assert (0 <= Z.pos m / 2 ^ Z.pos p) by (apply Z.div_pos; lia).
      assert (- Z.pos m / 2 ^ Z.pos p <= 0)
        by (apply Z.div_le_upper_bound; lia).
      lia.
Qed.

Lemma round_aux_sign (sx : bool) (mx ex : Z) (lx : location) :
  match binary_round_aux prec emax sx mx ex lx with
  | S754_zero s | S754_infinity s | S754_finite s _ _ => s = sx
  | S754_nan => True
  end.
Proof.
  unfold binary_round_aux.
  destruct (shr_fexp prec emax mx ex lx) as [mrs' e'].
  destruct (shr_fexp prec emax _ e' loc_Exact) as [mrs'' e''].
  destruct (shr_m mrs''); auto.
  destruct (e'' <=? emax - prec); auto.
Qed.

Lemma square_unsigned (x : float) : unsigned (fmul x x).
Proof.
  destruct x as [s|s| |s m e]; cbn; try (destruct s; reflexivity); auto.
  pose proof (round_aux_sign (xorb s s) (Z.pos (m * m)) (e + e) loc_Exact) as H.
  unfold fmul, SFmul.
  destruct (binary_round_aux _ _ _ _ _ _); cbn; auto;
    rewrite H; destruct s; reflexivity.
Qed.

Lemma add_unsigned (x y : float) :
  unsigned x -> unsigned y -> unsigned (fadd x y).
Proof.
  destruct x as [s|s| |s m e], y as [s'|s'| |s' m' e']; cbn;
    intros Hx Hy; subst; cbn; auto.
  unfold fadd, SFadd. cbn [cond_Zopp].
  destruct (shl_align m e (Z.min e e')) as [a ?].
  destruct (shl_align m' e' (Z.min e e')) as [b ?].
  cbn [fst Z.add binary_normalize].
  unfold binary_round.
  destruct (shl_align _ _ _) as [mz ez].
  pose proof (round_aux_sign false (Z.pos mz) ez loc_Exact) as H.
  destruct (binary_round_aux _ _ _ _ _ _); cbn; auto.
Qed.

Lemma unsigned_not_below_zero (x : float) : unsigned x -> flt x zero = false.
Proof. destruct x; cbn; intros; subst; reflexivity. Qed.

End B64Facts.

(* ================================================================== *)
(** ** Facts about the kernel *)

Module KernelFacts.
Import mathutil.

Lemma short_list_16 {A} (m : list A) :
  (List.length m <? 16)%nat = false ->
  exists a0 a1 a2 a3 a4 a5 a6 a7 a8 a9 a10 a11 a12 a13 a14 a15 rest,
    m = a0 :: a1 :: a2 :: a3 :: a4 :: a5 :: a6 :: a7 :: a8 :: a9 :: a10
          :: a11 :: a12 :: a13 :: a14 :: a15 :: rest.
Proof.
  intros L.
  do 16 (destruct m as [|? m]; [discriminate L|]).
  repeat eexists.
Qed.

Lemma mat4_inverse_some {T} `{Arith T} (M inv : list T) :
  mat4_inverse M = Ok (Some inv) ->
  (List.length M <? 16)%nat = false /\
  a_is_zero (det_of M) = false /\
  a_ltb (a_abs (det_of M)) a_eps12 = false /\
  inv = map (fun x => a_mul x (a_quot a_one (det_of M))) (cofactors M).
Proof.
  unfold mat4_inverse.
  destruct (List.length M <? 16)%nat; [discriminate|].
  cbv zeta.
  destruct (a_ltb (a_abs (det_of M)) a_eps12); [discriminate|].
  unfold a_div.
  destruct (a_is_zero (det_of M)); [discriminate|].
  cbn [bind]. intros E. injection E as <-. auto.
Qed.


Import B64 B64Facts.

(** On sixteen entries or more, the binary64 inverse never raises: the
    test [abs(det) < 1e-12] lets no zero through to [1.0 / det]. *)
Lemma mat4_inverse_float (M : list float) :
  (16 <= List.length M)%nat ->
  mat4_inverse M =
  Ok (if flt (fabs (det_of M)) eps12 then None
      else Some (map (fun x => fmul x (fquot one (det_of M))) (cofactors M))).
Proof.
  intros L. unfold mat4_inverse.
  destruct (List.length M <? 16)%nat eqn:E;
    [apply Nat.ltb_lt in E; lia|].
  cbv zeta. cbn [a_ltb a_abs a_eps12 a_one a_mul B64.float_arith].
  destruct (flt (fabs (det_of M)) eps12) eqn:G; [reflexivity|].
  unfold a_div. cbn [a_is_zero a_quot a_one B64.float_arith].
  rewrite (guarded_abs _ _ eps12_pos G). reflexivity.
Qed.

Lemma mat4_mul_vec4_float (M : list float) (v : float * float * float * float) :
  (16 <= List.length M)%nat ->
  mat4_mul_vec4 M v = Ok (Spec.transform M v).
Proof.
  intros L. unfold mat4_mul_vec4. destruct v as [[[x y] z] w].
  destruct (List.length M <? 16)%nat eqn:E;
    [apply Nat.ltb_lt in E; lia|].
  reflexivity.
Qed.

Lemma cofactors_length {T} `{Arith T} (M : list T) :
  List.length (cofactors M) = 16%nat.
Proof. reflexivity. Qed.

End KernelFacts.

(* ================================================================== *)
(** ** Claims about the linear algebra kernel *)

Module KernelClaims.

Import B64 B64Facts mathutil KernelFacts Spec.




(** The matrix of the repository's own test stays within 1e-9 in
    binary64. *)
Example test_a_times_a_inv_is_identity :
  match mat4_inverse [ of_Z 2; zero; zero; zero;
                       zero; lit 1 2; zero; zero;
                       zero; zero; of_Z 3; zero;
                       of_Z 5; of_Z (-3); of_Z 7; one ] with
  | Ok (Some inv) =>
      match mat4_multiply [ of_Z 2; zero; zero; zero;
                            zero; lit 1 2; zero; zero;
                            zero; zero; of_Z 3; zero;
                            of_Z 5; of_Z (-3); of_Z 7; one ] inv with
      | Ok prod => approx_identity (lit 1 (10 ^ 9)) prod
      | Raise _ => false
      end
  | _ => false
  end = true.
Proof. vm_compute. reflexivity. Qed.

End KernelClaims.

(* ================================================================== *)
(** ** Facts about the mesh builder *)

Module ModelFacts.

Import B64 B64Facts model Spec.
Local Open Scope string_scope.

Lemma norm_ok (tex_w tex_h x y width height : float) :
  feq tex_w zero = false -> feq tex_h zero = false ->
  norm tex_w tex_h x y width height
  = Ok (normalized tex_w tex_h (x, y, width, height)).
Proof.
  intros Hw Hh. unfold norm.
  rewrite !(py_div_ok _ _ Hw), !(py_div_ok _ _ Hh). reflexivity.
Qed.

Lemma box_uvs_ok (tex_w tex_h u0 v0 w h d : float) :
  feq tex_w zero = false -> feq tex_h zero = false ->
  _box_uvs u0 v0 w h d tex_w tex_h = Ok (box_unwrap tex_w tex_h u0 v0 w h d).
Proof.
  intros Hw Hh. unfold _box_uvs.
  rewrite !(norm_ok _ _ _ _ _ _ Hw Hh). reflexivity.
Qed.

Lemma BoxPart_init_ok name origin size uv_origin inflate pivot rotation :
  BoxPart_init name origin size uv_origin inflate pivot rotation
  = Ok (built name origin size uv_origin inflate pivot rotation).
Proof.
  unfold BoxPart_init, built.
  destruct origin as [[ox oy] oz], size as [[w h] d].
  change (of_Z TEX_W) with (of_Z 64). change (of_Z TEX_H) with (of_Z 64).
  rewrite (box_uvs_ok _ _ _ _ _ _ _ sixty_four_nonzero sixty_four_nonzero).
  cbn [bind].
  destruct pivot as [p|]; cbn [bind]; [reflexivity|].
  rewrite !(py_div_ok _ _ two_nonzero). reflexivity.
Qed.

(** The quads of a part whose [uvs] is the box unwrap. *)
Lemma get_face_quads_unwrapped (p : BoxPart) tw th u0 v0 w h d :
  uvs p = box_unwrap tw th u0 v0 w h d ->
  exists quads,
    get_face_quads p = Ok quads /\
    map (fun q : quad => fst (fst q)) quads
    = ["front"; "back"; "right"; "left"; "top"; "bottom"] /\
    Forall (fun q : quad =>
              let '(face, verts, tex) := q in
              List.length verts = 4%nat /\ incl verts (corners p) /\
              List.length tex = 4%nat /\
              exists r, dict_get (uvs p) face = Ok r /\
                        incl tex (rect_corners r) /\
                        incl (rect_corners r) tex) quads.
Proof.
  intros U. unfold get_face_quads, corners. rewrite U.
  destruct (origin p) as [[x0 y0] z0], (size p) as [[sw sh] sd].
  unfold box_unwrap, pixel_rects, normalized. cbn [map fst snd].
  cbn [dict_get String.eqb Ascii.eqb Bool.eqb bind].
  eexists; split; [reflexivity|]. split; [reflexivity|].
  repeat (apply Forall_cons || apply Forall_nil);
    (split; [reflexivity|]);
    (split; [intros v Hv; cbn in Hv |- *; intuition (subst; auto 10)|]);
    (split; [reflexivity|]);
    (eexists; split; [reflexivity|]);
    split; intros v Hv; cbn in Hv |- *; intuition (subst; auto 10).
Qed.

End ModelFacts.

Module ModelClaims.

Import B64 B64Facts model Spec ModelFacts.
Local Open Scope Z_scope.
Local Open Scope string_scope.

(** C3.  For every [uvOrigin = (u0, v0)] and box dims [(w, h, d)], [_box_uvs]
    returns the six rectangles right [(u0, v0+d, d, h)], front
    [(u0+d, v0+d, w, h)], left [(u0+d+w, v0+d, d, h)], back
    [(u0+d+w+d, v0+d, w, h)], top [(u0+d, v0, w, d)] and bottom
    [(u0+d+w, v0, w, d)], each normalized to [(uMin, vMin, uMax, vMax)]:
    x-extents over the atlas width, y-extents over the atlas height. *)
Theorem box_uvs_layout (u0 v0 w h d atlas_w atlas_h : float) :
  feq atlas_w zero = false -> feq atlas_h zero = false ->
  _box_uvs u0 v0 w h d atlas_w atlas_h
  = Ok [ ("right",  normalized atlas_w atlas_h (u0, fadd v0 d, d, h));
         ("front",  normalized atlas_w atlas_h (fadd u0 d, fadd v0 d, w, h));
         ("left",   normalized atlas_w atlas_h
                      (fadd (fadd u0 d) w, fadd v0 d, d, h));
         ("back",   normalized atlas_w atlas_h
                      (fadd (fadd (fadd u0 d) w) d, fadd v0 d, w, h));
         ("top",    normalized atlas_w atlas_h (fadd u0 d, v0, w, d));
         ("bottom", normalized atlas_w atlas_h
                      (fadd (fadd u0 d) w, v0, w, d)) ].
Proof.
  intros Hw Hh. rewrite (box_uvs_ok _ _ _ _ _ _ _ Hw Hh). reflexivity.
Qed.

Lemma box_uvs_layout_head :
  feq (of_Z 64) zero = false /\
  _box_uvs (of_Z 0) (of_Z 0) (of_Z 8) (of_Z 8) (of_Z 8) (of_Z 64) (of_Z 64)
  = Ok [ ("right",  (lit 0 64, lit 8 64, lit 8 64, lit 16 64));
         ("front",  (lit 8 64, lit 8 64, lit 16 64, lit 16 64));
         ("left",   (lit 16 64, lit 8 64, lit 24 64, lit 16 64));
         ("back",   (lit 24 64, lit 8 64, lit 32 64, lit 16 64));
         ("top",    (lit 8 64, lit 0 64, lit 16 64, lit 8 64));
         ("bottom", (lit 16 64, lit 0 64, lit 24 64, lit 8 64)) ].
Proof.
  split; [exact sixty_four_nonzero|].
  rewrite (box_uvs_layout (of_Z 0) (of_Z 0) (of_Z 8) (of_Z 8) (of_Z 8)
             (of_Z 64) (of_Z 64) sixty_four_nonzero sixty_four_nonzero).
  vm_compute. reflexivity.
Defined.

(** C10.  The stored UV rectangles come from the [w], [h], [d] passed to
    the constructor, not from the inflated size: two parts with the same
    [uvOrigin] and size have the same [uvs] whatever their [inflate], while
    the stored origin is shifted by [-inflate] and every stored size
    component grows by [2 * inflate]. *)
Theorem uvs_ignore_inflate
  (name1 name2 : string) (origin1 origin2 : vec3) (w h d : float)
  (uv_origin : uv) (inflate1 inflate2 : float)
  (pivot1 pivot2 rotation1 rotation2 : option vec3) :
  exists p1 p2,
    BoxPart_init name1 origin1 (w, h, d) uv_origin inflate1 pivot1 rotation1
    = Ok p1 /\
    BoxPart_init name2 origin2 (w, h, d) uv_origin inflate2 pivot2 rotation2
    = Ok p2 /\
    uvs p1 = uvs p2 /\
    _box_uvs (fst uv_origin) (snd uv_origin) w h d (of_Z 64) (of_Z 64)
    = Ok (uvs p1) /\
    origin p1 = (let '(ox, oy, oz) := origin1 in
                 (fsub ox inflate1, fsub oy inflate1, fsub oz inflate1)) /\
    size p1 = (fadd w (fmul two inflate1), fadd h (fmul two inflate1),
               fadd d (fmul two inflate1)).
Proof.
  eexists; eexists.
  split; [apply BoxPart_init_ok|]. split; [apply BoxPart_init_ok|].
  destruct origin1 as [[ox oy] oz], origin2 as [[ox' oy'] oz'].
  cbn [built uvs origin size].
  split; [reflexivity|].
  split; [|split; reflexivity].
  apply box_uvs_ok; apply sixty_four_nonzero.
Qed.

(** Against C7 as stated: the origins differ.  The classic right arm
    starts at x = -8 and the slim one at x = -7 (the sleeves at -8.5 and
    -7.5). *)
Lemma variants_as_stated_fails : ~ variants_as_stated.
Proof.
  intros (s & a & Hs & Ha & _ & Ho & _).
  vm_compute in Hs. vm_compute in Ha.
  injection Hs as <-. injection Ha as <-.
  vm_compute in Ho. discriminate.
Qed.


(** C7, amended.  The classic and slim models have the same part names and
    UV origins in the same order; every part that is not an arm or a sleeve
    is identical in both; an arm or sleeve differs in width (4 against 3,
    plus twice its inflate), in its pivot's height (22 against 21.5) and,
    for the right arm and right sleeve, in the x of its origin (-8 against
    -7, less its inflate), the left ones keeping their origin. *)
Theorem variants_differ_in_arms :
  exists steve alex,
    SteveModel = Ok steve /\ AlexModel = Ok alex /\
    map name (get_all_parts steve) = map name (get_all_parts alex) /\
    map uv_origin (get_all_parts steve) = map uv_origin (get_all_parts alex) /\
    Forall2 arm_variant_pair (base_parts steve) (base_parts alex) /\
    Forall2 arm_variant_pair (overlay_parts steve) (overlay_parts alex).
Proof.
  eexists; eexists.
  split; [vm_compute; reflexivity|].
  split; [vm_compute; reflexivity|].
  split; [reflexivity|]. split; [reflexivity|].
  cbn [base_parts overlay_parts].
  split;
    repeat (apply Forall2_cons || apply Forall2_nil);
    unfold arm_variant_pair; cbn [name uv_origin inflate rotation];
    (split; [reflexivity|]); (split; [reflexivity|]);
    (split; [reflexivity|]); (split; [reflexivity|]);
    (split; [vm_compute; intros E; first [reflexivity | discriminate E]|]);
    vm_compute; intros E;
    first
      [ discriminate E
      | (split; [reflexivity|]); (split; [reflexivity|]);
        (split; [eexists; eexists; split; reflexivity|]);
        (split; intros E';
         first [ discriminate E' | reflexivity
               | eexists; eexists; split; reflexivity ]) ].
Qed.

(** Against C4 as stated: a part named ["leftArm.rightArm"] contains
    ["leftArm"], and [setPose(1)] leaves it at (30, 0, 0), the right-arm
    rotation, not at (-30, 0, 0). *)
Lemma walking_as_stated_fails : ~ walking_as_stated.
Proof.
  intros H.
  destruct (H (mkPlayerModel [two_region_part] [])
              (set_rotation two_region_part (rot 30 0 0)))
    as (_ & Hl & _).
  - left. reflexivity.
  - specialize (Hl eq_refl). vm_compute in Hl. discriminate Hl.
Qed.

Lemma in_posed (f : BoxPart -> BoxPart) (m : PlayerModel) (p : BoxPart) :
  In p (get_all_parts (for_all_parts f m)) ->
  exists p0, In p0 (get_all_parts m) /\ p = f p0.
Proof.
  unfold get_all_parts, for_all_parts. cbn [base_parts overlay_parts].
  rewrite <- map_app. intros H. apply in_map_iff in H as (p0 & <- & H).
  eauto.
Qed.

Lemma unposed_posed (f : BoxPart -> BoxPart) (m : PlayerModel) :
  (forall p, unposed (f p) = unposed p) ->
  map unposed (get_all_parts (for_all_parts f m))
  = map unposed (get_all_parts m).
Proof.
  intros Hf. unfold get_all_parts, for_all_parts.
  cbn [base_parts overlay_parts].
  rewrite <- map_app, map_map. apply map_ext. exact Hf.
Qed.

Lemma walking_cases (p0 : BoxPart) :
  name (walking p0) = name p0 /\
  walking p0 = set_rotation p0 (rotation (walking p0)) /\
  (right_arm (name p0) = true -> rotation (walking p0) = rot 30 0 0) /\
  (right_arm (name p0) = false -> left_arm (name p0) = true ->
   rotation (walking p0) = rot (-30) 0 0) /\
  (right_arm (name p0) = false -> left_arm (name p0) = false ->
   right_leg (name p0) = true -> rotation (walking p0) = rot (-30) 0 0) /\
  (right_arm (name p0) = false -> left_arm (name p0) = false ->
   right_leg (name p0) = false -> left_leg (name p0) = true ->
   rotation (walking p0) = rot 30 0 0) /\
  (right_arm (name p0) = false -> left_arm (name p0) = false ->
   right_leg (name p0) = false -> left_leg (name p0) = false ->
   rotation (walking p0) = rotation p0).
Proof.
  unfold walking, right_arm, left_arm, right_leg, left_leg.
  destruct p0 as [n o s u i t pv r]. cbn [name].
  destruct (contains "rightArm" n || contains "rightSleeve" n);
    [cbn; repeat split; congruence|].
  destruct (contains "leftArm" n || contains "leftSleeve" n);
    [cbn; repeat split; congruence|].
  destruct (contains "rightLeg" n || contains "rightPants" n);
    [cbn; repeat split; congruence|].
  destruct (contains "leftLeg" n || contains "leftPants" n);
    cbn; repeat split; congruence.
Qed.

Lemma arms_out_cases (p0 : BoxPart) :
  name (arms_out p0) = name p0 /\
  arms_out p0 = set_rotation p0 (rotation (arms_out p0)) /\
  (right_arm (name p0) = true -> rotation (arms_out p0) = rot 0 0 90) /\
  (right_arm (name p0) = false -> left_arm (name p0) = true ->
   rotation (arms_out p0) = rot 0 0 (-90)) /\
  (right_arm (name p0) = false -> left_arm (name p0) = false ->
   rotation (arms_out p0) = rotation p0).
Proof.
  unfold arms_out, right_arm, left_arm.
  destruct p0 as [n o s u i t pv r]. cbn [name].
  destruct (contains "rightArm" n || contains "rightSleeve" n);
    [cbn; repeat split; congruence|].
  destruct (contains "leftArm" n || contains "leftSleeve" n);
    cbn; repeat split; congruence.
Qed.

Lemma set_pose_frame (m : PlayerModel) (k : Z) :
  map unposed (get_all_parts (set_pose m k)) = map unposed (get_all_parts m).
Proof.
  unfold set_pose, _apply_pose.
  assert (R : map unposed
                (get_all_parts
                   (for_all_parts (fun part => set_rotation part (rot 0 0 0))
                                  m))
              = map unposed (get_all_parts m))
    by (apply unposed_posed; reflexivity).
  destruct (k =? 1)%Z; [|destruct (k =? 2)%Z]; [| |exact R];
    rewrite <- R; apply unposed_posed; intros p.
  - destruct (walking_cases p) as (_ & -> & _). reflexivity.
  - destruct (arms_out_cases p) as (_ & -> & _). reflexivity.
Qed.

(** C4, amended.  [setPose] changes nothing but rotations, part by part
    and in order.  For pose 1 the four rules apply in the order right arm,
    left arm, right leg, left leg, and the first that matches the part's
    name decides: (30,0,0), (-30,0,0), (-30,0,0), (30,0,0); a part that no
    rule matches ends at (0,0,0).  For any pose other than 1 and 2 every
    part ends at (0,0,0), whatever the model's previous rotations. *)
Theorem set_pose_rotations (m : PlayerModel) (k : Z) (p : BoxPart) :
  In p (get_all_parts (set_pose m k)) ->
  map unposed (get_all_parts (set_pose m k)) = map unposed (get_all_parts m) /\
  (exists p0, In p0 (get_all_parts m) /\ p = set_rotation p0 (rotation p)) /\
  (k = 1%Z ->
   (right_arm (name p) = true -> rotation p = rot 30 0 0) /\
   (right_arm (name p) = false -> left_arm (name p) = true ->
    rotation p = rot (-30) 0 0) /\
   (right_arm (name p) = false -> left_arm (name p) = false ->
    right_leg (name p) = true -> rotation p = rot (-30) 0 0) /\
   (right_arm (name p) = false -> left_arm (name p) = false ->
    right_leg (name p) = false -> left_leg (name p) = true ->
    rotation p = rot 30 0 0) /\
   (right_arm (name p) = false -> left_arm (name p) = false ->
    right_leg (name p) = false -> left_leg (name p) = false ->
    rotation p = rot 0 0 0)) /\
  (k <> 1%Z -> k <> 2%Z -> rotation p = rot 0 0 0).
Proof.
  intros H. split; [apply set_pose_frame|]. revert H.
  unfold set_pose, _apply_pose. intros H.
  destruct (Z.eqb_spec k 1) as [->|K1].
  - apply in_posed in H as (p1 & H & ->).
    apply in_posed in H as (p0 & H & ->).
    destruct (walking_cases (set_rotation p0 (rot 0 0 0)))
      as (Hn & Hs & H1 & H2 & H3 & H4 & H5).
    rewrite Hn. cbn [name set_rotation] in *.
    split; [exists p0; split; [exact H|]; rewrite Hs at 1; reflexivity|].
    split; [|congruence]. intros _.
    repeat split; auto.
  - destruct (Z.eqb_spec k 2) as [->|K2].
    + apply in_posed in H as (p1 & H & ->).
      apply in_posed in H as (p0 & H & ->).
      destruct (arms_out_cases (set_rotation p0 (rot 0 0 0)))
        as (Hn & Hs & _).
      split; [exists p0; split; [exact H|]; rewrite Hs at 1; reflexivity|].
      split; congruence.
    + apply in_posed in H as (p0 & H & ->).
      split; [exists p0; split; [exact H|reflexivity]|].
      split; [congruence|reflexivity].
Qed.

Lemma set_pose_rotations_example :
  In swung_arm (get_all_parts (set_pose steve 1)) /\
  right_arm (name swung_arm) = true /\
  rotation swung_arm = rot 30 0 0.
Proof.
  assert (I : In swung_arm (get_all_parts (set_pose steve 1)))
    by (right; right; left; reflexivity).
  destruct (set_pose_rotations steve 1 swung_arm I) as (_ & _ & W & _).
  destruct (W eq_refl) as (R & _).
  split; [exact I|]. split; [reflexivity | exact (R eq_refl)].
Defined.

Section Rotated.

Context {libm : Trig}.

Lemma map_r_keeps {A B C} (f : A -> result B) (g : A -> C) (h : B -> C)
  (xs : list A) (ys : list B) :
  (forall x y, f x = Ok y -> h y = g x) ->
  map_r f xs = Ok ys -> map h ys = map g xs.
Proof.
  intros Hf. revert ys.
  induction xs as [|x xs IH]; cbn; intros ys E.
  - injection E as <-. reflexivity.
  - destruct (f x) as [y|] eqn:Fx; cbn in E; [|discriminate].
    destruct (map_r f xs) as [ys'|]; cbn in E; [|discriminate].
    injection E as <-. cbn. rewrite (Hf _ _ Fx), (IH _ eq_refl).
    reflexivity.
Qed.

(** C8.  The quads [get_transformed_quads] returns carry the face names
    and the UV lists of [get_face_quads], in the same order, whatever the
    rotation; and when the rotation is zero in every component it returns
    the quads of [get_face_quads] themselves, vertices included. *)
Theorem rotation_keeps_uvs (part : BoxPart) :
  (forall quads,
      get_transformed_quads part = Ok quads ->
      exists quads0,
        get_face_quads part = Ok quads0 /\
        map face_and_uvs quads = map face_and_uvs quads0) /\
  (all_zero (rotation part) = true ->
   get_transformed_quads part = get_face_quads part).
Proof.
  unfold get_transformed_quads, all_zero.
  destruct (get_face_quads part) as [quads0|]; cbn [bind];
    [|split; [discriminate|reflexivity]].
  destruct (rotation part) as [[rx ry] rz].
  destruct (feq rx zero && feq ry zero && feq rz zero).
  - split; [|reflexivity]. intros quads [= <-]. eauto.
  - split; [|discriminate]. intros quads E. exists quads0.
    split; [reflexivity|].
    apply (map_r_keeps _ face_and_uvs face_and_uvs _ _) in E; [exact E|].
    intros [[face verts] tex] y.
    destruct (map_r _ verts); cbn [bind]; [|discriminate].
    intros [= <-]. reflexivity.
Qed.

End Rotated.

Lemma rotation_keeps_uvs_example :
  (get_transformed_quads (libm := series_libm) swung_arm
   = Ok swung_arm_quads /\
   exists quads0,
     get_face_quads swung_arm = Ok quads0 /\
     map face_and_uvs swung_arm_quads = map face_and_uvs quads0) /\
  (all_zero (rotation two_region_part) = true /\
   get_transformed_quads (libm := series_libm) two_region_part
   = get_face_quads two_region_part).
Proof.
  assert (E : get_transformed_quads (libm := series_libm) swung_arm
              = Ok swung_arm_quads) by (vm_compute; reflexivity).
  assert (Z : all_zero (rotation two_region_part) = true)
    by (vm_compute; reflexivity).
  split.
  - split; [exact E|].
    exact (proj1 (rotation_keeps_uvs (libm := series_libm) swung_arm) _ E).
  - split; [exact Z|].
    exact (proj2 (rotation_keeps_uvs (libm := series_libm) two_region_part)
                 Z).
Defined.

(** The shape of the mesh, for every part the constructor builds:
    [get_face_quads] returns six quads named front, back, right, left, top,
    bottom, each with four vertices among the eight corners and the four
    corners of its UV rectangle. *)
Lemma get_face_quads_shape name origin size uv_origin inflate pivot rotation :
  exists quads,
    get_face_quads (built name origin size uv_origin inflate pivot rotation)
    = Ok quads /\
    map (fun q : quad => fst (fst q)) quads
    = ["front"; "back"; "right"; "left"; "top"; "bottom"] /\
    Forall (fun q : quad =>
              let '(face, verts, tex) := q in
              List.length verts = 4%nat /\
              incl verts
                (corners (built name origin size uv_origin inflate pivot
                                rotation)) /\
              List.length tex = 4%nat /\
              exists r,
                dict_get (uvs (built name origin size uv_origin inflate pivot
                                     rotation)) face = Ok r /\
                incl tex (rect_corners r) /\ incl (rect_corners r) tex) quads.
Proof.
  destruct origin as [[ox oy] oz], size as [[w h] d].
  eapply get_face_quads_unwrapped. reflexivity.
Qed.

(** C2, where the code departs from it.  The quads of
    [BoxPart("test", (0, 0, 0), (2, 3, 4), (0, 0))] are six, in the order
    front, back, right, left, top, bottom, with four vertices and four UVs
    each; but at every corner of every quad the right-hand normal of the
    turn points against the direction the face looks at: seen from outside
    the box the vertices wind clockwise, not counter-clockwise. *)
Theorem test_box_winds_clockwise :
  exists p quads,
    test_box = Ok p /\ get_face_quads p = Ok quads /\
    map (fun q : quad => fst (fst q)) quads
    = ["front"; "back"; "right"; "left"; "top"; "bottom"] /\
    Forall (fun q : quad =>
              List.length (snd (fst q)) = 4%nat /\
              List.length (snd q) = 4%nat /\
              clockwise_from_outside q = true /\
              counter_clockwise_from_outside q = false) quads.
Proof.
  eexists; eexists.
  split; [vm_compute; reflexivity|].
  split; [vm_compute; reflexivity|].
  split; [reflexivity|].
  repeat (apply Forall_cons || apply Forall_nil);
    repeat split; vm_compute; reflexivity.
Qed.

End ModelClaims.

(* ================================================================== *)
(** ** Facts about the ray caster *)

Module InteractionFacts.

Import B64 B64Facts model interaction Spec KernelFacts.
Local Open Scope Z_scope.

Lemma ndc_ok (mx my viewport_w viewport_h : float) :
  feq viewport_w zero = false -> feq viewport_h zero = false ->
  ndc mx my viewport_w viewport_h
  = Ok (ndc_x mx viewport_w, ndc_y my viewport_h).
Proof.
  intros Hw Hh. unfold ndc.
  rewrite (py_div_ok _ _ Hw), (py_div_ok _ _ Hh). reflexivity.
Qed.

Lemma ndc_zero_viewport (mx my viewport_w viewport_h : float) :
  feq viewport_w zero = true \/ feq viewport_h zero = true ->
  ndc mx my viewport_w viewport_h = Raise ZeroDivisionError.
Proof.
  unfold ndc, py_div. intros [H|H].
  - rewrite H. reflexivity.
  - rewrite H. destruct (feq viewport_w zero); reflexivity.
Qed.

Lemma persp_divide_ok (v : Vector4) :
  flt (fabs (w_of v)) eps12 = false -> persp_divide v = Ok (divide_by_w v).
Proof.
  destruct v as [[[x y] z] w]. cbn [w_of snd]. intros G.
  unfold persp_divide.
  rewrite !(py_div_ok _ _ (guarded_abs _ _ eps12_pos G)). reflexivity.
Qed.

(** [x ** 2] raises nothing but [OverflowError] and [ValueError]. *)
Lemma py_sq_raises {libc : Pow} (x : float) (e : exn) :
  py_sq x = Raise e -> e = OverflowError \/ e = ValueError.
Proof.
  unfold py_sq.
  destruct (is_nan x); [discriminate|].
  destruct (is_inf x); [discriminate|].
  destruct (feq x zero); [discriminate|].
  destruct (feq _ one); [discriminate|].
  destruct (c_pow_2 _) as [ix [| |]].
  - destruct (is_inf ix); [intros [= <-]; auto|discriminate].
  - destruct (feq ix zero); [discriminate|intros [= <-]; auto].
  - intros [= <-]; auto.
Qed.

(** Zero and one are squared without the C library. *)
Lemma py_sq_zero {libc : Pow} : py_sq zero = Ok zero.
Proof. reflexivity. Qed.

Lemma py_sq_one {libc : Pow} : py_sq one = Ok one.
Proof. reflexivity. Qed.

(** The length is the root of the sum of the squares where they fit, and
    an exception where they do not. *)
Lemma length3_fit {libc : Pow} (d : vec3) :
  squares_fit d = true -> length3 d = Ok (length_of d).
Proof.
  destruct d as [[d0 d1] d2].
  unfold length3, length_of, squares_fit, square_returns, squared.
  destruct (py_sq d0) as [a|]; [|discriminate].
  destruct (py_sq d1) as [b|]; [|discriminate].
  destruct (py_sq d2) as [c|]; [|discriminate].
  cbn [andb bind]. unfold py_sqrt.
  destruct (flt (fadd (fadd a b) c) zero); [discriminate|reflexivity].
Qed.

Lemma length3_unfit {libc : Pow} (d : vec3) :
  squares_fit d = false ->
  exists e, length3 d = Raise e /\ (e = OverflowError \/ e = ValueError).
Proof.
  destruct d as [[d0 d1] d2].
  unfold length3, squares_fit, square_returns, squared.
  destruct (py_sq d0) as [a|e] eqn:A;
    [|intros _; exists e; split; [reflexivity|exact (py_sq_raises _ _ A)]].
  destruct (py_sq d1) as [b|e] eqn:B;
    [|intros _; exists e; split; [reflexivity|exact (py_sq_raises _ _ B)]].
  destruct (py_sq d2) as [c|e] eqn:C;
    [|intros _; exists e; split; [reflexivity|exact (py_sq_raises _ _ C)]].
  cbn [andb bind]. unfold py_sqrt.
  destruct (flt (fadd (fadd a b) c) zero); [|discriminate].
  intros _. exists ValueError. auto.
Qed.

(** Moller-Trumbore never raises: [1.0 / a] sits behind
    [abs(a) < EPSILON]. *)
Lemma ray_triangle_returns (origin direction v0 v1 v2 : vec3)
  (uv0 uv1 uv2 : uv) :
  returns (_ray_triangle_intersect origin direction v0 v1 v2 uv0 uv1 uv2).
Proof.
  unfold _ray_triangle_intersect, returns.
  destruct origin as [[ox oy] oz], direction as [[dx dy] dz],
    v0 as [[v0x v0y] v0z], v1 as [[v1x v1y] v1z], v2 as [[v2x v2y] v2z].
  cbv zeta.
  match goal with
  | |- context [flt (fabs ?a) EPSILON] =>
      destruct (flt (fabs a) EPSILON) eqn:G; [eauto|];
      rewrite (py_div_ok _ _ (guarded_abs _ _ eps7_pos G))
  end.
  cbn [bind].
  repeat match goal with
         | |- context [if ?c then Ok None else _] => destruct c; [eauto|]
         end.
  eauto.
Qed.

(** A quad of four vertices and four UVs never raises either. *)
Lemma ray_quad_returns (origin direction a0 a1 a2 a3 : vec3)
  (t0 t1 t2 t3 : uv) :
  returns (_ray_quad_intersect origin direction [a0; a1; a2; a3]
                               [t0; t1; t2; t3]).
Proof.
  unfold _ray_quad_intersect. cbn [item nth_error bind].
  destruct (ray_triangle_returns origin direction a0 a1 a2 t0 t1 t2)
    as [[hit|] ->]; cbn [bind].
  - eexists. reflexivity.
  - apply ray_triangle_returns.
Qed.

Lemma inverse_entries (M : list float) (d : float) :
  (16 <= List.length (map (fun x => fmul x d) (mathutil.cofactors M)))%nat.
Proof. rewrite length_map. apply Nat.le_refl. Qed.

End InteractionFacts.

Module InteractionClaims.

Import B64 B64Facts model interaction Spec KernelFacts InteractionFacts.
Local Open Scope Z_scope.

Section Unprojecting.

Context {libc : Pow}.

(** [_unproject] on a viewport that is not empty and matrices of sixteen
    entries: steps 1 to 5 never raise, and what is left is the length. *)
Lemma unproject_steps (mx my viewport_w viewport_h : float)
  (proj view : list float) :
  feq viewport_w zero = false -> feq viewport_h zero = false ->
  (16 <= List.length proj)%nat -> (16 <= List.length view)%nat ->
  _unproject mx my viewport_w viewport_h proj view
  = match near_and_far mx my viewport_w viewport_h proj view with
    | Some (near, far) =>
        dl <- length3 (sub3 far near) ;;
        if flt dl eps12 then Ok None
        else
          let '(d0, d1, d2) := sub3 far near in
          Ok (Some (near, (fquot d0 dl, fquot d1 dl, fquot d2 dl)))
    | None => Ok None
    end.
Proof.
  intros Hw Hh Lp Lv.
  unfold _unproject, near_and_far, inverted, _mat4_inverse, _mat4_mul_vec4.
  rewrite (ndc_ok _ _ _ _ Hw Hh). cbn [bind].
  rewrite (mat4_inverse_float proj Lp), (mat4_inverse_float view Lv).
  cbn [bind].
  destruct (flt (fabs (mathutil.det_of proj)) eps12); [reflexivity|].
  destruct (flt (fabs (mathutil.det_of view)) eps12); [reflexivity|].
  cbv zeta.
  rewrite !(mat4_mul_vec4_float _ _ (inverse_entries proj _)). cbn [bind].
  match goal with
  | |- context [flt (fabs (snd ?n)) eps12 || flt (fabs (snd ?f)) eps12] =>
      set (near_eye := n); set (far_eye := f)
  end.
  change (w_of near_eye) with (snd near_eye).
  change (w_of far_eye) with (snd far_eye).
  destruct (flt (fabs (snd near_eye)) eps12) eqn:Gn; [reflexivity|].
  destruct (flt (fabs (snd far_eye)) eps12) eqn:Gf; [reflexivity|].
  cbn [orb].
  rewrite (persp_divide_ok near_eye Gn), (persp_divide_ok far_eye Gf).
  cbn [bind].
  rewrite !(mat4_mul_vec4_float _ _ (inverse_entries view _)). cbn [bind].
  destruct (transform _ (divide_by_w near_eye)) as [[[nx ny] nz] nw].
  destruct (transform _ (divide_by_w far_eye)) as [[[fx fy] fz] fw].
  cbn [xyz fst sub3].
  destruct (length3 (fsub fx nx, fsub fy ny, fsub fz nz)) as [dl|];
    [|reflexivity].
  cbn [bind].
  destruct (flt dl eps12) eqn:Gd; [reflexivity|].
  rewrite !(py_div_ok _ _ (guarded _ _ eps12_pos Gd)). reflexivity.
Qed.

Lemma unproject_outcomes (mx my viewport_w viewport_h : float)
  (proj view : list float) :
  feq viewport_w zero = false -> feq viewport_h zero = false ->
  (16 <= List.length proj)%nat -> (16 <= List.length view)%nat ->
  match near_and_far mx my viewport_w viewport_h proj view with
  | Some (near, far) =>
      if squares_fit (sub3 far near)
      then _unproject mx my viewport_w viewport_h proj view
           = Ok (unproject_spec mx my viewport_w viewport_h proj view)
      else exists e,
             _unproject mx my viewport_w viewport_h proj view = Raise e /\
             (e = OverflowError \/ e = ValueError)
  | None => _unproject mx my viewport_w viewport_h proj view = Ok None
  end.
Proof.
  intros Hw Hh Lp Lv.
  rewrite (unproject_steps mx my _ _ _ _ Hw Hh Lp Lv). unfold unproject_spec.
  destruct (near_and_far mx my viewport_w viewport_h proj view)
    as [[near far]|]; [|reflexivity].
  destruct (squares_fit (sub3 far near)) eqn:F.
  - rewrite (length3_fit _ F). cbn [bind].
    destruct (flt (length_of (sub3 far near)) eps12); [reflexivity|].
    unfold normalize. destruct (sub3 far near) as [[d0 d1] d2]. reflexivity.
  - destruct (length3_unfit _ F) as (e & -> & K). exists e. auto.
Qed.

(** C5, amended.  When the viewport width and height are not zero, both
    matrices hold sixteen entries and the length of far - near can be
    taken (Python returns the square of each of its components, none
    overflows), [_unproject] returns what steps 1 to 6 say: "no result"
    exactly when the inversion of [proj] or of [view] fails, or
    [|w| < 1e-12] for the near or the far point, or the length of
    far - near is below 1e-12, and otherwise the near world point with
    far - near divided by its length.  The squares are those of the
    platform's [**], whatever its [pow] rounds to. *)
Theorem unproject_refines_spec (mx my viewport_w viewport_h : float)
  (proj view : list float) :
  feq viewport_w zero = false -> feq viewport_h zero = false ->
  (16 <= List.length proj)%nat -> (16 <= List.length view)%nat ->
  (forall near far,
      near_and_far mx my viewport_w viewport_h proj view = Some (near, far) ->
      squares_fit (sub3 far near) = true) ->
  _unproject mx my viewport_w viewport_h proj view
  = Ok (unproject_spec mx my viewport_w viewport_h proj view).
Proof.
  intros Hw Hh Lp Lv Fit.
  pose proof (unproject_outcomes mx my _ _ _ _ Hw Hh Lp Lv) as O.
  unfold unproject_spec in *.
  destruct (near_and_far mx my viewport_w viewport_h proj view)
    as [[near far]|]; [|exact O].
  rewrite (Fit near far eq_refl) in O. exact O.
Qed.

(** Under the sheared view the first square taken is that of the gap of
    2e200: on every platform where Python raises [OverflowError] for it,
    [_unproject] raises [OverflowError]. *)
Lemma unproject_raises_with_the_square :
  py_sq shear_gap = Raise OverflowError ->
  _unproject (of_Z 300) (of_Z 350) (of_Z 600) (of_Z 700) identity4
             sheared_view
  = Raise OverflowError.
Proof.
  intros S.
  rewrite unproject_steps;
    [|vm_compute; reflexivity|vm_compute; reflexivity
     |cbn; apply Nat.le_refl|cbn; apply Nat.le_refl].
  assert (N : near_and_far (of_Z 300) (of_Z 350) (of_Z 600) (of_Z 700)
                           identity4 sheared_view = Some sheared_ends)
    by (vm_compute; reflexivity).
  rewrite N.
  assert (D : sub3 (snd sheared_ends) (fst sheared_ends)
              = (shear_gap, snd (fst (sub3 (snd sheared_ends)
                                           (fst sheared_ends))),
                 snd (sub3 (snd sheared_ends) (fst sheared_ends))))
    by (vm_compute; reflexivity).
  destruct sheared_ends as [near far]. cbn [fst snd] in D.
  rewrite D. unfold length3. rewrite S. reflexivity.
Qed.

End Unprojecting.

(** Against C5 as stated: with both matrices invertible, a 600x700
    viewport and the view sheared by 1e200, the far and near points are
    2e200 apart along x, squaring that overflows, and [_unproject] raises
    [OverflowError]: it returns neither "no result" nor a ray. *)
Lemma unproject_as_stated_fails :
  ~ unproject_as_stated (libc := rounded_pow).
Proof.
  intros H.
  destruct (H (of_Z 300) (of_Z 350) (of_Z 600) (of_Z 700)
              identity4 sheared_view eq_refl eq_refl) as (_ & r & E).
  vm_compute in E. discriminate E.
Qed.

Lemma unproject_refines_spec_example :
  feq (of_Z 600) zero = false /\ feq (of_Z 700) zero = false /\
  (16 <= List.length doubled_depth)%nat /\
  (16 <= List.length identity4)%nat /\
  near_and_far (of_Z 300) (of_Z 350) (of_Z 600) (of_Z 700)
               doubled_depth identity4
  = Some ((zero, zero, fopp (lit 1 2)), (zero, zero, lit 1 2)) /\
  squares_fit (libc := rounded_pow)
    (sub3 (zero, zero, lit 1 2) (zero, zero, fopp (lit 1 2))) = true /\
  _unproject (libc := rounded_pow) (of_Z 300) (of_Z 350) (of_Z 600)
             (of_Z 700) doubled_depth identity4
  = Ok (Some ((zero, zero, fopp (lit 1 2)), i3 0 0 1)).
Proof.
  assert (W : feq (of_Z 600) zero = false) by (vm_compute; reflexivity).
  assert (H : feq (of_Z 700) zero = false) by (vm_compute; reflexivity).
  assert (Lp : (16 <= List.length doubled_depth)%nat)
    by (cbn; apply Nat.le_refl).
  assert (L : (16 <= List.length identity4)%nat) by (cbn; apply Nat.le_refl).
  assert (N : near_and_far (of_Z 300) (of_Z 350) (of_Z 600) (of_Z 700)
                           doubled_depth identity4
              = Some ((zero, zero, fopp (lit 1 2)), (zero, zero, lit 1 2)))
    by (vm_compute; reflexivity).
  assert (F : squares_fit (libc := rounded_pow)
                (sub3 (zero, zero, lit 1 2) (zero, zero, fopp (lit 1 2)))
              = true) by (vm_compute; reflexivity).
  split; [exact W|]. split; [exact H|]. split; [exact Lp|].
  split; [exact L|]. split; [exact N|]. split; [exact F|].
  rewrite (unproject_refines_spec (libc := rounded_pow) (of_Z 300) (of_Z 350)
             (of_Z 600) (of_Z 700) doubled_depth identity4 W H Lp L).
  - vm_compute. reflexivity.
  - intros near far E. rewrite N in E. injection E as <- <-. exact F.
Defined.

(** The sheared view does raise, and it is [OverflowError]. *)
Example unproject_overflows :
  py_sq (libc := rounded_pow) shear_gap = Raise OverflowError /\
  _unproject (libc := rounded_pow) (of_Z 300) (of_Z 350) (of_Z 600)
             (of_Z 700) identity4 sheared_view
  = Raise OverflowError.
Proof. split; vm_compute; reflexivity. Qed.

(** With the depth doubled the ray is the same on every platform: Python
    squares 0 and 1 without a call to [pow]. *)
Example unproject_without_pow {libc : Pow} :
  _unproject (of_Z 300) (of_Z 350) (of_Z 600) (of_Z 700) doubled_depth
             identity4
  = Ok (Some ((zero, zero, fopp (lit 1 2)), i3 0 0 1)).
Proof.
  rewrite unproject_steps;
    [|vm_compute; reflexivity|vm_compute; reflexivity
     |cbn; apply Nat.le_refl|cbn; apply Nat.le_refl].
  assert (N : near_and_far (of_Z 300) (of_Z 350) (of_Z 600) (of_Z 700)
                           doubled_depth identity4
              = Some ((zero, zero, fopp (lit 1 2)), (zero, zero, lit 1 2)))
    by (vm_compute; reflexivity).
  rewrite N.
  assert (D : sub3 (zero, zero, lit 1 2) (zero, zero, fopp (lit 1 2))
              = (zero, zero, one)) by (vm_compute; reflexivity).
  rewrite D. unfold length3. rewrite py_sq_zero, py_sq_one. cbn [bind].
  vm_compute. reflexivity.
Qed.

Section Picking.

Context {libm : Trig} {libc : Pow}.

(** C9, on the code.  [pick] with a viewport width or height of zero
    raises [ZeroDivisionError], whatever the camera and the model: the two
    divisions that open [_unproject] are the only ones the code leaves
    unguarded. *)
Theorem pick_raises_on_zero_viewport
  (mx my viewport_w viewport_h : float) (proj view : list float)
  (model : PlayerModel) (overlay_visible : bool) :
  feq viewport_w zero = true \/ feq viewport_h zero = true ->
  pick mx my viewport_w viewport_h proj view model overlay_visible
  = Raise ZeroDivisionError.
Proof.
  intros H. unfold pick, _unproject.
  rewrite (ndc_zero_viewport _ _ _ _ H). reflexivity.
Qed.

Lemma test_quad_cases (o d : vec3) (q : quad) (b b' : best) :
  test_quad o d q b = Ok b' ->
  b' = b \/
  exists t u v,
    _ray_quad_intersect o d (snd (fst q)) (snd q) = Ok (Some (t, u, v)) /\
    b' = (t, Some (u, v)).
Proof.
  unfold test_quad. destruct q as [[face verts] tex]. cbn [fst snd].
  destruct (_ray_quad_intersect o d verts tex) as [[[[t u] v]|]|];
    cbn [bind]; try discriminate.
  - destruct (flt t (fst b)); intros [= <-]; eauto 6.
  - intros [= <-]. auto.
Qed.

Lemma scan_quads (o d : vec3) (quads : list quad) (b b' : best) :
  for_each quads (test_quad o d) b = Ok b' ->
  b' = b \/
  exists q t u v,
    In q quads /\
    _ray_quad_intersect o d (snd (fst q)) (snd q) = Ok (Some (t, u, v)) /\
    b' = (t, Some (u, v)).
Proof.
  revert b. induction quads as [|q quads IH]; cbn [for_each]; intros b E.
  - injection E as <-. auto.
  - destruct (test_quad o d q b) as [b1|] eqn:T; cbn [bind] in E;
      [|discriminate].
    destruct (IH _ E) as [->|(q' & t & u & v & I & R & ->)].
    + destruct (test_quad_cases _ _ _ _ _ T) as [->|(t & u & v & R & ->)];
        [auto|].
      right. exists q, t, u, v. cbn. auto.
    + right. exists q', t, u, v. cbn. auto.
Qed.

Lemma scan_parts (o d : vec3) (parts : list BoxPart) (b b' : best) :
  for_each parts (fun part b =>
      quads <- get_transformed_quads part ;;
      for_each quads (test_quad o d) b) b = Ok b' ->
  b' = b \/ hit_of o d parts b'.
Proof.
  revert b. induction parts as [|part parts IH]; cbn [for_each]; intros b E.
  - injection E as <-. auto.
  - destruct (get_transformed_quads part) as [quads|] eqn:Q; cbn [bind] in E;
      [|discriminate].
    destruct (for_each quads (test_quad o d) b) as [b1|] eqn:S;
      cbn [bind] in E; [|discriminate].
    destruct (IH _ E) as [->|(part' & quads' & q & I & Q' & Iq & H)].
    + destruct (scan_quads _ _ _ _ _ S) as [->|(q & t & u & v & I & R & ->)];
        [auto|].
      right. exists part, quads, q. cbn. eauto 10.
    + right. exists part', quads', q. cbn. eauto 10.
Qed.

(** C1.  Whenever [pick] returns a texel [(px, py)], the ray was
    unprojected, the closest hit holds the UV of a quad the ray hits, and
    the texel is [floor(u * 64)], [floor(v * 64)] clamped into [0, 63]; so
    [0 <= px <= 63] and [0 <= py <= 63]. *)
Theorem pick_texel_in_range
  (mx my viewport_w viewport_h : float) (proj view : list float)
  (model : PlayerModel) (overlay_visible : bool) (px py : Z) :
  pick mx my viewport_w viewport_h proj view model overlay_visible
  = Ok (Some (px, py)) ->
  let parts := if overlay_visible then get_all_parts model
               else base_parts model in
  exists origin direction best_t best_uv,
    _unproject mx my viewport_w viewport_h proj view
    = Ok (Some (origin, direction)) /\
    closest_hit origin direction parts = Ok (best_t, Some best_uv) /\
    hit_of origin direction parts (best_t, Some best_uv) /\
    texel_spec best_uv = Some (px, py) /\
    0 <= px <= 63 /\ 0 <= py <= 63.
Proof.
  intros E parts. unfold pick in E.
  destruct (_unproject mx my viewport_w viewport_h proj view)
    as [[[origin direction]|]|]; cbn [bind] in E; try discriminate.
  fold parts in E.
  destruct (closest_hit origin direction parts) as [[best_t [best_uv|]]|] eqn:C;
    cbn [bind] in E; try discriminate.
  exists origin, direction, best_t, best_uv.
  split; [reflexivity|]. split; [exact C|].
  split.
  { destruct (scan_parts _ _ _ _ _ C) as [B|B]; [discriminate B|exact B]. }
  unfold texel in E. destruct best_uv as [tex_u tex_v].
  destruct (py_int (fmul tex_u (of_Z TEX_W))) as [ix|] eqn:Ix;
    cbn [bind] in E; [|discriminate].
  destruct (py_int (fmul tex_v (of_Z TEX_H))) as [iy|] eqn:Iy;
    cbn [bind] in E; [|discriminate].
  injection E as <- <-.
  destruct (int_floor_clamped 64 _ _ Ix) as (fx & Fx & Cx).
  destruct (int_floor_clamped 64 _ _ Iy) as (fy & Fy & Cy).
  unfold texel_spec, clamp.
  change (of_Z TEX_W) with (of_Z 64) in Fx.
  change (of_Z TEX_H) with (of_Z 64) in Fy.
  rewrite Fx, Fy. change TEX_W with 64. change TEX_H with 64.
  rewrite Cx, Cy. split; [reflexivity|]. lia.
Qed.

End Picking.

Lemma pick_texel_in_range_example :
  pick (libm := series_libm) (libc := rounded_pow) (of_Z 300) (of_Z 350) (of_Z 600) (of_Z 700)
       identity4 identity4 steve true
  = Ok (Some (15, 32)) /\
  exists origin direction best_t best_uv,
    _unproject (libc := rounded_pow) (of_Z 300) (of_Z 350) (of_Z 600) (of_Z 700)
               identity4 identity4
    = Ok (Some (origin, direction)) /\
    closest_hit (libm := series_libm) origin direction (get_all_parts steve)
    = Ok (best_t, Some best_uv) /\
    hit_of (libm := series_libm) origin direction (get_all_parts steve)
           (best_t, Some best_uv) /\
    texel_spec best_uv = Some (15, 32) /\
    0 <= 15 <= 63 /\ 0 <= 32 <= 63.
Proof.
  assert (E : pick (libm := series_libm) (libc := rounded_pow) (of_Z 300) (of_Z 350) (of_Z 600)
                   (of_Z 700) identity4 identity4 steve true
              = Ok (Some (15, 32))) by (vm_compute; reflexivity).
  split; [exact E|].
  exact (pick_texel_in_range (libm := series_libm)
           (libc := rounded_pow) _ _ _ _ _ _ _ _ _ _ E).
Defined.

Lemma pick_raises_on_zero_viewport_example :
  (feq (of_Z 0) zero = true \/ feq (of_Z 700) zero = true) /\
  pick (libm := series_libm) (libc := rounded_pow) (of_Z 300) (of_Z 350) (of_Z 0) (of_Z 700)
       identity4 identity4 steve true
  = Raise ZeroDivisionError.
Proof.
  assert (Z : feq (of_Z 0) zero = true \/ feq (of_Z 700) zero = true)
    by (left; vm_compute; reflexivity).
  split; [exact Z|].
  exact (pick_raises_on_zero_viewport (libm := series_libm)
           (libc := rounded_pow) _ _ _ _ _ _ _ _ Z).
Defined.

End InteractionClaims.

(* ================================================================== *)
(** ** The repository's own test vectors, run on the embedding *)

Module RepositoryTests.

Import B64 model interaction Spec.
Local Open Scope Z_scope.

(** [test_hit_centered_triangle]: [t] is 5. *)
Example hit_centered_triangle :
  _ray_triangle_intersect (i3 0 0 5) (i3 0 0 (-1))
    (i3 (-1) (-1) 0) (i3 1 (-1) 0) (i3 0 1 0)
    (i2 0 0) (i2 1 0) (lit 1 2, of_Z 1)
  = Ok (Some (of_Z 5, lit 1 2, lit 1 2)).
Proof. vm_compute. reflexivity. Qed.

(** [test_miss_parallel_ray] *)
Example miss_parallel_ray :
  _ray_triangle_intersect (i3 0 0 5) (i3 1 0 0)
    (i3 (-1) (-1) 0) (i3 1 (-1) 0) (i3 0 1 0)
    (i2 0 0) (i2 1 0) (lit 1 2, of_Z 1)
  = Ok None.
Proof. vm_compute. reflexivity. Qed.

(** [test_miss_behind_origin] *)
Example miss_behind_origin :
  _ray_triangle_intersect (i3 0 0 (-5)) (i3 0 0 (-1))
    (i3 (-1) (-1) 0) (i3 1 (-1) 0) (i3 0 1 0)
    (i2 0 0) (i2 1 0) (lit 1 2, of_Z 1)
  = Ok None.
Proof. vm_compute. reflexivity. Qed.

(** [test_hit_unit_quad]: [t] is 3 and the UV is (0.5, 0.5). *)
Example hit_unit_quad :
  _ray_quad_intersect (lit 1 2, lit 1 2, of_Z 3) (i3 0 0 (-1))
    [i3 0 0 0; i3 1 0 0; i3 1 1 0; i3 0 1 0]
    [i2 0 0; i2 1 0; i2 1 1; i2 0 1]
  = Ok (Some (of_Z 3, lit 1 2, lit 1 2)).
Proof. vm_compute. reflexivity. Qed.

(** [test_returns_none_for_degenerate_matrices] *)
Example unproject_degenerate_matrices :
  _unproject (libc := rounded_pow) (of_Z 100) (of_Z 100) (of_Z 600) (of_Z 700)
             (repeat zero 16) (repeat zero 16)
  = Ok None.
Proof. vm_compute. reflexivity. Qed.

(** [test_t_pose_arms_out] *)
Example t_pose_arms_out :
  map (fun p => (name p, rotation p))
      (filter (fun p => is_arm (name p)) (base_parts (set_pose steve 2)))
  = [ ("rightArm"%string, rot 0 0 90); ("leftArm"%string, rot 0 0 (-90)) ].
Proof. vm_compute. reflexivity. Qed.

(** [test_reset_pose] *)
Example reset_pose :
  forallb (fun p => all_zero (rotation p))
          (get_all_parts (set_pose (set_pose steve 1) 0))
  = true.
Proof. vm_compute. reflexivity. Qed.

(** [test_inflate_expands_size], [test_inflate_shifts_origin] *)
Example inflate_expands_and_shifts :
  BoxPart_init "i" (i3 2 3 4) (i3 4 4 4) (i2 0 0) half None None
  = Ok (mkBoxPart "i" (lit 3 2, lit 5 2, lit 7 2) (i3 5 5 5) (i2 0 0) half
          (box_unwrap (of_Z 64) (of_Z 64) (of_Z 0) (of_Z 0)
                      (of_Z 4) (of_Z 4) (of_Z 4))
          (i3 4 5 6) (zero, zero, zero)).
Proof. vm_compute. reflexivity. Qed.

End RepositoryTests.

(* ================================================================== *)
(** ** The order of binary64 *)

Module OrderFacts.

Import B64 Spec2.
Local Open Scope Z_scope.

Lemma flt_irrefl (x : float) : flt x x = false.
Proof.
  destruct x as [s|s| |s m e]; try (destruct s; reflexivity); try reflexivity.
  unfold flt, SFltb, SFcompare.
  rewrite Z.compare_refl, Pos.compare_cont_refl. destruct s; reflexivity.
Qed.

Lemma flt_trans (x y z : float) :
  flt x y = true -> flt y z = true -> flt x z = true.
Proof.
  unfold flt, SFltb.
  destruct x as [[]|[]| |[] m1 e1], y as [[]|[]| |[] m2 e2],
    z as [[]|[]| |[] m3 e3]; cbn; try discriminate; try reflexivity;
    change (Pos.compare_cont Eq) with Pos.compare;
    destruct (Z.compare_spec e1 e2), (Z.compare_spec e2 e3),
      (Z.compare_spec e1 e3); subst; try lia; cbn;
    try discriminate; try reflexivity;
    destruct (Pos.compare_spec m1 m2), (Pos.compare_spec m2 m3),
      (Pos.compare_spec m1 m3); subst; try lia; cbn;
    try discriminate; try reflexivity.
Qed.

Lemma flt_fle (x y : float) : flt x y = true -> fle x y = true.
Proof.
  unfold flt, fle, SFltb, SFleb. destruct (SFcompare x y) as [[]|];
    try discriminate; reflexivity.
Qed.

(** Something above zero is not zero. *)
Lemma positive_nonzero (x : float) : flt zero x = true -> feq x zero = false.
Proof. destruct x as [s|s| |s m e]; try destruct s; cbn; congruence. Qed.

Lemma fsub_diag (x : float) : is_finite x = true -> fsub x x = zero.
Proof.
  destruct x as [s|s| |s m e]; cbn; try discriminate; intros _.
  - destruct s; reflexivity.
  - unfold fsub, SFsub. rewrite Z.sub_diag. reflexivity.
Qed.

End OrderFacts.

(* ================================================================== *)
(** ** More about the kernel: indexing, and the algebra in exact
       arithmetic *)

Module KernelExtras.

Import mathutil KernelFacts Spec Spec2.

Lemma for_each_ok {A S} (xs : list A) (body : A -> S -> result S) (s s' : S) :
  for_each xs body s = Ok s' ->
  forall x, In x xs -> exists s1 s2, body x s1 = Ok s2.
Proof.
  revert s. induction xs as [|y xs IH]; cbn; intros s E x I; [contradiction|].
  destruct (body y s) as [s1|] eqn:B; cbn in E; [|discriminate].
  destruct I as [<-|I]; [eauto | eapply IH; eauto].
Qed.

Lemma for_each_raise {A S} (xs : list A) (body : A -> S -> result S) (s : S)
  (e : exn) :
  for_each xs body s = Raise e ->
  exists x s1, In x xs /\ body x s1 = Raise e.
Proof.
  revert s. induction xs as [|y xs IH]; cbn; intros s E; [discriminate|].
  destruct (body y s) as [s1|e1] eqn:B; cbn in E.
  - destruct (IH _ E) as (x & s2 & I & R). eauto.
  - injection E as <-. eauto.
Qed.

Lemma item_ok {T} `{Arith T} (m : list T) (i : nat) (x : T) :
  item m i = Ok x -> (i < List.length m)%nat.
Proof.
  unfold item. destruct (nth_error m i) eqn:E; [|discriminate].
  intros _. apply nth_error_Some. congruence.
Qed.

Lemma item_raise {T} `{Arith T} (m : list T) (i : nat) (e : exn) :
  item m i = Raise e -> e = IndexError.
Proof.
  unfold item. destruct (nth_error m i); [discriminate|]. congruence.
Qed.

(** X1.  [mat4_multiply], in any arithmetic: with sixteen or more entries
    in both arguments it returns a list of exactly sixteen entries, and
    with fewer than sixteen in either it raises [IndexError]; the code
    never checks the lengths, the indexing does. *)
Theorem mat4_multiply_indexing {T} `{Arith T} (a b : list T) :
  ((16 <= List.length a)%nat -> (16 <= List.length b)%nat ->
   exists r, mat4_multiply a b = Ok r /\ List.length r = 16%nat) /\
  ((List.length a < 16)%nat \/ (List.length b < 16)%nat ->
   mat4_multiply a b = Raise IndexError).
Proof.
  split.
  - intros La Lb.
    assert (Ea : (List.length a <? 16)%nat = false)
      by (apply Nat.ltb_ge; exact La).
    assert (Eb : (List.length b <? 16)%nat = false)
      by (apply Nat.ltb_ge; exact Lb).
    destruct (short_list_16 a Ea) as
      (a0 & a1 & a2 & a3 & a4 & a5 & a6 & a7 & a8 & a9 & a10 & a11 & a12
       & a13 & a14 & a15 & ra & ->).
    destruct (short_list_16 b Eb) as
      (b0 & b1 & b2 & b3 & b4 & b5 & b6 & b7 & b8 & b9 & b10 & b11 & b12
       & b13 & b14 & b15 & rb & ->).
    eexists. split; [|shelve].
    cbv [mat4_multiply for_each range4 bind item nth_error store repeat
         Nat.add Nat.mul]. reflexivity.
    Unshelve. reflexivity.
  - intros Short.
    destruct (mat4_multiply a b) as [r|e] eqn:E.
    + exfalso. unfold mat4_multiply in E.
      destruct (for_each_ok _ _ _ _ E 3%nat) as (r1 & r2 & E1);
        [cbn; auto|].
      destruct (for_each_ok _ _ _ _ E1 3%nat) as (r3 & r4 & E2);
        [cbn; auto|].
      destruct (for_each range4 _ a_zero) as [s|] eqn:E3 in E2;
        [|discriminate].
      destruct (for_each_ok _ _ _ _ E3 3%nat) as (s1 & s2 & E4);
        [cbn; auto|].
      destruct (item a (3 * 4 + 3)) as [x|] eqn:Ia; [|discriminate].
      destruct (item b (3 * 4 + 3)) as [y|] eqn:Ib; [|discriminate].
      apply item_ok in Ia. apply item_ok in Ib. cbn in Ia, Ib. lia.
    + f_equal. unfold mat4_multiply in E.
      destruct (for_each_raise _ _ _ _ E) as (row & r1 & _ & E1).
      destruct (for_each_raise _ _ _ _ E1) as (col & r2 & _ & E2).
      destruct (for_each range4 _ a_zero) as [s|e'] eqn:E3 in E2;
        [discriminate|].
      injection E2 as ->.
      destruct (for_each_raise _ _ _ _ E3) as (k & s1 & _ & E4).
      destruct (item a (k * 4 + row)) as [x|ea] eqn:Ia.
      * destruct (item b (col * 4 + k)) as [y|eb] eqn:Ib; [discriminate|].
        injection E4 as <-. eapply item_raise; eauto.
      * injection E4 as <-. eapply item_raise; eauto.
Qed.


Lemma exactly_16 {A} (m : list A) :
  List.length m = 16%nat ->
  exists a0 a1 a2 a3 a4 a5 a6 a7 a8 a9 a10 a11 a12 a13 a14 a15,
    m = [a0; a1; a2; a3; a4; a5; a6; a7; a8; a9; a10; a11; a12; a13; a14;
         a15].
Proof.
  intros L.
  do 16 (destruct m as [|? m]; [discriminate L|]).
  destruct m; [|discriminate L]. repeat eexists.
Qed.

Ltac name_entries m L :=
  let H := fresh in
  destruct (exactly_16 m L) as
    (? & ? & ? & ? & ? & ? & ? & ? & ? & ? & ? & ? & ? & ? & ? & ? & H);
  subst m.

Ltac run_kernel :=
  cbv [mat4_multiply mat4_mul_vec4 for_each range4 bind item nth_error store
       repeat Nat.add Nat.mul at_ nth List.length Nat.ltb Nat.leb identity
       cofactors map det_of].

Ltac as_rationals :=
  cbv [a_mul a_add a_sub a_opp a_quot a_one a_zero Exact.rational_arith
       same_entries same_vector].

Lemma mat4_multiply_indexing_example :
  ((16 <= List.length identity4)%nat /\
   exists r, mat4_multiply identity4 identity4 = Ok r /\
             List.length r = 16%nat) /\
  (((List.length (@nil B64.float) < 16)%nat \/
    (List.length identity4 < 16)%nat) /\
   mat4_multiply [] identity4 = Raise IndexError).
Proof.
  assert (L : (16 <= List.length identity4)%nat) by (cbn; apply Nat.le_refl).
  assert (S : (List.length (@nil B64.float) < 16)%nat \/
              (List.length identity4 < 16)%nat) by (left; cbn; lia).
  split.
  - split; [exact L|].
    exact (proj1 (mat4_multiply_indexing identity4 identity4) L L).
  - split; [exact S|].
    exact (proj2 (mat4_multiply_indexing [] identity4) S).
Defined.

(** X2.  In exact rational arithmetic, on matrices of sixteen entries,
    [mat4_multiply] has [identity()] as a unit on both sides and is
    associative, entry by entry. *)
Theorem exact_product_laws (a b c : list Q) :
  List.length a = 16%nat -> List.length b = 16%nat ->
  List.length c = 16%nat ->
  exists ia ai ab bc ab_c a_bc,
    mat4_multiply identity a = Ok ia /\ same_entries ia a /\
    mat4_multiply a identity = Ok ai /\ same_entries ai a /\
    mat4_multiply a b = Ok ab /\ mat4_multiply b c = Ok bc /\
    mat4_multiply ab c = Ok ab_c /\ mat4_multiply a bc = Ok a_bc /\
    same_entries ab_c a_bc.
Proof.
  intros La Lb Lc.
  name_entries a La. name_entries b Lb. name_entries c Lc.
  do 6 eexists.
  split; [run_kernel; reflexivity|].
  split; [as_rationals; repeat (apply Forall2_cons; [ring|]);
          apply Forall2_nil|].
  split; [run_kernel; reflexivity|].
  split; [as_rationals; repeat (apply Forall2_cons; [ring|]);
          apply Forall2_nil|].
  split; [run_kernel; reflexivity|].
  split; [run_kernel; reflexivity|].
  split; [run_kernel; reflexivity|].
  split; [run_kernel; reflexivity|].
  as_rationals; repeat (apply Forall2_cons; [ring|]); apply Forall2_nil.
Qed.

Lemma exact_product_laws_example :
  List.length scale_translate = 16%nat /\
  List.length scale_translate_inverse = 16%nat /\
  exists ia ai ab bc ab_c a_bc,
    mat4_multiply identity scale_translate = Ok ia /\
    same_entries ia scale_translate /\
    mat4_multiply scale_translate identity = Ok ai /\
    same_entries ai scale_translate /\
    mat4_multiply scale_translate scale_translate_inverse = Ok ab /\
    mat4_multiply scale_translate_inverse scale_translate = Ok bc /\
    mat4_multiply ab scale_translate = Ok ab_c /\
    mat4_multiply scale_translate bc = Ok a_bc /\
    same_entries ab_c a_bc.
Proof.
  assert (L : List.length scale_translate = 16%nat) by reflexivity.
  assert (Li : List.length scale_translate_inverse = 16%nat)
    by (vm_compute; reflexivity).
  split; [exact L|]. split; [exact Li|].
  exact (exact_product_laws scale_translate scale_translate_inverse
           scale_translate L Li L).
Defined.

(** X3.  In exact rational arithmetic [mat4_multiply] and
    [mat4_mul_vec4] agree on the column-major layout: applying the product
    [a b] to a vector is applying [b] and then [a]. *)
Theorem exact_product_acts (a b : list Q) (v : Q * Q * Q * Q) :
  List.length a = 16%nat -> List.length b = 16%nat ->
  exists ab abv bv a_bv,
    mat4_multiply a b = Ok ab /\ mat4_mul_vec4 ab v = Ok abv /\
    mat4_mul_vec4 b v = Ok bv /\ mat4_mul_vec4 a bv = Ok a_bv /\
    same_vector abv a_bv.
Proof.
  intros La Lb. destruct v as [[[vx vy] vz] vw].
  name_entries a La. name_entries b Lb.
  do 4 eexists.
  split; [run_kernel; reflexivity|].
  split; [run_kernel; reflexivity|].
  split; [run_kernel; reflexivity|].
  split; [run_kernel; reflexivity|].
  as_rationals. repeat split; ring.
Qed.

Lemma exact_product_acts_example :
  List.length scale_translate = 16%nat /\
  List.length scale_translate_inverse = 16%nat /\
  exists ab abv bv a_bv,
    mat4_multiply scale_translate scale_translate_inverse = Ok ab /\
    mat4_mul_vec4 ab (1, 2, 3, 1)%Q = Ok abv /\
    mat4_mul_vec4 scale_translate_inverse (1, 2, 3, 1)%Q = Ok bv /\
    mat4_mul_vec4 scale_translate bv = Ok a_bv /\
    same_vector abv a_bv.
Proof.
  assert (L : List.length scale_translate = 16%nat) by reflexivity.
  assert (Li : List.length scale_translate_inverse = 16%nat)
    by (vm_compute; reflexivity).
  split; [exact L|]. split; [exact Li|].
  exact (exact_product_acts scale_translate scale_translate_inverse
           (1, 2, 3, 1)%Q L Li).
Defined.

(** X4.  In exact rational arithmetic, whenever [mat4_inverse] returns a
    matrix for a matrix of sixteen entries, that matrix times the argument is
    the identity, and it takes [M v] back to [v] for every vector [v]. *)
Theorem exact_inverse_undoes (M inv : list Q) (v : Q * Q * Q * Q) :
  List.length M = 16%nat ->
  mat4_inverse M = Ok (Some inv) ->
  exists prod Mv back,
    mat4_multiply inv M = Ok prod /\ same_entries prod identity /\
    mat4_mul_vec4 M v = Ok Mv /\ mat4_mul_vec4 inv Mv = Ok back /\
    same_vector back v.
Proof.
  intros L E. apply mat4_inverse_some in E as (_ & Hz & _ & ->).
  destruct v as [[[vx vy] vz] vw]. name_entries M L.
  cbn [a_is_zero Exact.rational_arith] in Hz. apply Qeq_bool_neq in Hz.
  revert Hz. run_kernel. as_rationals. intros Hz.
  do 3 eexists.
  split; [reflexivity|].
  split; [repeat (apply Forall2_cons; [field; exact Hz|]);
          apply Forall2_nil|].
  split; [reflexivity|].
  split; [reflexivity|].
  repeat split; field; exact Hz.
Qed.

Lemma exact_inverse_undoes_example :
  List.length scale_translate = 16%nat /\
  mat4_inverse scale_translate = Ok (Some scale_translate_inverse) /\
  exists prod Mv back,
    mat4_multiply scale_translate_inverse scale_translate = Ok prod /\
    same_entries prod identity /\
    mat4_mul_vec4 scale_translate (1, 2, 3, 1)%Q = Ok Mv /\
    mat4_mul_vec4 scale_translate_inverse Mv = Ok back /\
    same_vector back (1, 2, 3, 1)%Q.
Proof.
  assert (L : List.length scale_translate = 16%nat) by reflexivity.
  assert (E : mat4_inverse scale_translate = Ok (Some scale_translate_inverse))
    by (vm_compute; reflexivity).
  split; [exact L|]. split; [exact E|].
  exact (exact_inverse_undoes scale_translate scale_translate_inverse
           (1, 2, 3, 1)%Q L E).
Defined.

End KernelExtras.

(* ================================================================== *)
(** ** The camera matrices *)

Module CameraExtras.

Import B64 B64Facts OrderFacts model camera Spec Spec2.
Local Open Scope Z_scope.

Lemma norm3_returns (x y z : float) :
  norm3 x y z = Ok (fsqrt (fadd (fadd (fmul x x) (fmul y y)) (fmul z z))).
Proof.
  unfold norm3, py_sqrt.
  rewrite unsigned_not_below_zero; [reflexivity|].
  repeat apply add_unsigned; apply square_unsigned.
Qed.

Lemma py_div_raises (x y : float) (e : exn) :
  py_div x y = Raise e -> e = ZeroDivisionError.
Proof. unfold py_div. destruct (feq y zero); congruence. Qed.

Ltac division_or_go :=
  match goal with
  | |- (bind (py_div ?x ?y) _ = Raise _) -> _ =>
      let D := fresh "D" in
      destruct (py_div x y) eqn:D; cbn [bind];
      [|intros E; injection E as <-; exact (py_div_raises _ _ _ D)]
  end.

(** X5.  [look_at] divides by the length of the viewing direction
    without a guard: with a finite eye placed on the centre it raises
    [ZeroDivisionError]; [ZeroDivisionError] is the only exception it raises,
    whatever the floats; and a matrix it returns has sixteen entries with
    bottom row [0, 0, 0, 1]. *)
Theorem look_at_degenerate :
  (forall eye up : vec3,
      (let '(x, y, z) := eye in is_finite x && is_finite y && is_finite z)
      = true ->
      look_at eye eye up = Raise ZeroDivisionError) /\
  (forall (eye center up : vec3) (e : exn),
      look_at eye center up = Raise e -> e = ZeroDivisionError) /\
  (forall (eye center up : vec3) (m : list float),
      look_at eye center up = Ok m ->
      List.length m = 16%nat /\
      nth 3 m one = zero /\ nth 7 m one = zero /\ nth 11 m one = zero /\
      nth 15 m zero = one).
Proof.
  split; [|split].
  - intros [[x y] z] [[u0 u1] u2] F.
    apply andb_prop in F as [F Fz]. apply andb_prop in F as [Fx Fy].
    unfold look_at. rewrite !fsub_diag by assumption. reflexivity.
  - intros [[e0 e1] e2] [[c0 c1] c2] [[u0 u1] u2] e.
    unfold look_at. rewrite norm3_returns. cbn [bind].
    do 3 division_or_go.
    rewrite norm3_returns. cbn [bind].
    do 3 division_or_go.
    discriminate.
  - intros [[e0 e1] e2] [[c0 c1] c2] [[u0 u1] u2] m.
    unfold look_at.
    repeat match goal with
           | |- (bind ?c _ = Ok _) -> _ =>
               destruct c; cbn [bind]; [|discriminate]
           end.
    intros [= <-]. repeat split; reflexivity.
Qed.

Lemma look_at_degenerate_example :
  (is_finite (of_Z 1) && is_finite (of_Z 2) && is_finite (of_Z 3) = true /\
   look_at (i3 1 2 3) (i3 1 2 3) (i3 0 1 0) = Raise ZeroDivisionError) /\
  (look_at (i3 0 0 10) (i3 0 0 0) (i3 0 0 1) = Raise ZeroDivisionError /\
   ZeroDivisionError = ZeroDivisionError) /\
  (look_at (i3 0 0 10) (i3 0 0 0) (i3 0 1 0) = Ok front_view /\
   List.length front_view = 16%nat /\
   nth 3 front_view one = zero /\ nth 7 front_view one = zero /\
   nth 11 front_view one = zero /\ nth 15 front_view zero = one).
Proof.
  assert (F : is_finite (of_Z 1) && is_finite (of_Z 2) && is_finite (of_Z 3)
              = true) by (vm_compute; reflexivity).
  assert (R : look_at (i3 0 0 10) (i3 0 0 0) (i3 0 0 1)
              = Raise ZeroDivisionError) by (vm_compute; reflexivity).
  assert (E : look_at (i3 0 0 10) (i3 0 0 0) (i3 0 1 0) = Ok front_view)
    by (vm_compute; reflexivity).
  split; [|split].
  - split; [exact F|].
    exact (proj1 look_at_degenerate (i3 1 2 3) (i3 0 1 0) F).
  - split; [exact R|].
    exact (proj1 (proj2 look_at_degenerate) _ _ _ _ R).
  - split; [exact E|].
    exact (proj2 (proj2 look_at_degenerate) _ _ _ _ E).
Defined.

Section Perspective.

Context {libm : Tan}.

(** X6.  [perspective], given what [math.tan] returns for half the field
    of view: it raises [ZeroDivisionError] when that tangent, the aspect or
    [near - far] is zero, so in particular when a finite [near] equals
    [far]; otherwise it returns sixteen entries with [m[11] = -1] and
    [m[15] = 0]. *)
Theorem perspective_divisions (fov_deg aspect near far t : float) :
  math_tan (fquot (radians fov_deg) two) = Ok t ->
  (feq t zero = true \/ feq aspect zero = true \/
   feq (fsub near far) zero = true ->
   perspective fov_deg aspect near far = Raise ZeroDivisionError) /\
  (feq t zero = false -> feq aspect zero = false ->
   feq (fsub near far) zero = false ->
   exists m, perspective fov_deg aspect near far = Ok m /\
             List.length m = 16%nat /\
             nth 11 m zero = of_Z (-1) /\ nth 15 m one = zero) /\
  (is_finite near = true -> near = far ->
   perspective fov_deg aspect near far = Raise ZeroDivisionError).
Proof.
  intros T.
  assert (P : perspective fov_deg aspect near far
              = if feq t zero then Raise ZeroDivisionError
                else if feq aspect zero then Raise ZeroDivisionError
                else if feq (fsub near far) zero
                then Raise ZeroDivisionError
                else Ok [ fquot (fquot one t) aspect; zero; zero; zero;
                          zero; fquot one t; zero; zero;
                          zero; zero; fquot (fadd far near) (fsub near far);
                          of_Z (-1);
                          zero; zero;
                          fquot (fmul (fmul two far) near) (fsub near far);
                          zero ]).
  { unfold perspective. rewrite (py_div_ok _ _ two_nonzero). cbn [bind].
    rewrite T. cbn [bind]. unfold py_div.
    destruct (feq t zero); [reflexivity|]. cbn [bind].
    destruct (feq aspect zero); [reflexivity|]. cbn [bind].
    destruct (feq (fsub near far) zero); reflexivity. }
  split; [|split].
  - rewrite P. intros [-> | [-> | ->]]; [reflexivity| |].
    + destruct (feq t zero); reflexivity.
    + destruct (feq t zero), (feq aspect zero); reflexivity.
  - rewrite P. intros -> -> ->. eexists. split; [reflexivity|].
    repeat split; reflexivity.
  - intros F <-. rewrite P, (fsub_diag near F).
    destruct (feq t zero), (feq aspect zero); reflexivity.
Qed.

End Perspective.

Lemma perspective_divisions_example :
  camera.math_tan (Tan := series_tan) (fquot (radians (of_Z 45)) two)
  = Ok half_fov_tan /\
  ((feq half_fov_tan zero = true \/ feq zero zero = true \/
    feq (fsub (lit 1 10) (of_Z 500)) zero = true) /\
   perspective (libm := series_tan) (of_Z 45) zero (lit 1 10) (of_Z 500)
   = Raise ZeroDivisionError) /\
  (feq half_fov_tan zero = false /\ feq one zero = false /\
   feq (fsub (lit 1 10) (of_Z 500)) zero = false /\
   exists m,
     perspective (libm := series_tan) (of_Z 45) one (lit 1 10) (of_Z 500)
     = Ok m /\
     List.length m = 16%nat /\
     nth 11 m zero = of_Z (-1) /\ nth 15 m one = zero) /\
  (is_finite (of_Z 5) = true /\ of_Z 5 = of_Z 5 /\
   perspective (libm := series_tan) (of_Z 45) one (of_Z 5) (of_Z 5)
   = Raise ZeroDivisionError).
Proof.
  assert (T : camera.math_tan (Tan := series_tan)
                (fquot (radians (of_Z 45)) two) = Ok half_fov_tan)
    by (vm_compute; reflexivity).
  assert (Z : feq half_fov_tan zero = true \/ feq zero zero = true \/
              feq (fsub (lit 1 10) (of_Z 500)) zero = true)
    by (right; left; vm_compute; reflexivity).
  assert (N1 : feq half_fov_tan zero = false) by (vm_compute; reflexivity).
  assert (N2 : feq one zero = false) by (vm_compute; reflexivity).
  assert (N3 : feq (fsub (lit 1 10) (of_Z 500)) zero = false)
    by (vm_compute; reflexivity).
  assert (F : is_finite (of_Z 5) = true) by (vm_compute; reflexivity).
  split; [exact T|]. split; [|split].
  - split; [exact Z|].
    exact (proj1 (perspective_divisions (libm := series_tan) (of_Z 45) zero
                    (lit 1 10) (of_Z 500) half_fov_tan T) Z).
  - split; [exact N1|]. split; [exact N2|]. split; [exact N3|].
    exact (proj1 (proj2 (perspective_divisions (libm := series_tan) (of_Z 45)
                           one (lit 1 10) (of_Z 500) half_fov_tan T))
                 N1 N2 N3).
  - split; [exact F|]. split; [reflexivity|].
    exact (proj2 (proj2 (perspective_divisions (libm := series_tan) (of_Z 45)
                           one (of_Z 5) (of_Z 5) half_fov_tan T))
                 F eq_refl).
Defined.

End CameraExtras.

(* ================================================================== *)
(** ** More about the model: faces, poses, the atlas, rotation *)

Module ModelExtras.

Import B64 B64Facts OrderFacts model Spec Spec2 ModelFacts.
Local Open Scope Z_scope.
Local Open Scope string_scope.

Lemma dict_get_raises {V} (d : dict V) (k : string) (e : exn) :
  dict_get d k = Raise e -> e = KeyError.
Proof.
  induction d as [|[k' v] d IH]; cbn.
  - congruence.
  - destruct (String.eqb k' k); [discriminate|exact IH].
Qed.

Lemma get_face_quads_six (part : BoxPart) (quads : list quad) :
  get_face_quads part = Ok quads ->
  map (fun q : quad => fst (fst q)) quads
  = ["front"; "back"; "right"; "left"; "top"; "bottom"] /\
  Forall four_each quads.
Proof.
  unfold get_face_quads.
  destruct (origin part) as [[x0 y0] z0], (size part) as [[w h] d].
  cbv zeta.
  repeat match goal with
         | |- (bind (dict_get ?m ?k) _ = Ok _) -> _ =>
             destruct (dict_get m k) as [[[[? ?] ?] ?]|]; cbn [bind];
             [|discriminate]
         end.
  intros [= <-]. split; [reflexivity|].
  repeat constructor.
Qed.

Lemma get_face_quads_raises (part : BoxPart) (e : exn) :
  get_face_quads part = Raise e ->
  e = KeyError /\
  exists face,
    In face ["front"; "back"; "right"; "left"; "top"; "bottom"] /\
    dict_get (uvs part) face = Raise KeyError.
Proof.
  unfold get_face_quads.
  destruct (origin part) as [[x0 y0] z0], (size part) as [[w h] d].
  cbv zeta.
  repeat match goal with
         | |- (bind (dict_get ?m ?k) _ = Raise _) -> _ =>
             let D := fresh "D" in
             destruct (dict_get m k) as [[[[? ?] ?] ?]|] eqn:D; cbn [bind];
             [|intros [= <-]; pose proof (dict_get_raises _ _ _ D); subst;
               split; [reflexivity|]; exists k; split; [cbn; auto 10|exact D]]
         end.
  discriminate.
Qed.

Lemma get_face_quads_posed (part : BoxPart) (r : vec3) :
  get_face_quads (set_rotation part r) = get_face_quads part.
Proof. reflexivity. Qed.

(** X7.  [get_face_quads] on any part: when it returns, the quads are
    front, back, right, left, top, bottom in this order, each with four
    vertices and four UVs; when it raises, the exception is [KeyError] and
    one of the six faces is missing from [uvs]; and the part's rotation has
    no influence on it. *)
Theorem face_quads_outcomes (part : BoxPart) :
  (forall quads,
      get_face_quads part = Ok quads ->
      map (fun q : quad => fst (fst q)) quads
      = ["front"; "back"; "right"; "left"; "top"; "bottom"] /\
      Forall four_each quads) /\
  (forall e,
      get_face_quads part = Raise e ->
      e = KeyError /\
      exists face,
        In face ["front"; "back"; "right"; "left"; "top"; "bottom"] /\
        dict_get (uvs part) face = Raise KeyError) /\
  (forall r, get_face_quads (set_rotation part r) = get_face_quads part).
Proof.
  split; [exact (get_face_quads_six part)|].
  split; [exact (get_face_quads_raises part)|].
  exact (get_face_quads_posed part).
Qed.

Lemma face_quads_outcomes_example :
  (get_face_quads swung_arm = Ok swung_arm_face_quads /\
   map (fun q : quad => fst (fst q)) swung_arm_face_quads
   = ["front"; "back"; "right"; "left"; "top"; "bottom"] /\
   Forall four_each swung_arm_face_quads) /\
  (get_face_quads bare_part = Raise KeyError /\
   KeyError = KeyError /\
   exists face,
     In face ["front"; "back"; "right"; "left"; "top"; "bottom"] /\
     dict_get (uvs bare_part) face = Raise KeyError).
Proof.
  assert (E : get_face_quads swung_arm = Ok swung_arm_face_quads)
    by (vm_compute; reflexivity).
  assert (R : get_face_quads bare_part = Raise KeyError) by reflexivity.
  split.
  - split; [exact E|].
    exact (proj1 (face_quads_outcomes swung_arm) _ E).
  - split; [exact R|].
    exact (proj1 (proj2 (face_quads_outcomes bare_part)) _ R).
Defined.

(** X8.  The constructor never raises, whatever its arguments, and
    [get_face_quads] returns for the part it builds, in any rotation set
    later: six quads in the fixed order, each with four vertices among the
    eight corners of the inflated box and with exactly the four corners of
    its face's UV rectangle. *)
Theorem constructed_part_quads name origin size uv_origin inflate pivot
  rotation (pose : vec3) :
  exists part quads,
    BoxPart_init name origin size uv_origin inflate pivot rotation = Ok part /\
    get_face_quads (set_rotation part pose) = Ok quads /\
    map (fun q : quad => fst (fst q)) quads
    = ["front"; "back"; "right"; "left"; "top"; "bottom"] /\
    Forall (fun q : quad =>
              let '(face, verts, tex) := q in
              List.length verts = 4%nat /\ incl verts (corners part) /\
              List.length tex = 4%nat /\
              exists r, dict_get (uvs part) face = Ok r /\
                        incl tex (rect_corners r) /\
                        incl (rect_corners r) tex) quads.
Proof.
  eexists. 
  destruct (get_face_quads_unwrapped
              (set_rotation
                 (built name origin size uv_origin inflate pivot rotation)
                 pose)
              (of_Z 64) (of_Z 64) (fst uv_origin) (snd uv_origin)
              (fst (fst size)) (snd (fst size)) (snd size))
    as (quads & Q & N & F).
  { destruct origin as [[ox oy] oz], size as [[w h] d]. reflexivity. }
  exists quads.
  split; [apply BoxPart_init_ok|]. split; [exact Q|]. split; [exact N|].
  exact F.
Qed.

Lemma posed_as (m : PlayerModel) (f g : BoxPart -> BoxPart) :
  (forall p, f p = g p) -> for_all_parts f m = for_all_parts g m.
Proof.
  intros E. unfold for_all_parts. f_equal; apply map_ext; exact E.
Qed.

Lemma for_all_parts_twice (m : PlayerModel) (f g : BoxPart -> BoxPart) :
  for_all_parts g (for_all_parts f m) = for_all_parts (fun p => g (f p)) m.
Proof.
  unfold for_all_parts. cbn [base_parts overlay_parts].
  rewrite !map_map. reflexivity.
Qed.

Lemma set_pose_by_name (m : PlayerModel) (k : Z) :
  set_pose m k
  = for_all_parts (fun p => set_rotation p (pose_rotation k (name p))) m.
Proof.
  unfold set_pose, _apply_pose, pose_rotation.
  destruct (k =? 1)%Z; [|destruct (k =? 2)%Z].
  - rewrite for_all_parts_twice. apply posed_as. intros p.
    unfold walking, right_arm, left_arm, right_leg, left_leg.
    cbn [name set_rotation].
    repeat match goal with
           | |- context [if ?c then _ else _] => destruct c
           end; reflexivity.
  - rewrite for_all_parts_twice. apply posed_as. intros p.
    unfold arms_out, right_arm, left_arm. cbn [name set_rotation].
    repeat match goal with
           | |- context [if ?c then _ else _] => destruct c
           end; reflexivity.
  - reflexivity.
Qed.

(** X9.  [set_pose] gives every part the rotation its name and the
    pose index determine, and nothing else of the model matters: setting a
    pose after another pose is the same as setting it directly. *)
Theorem set_pose_forgets_history (m : PlayerModel) (j k : Z) :
  get_all_parts (set_pose m k)
  = map (fun p => set_rotation p (pose_rotation k (name p)))
        (get_all_parts m) /\
  set_pose (set_pose m j) k = set_pose m k.
Proof.
  split.
  - rewrite set_pose_by_name. unfold get_all_parts, for_all_parts.
    cbn [base_parts overlay_parts]. rewrite map_app. reflexivity.
  - rewrite (set_pose_by_name (set_pose m j) k), (set_pose_by_name m j),
      (set_pose_by_name m k), for_all_parts_twice.
    apply posed_as. intros p. reflexivity.
Qed.

(** X10.  The texture atlas of the two shipped models: each has 72 face
    rectangles (12 parts, six faces), every one a proper rectangle inside
    the unit square, and no two of them share an interior point. *)
Theorem atlas_regions_apart :
  forallb in_atlas (atlas_rects steve) = true /\
  pairwise apart (atlas_rects steve) = true /\
  forallb in_atlas (atlas_rects alex) = true /\
  pairwise apart (atlas_rects alex) = true /\
  List.length (atlas_rects steve) = 72%nat /\
  List.length (atlas_rects alex) = 72%nat.
Proof. repeat split; vm_compute; reflexivity. Qed.

Section Rotating.

Context {libm : Trig}.

Lemma zero_times (a b : float) :
  feq a zero = true -> is_finite b = true -> feq (fmul b a) zero = true.
Proof.
  intros Z F. apply feq_zero_inv in Z as [s ->].
  destruct b as [s'|s'| |s' m e]; cbn in F |- *; try discriminate;
    reflexivity.
Qed.

Lemma zero_minus (a b : float) :
  feq a zero = true -> feq b zero = true -> feq (fsub a b) zero = true.
Proof.
  intros A B. apply feq_zero_inv in A as [s ->].
  apply feq_zero_inv in B as [s' ->]. destruct s, s'; reflexivity.
Qed.

Lemma zero_plus (a b : float) :
  feq a zero = true -> feq b zero = true -> feq (fadd a b) zero = true.
Proof.
  intros A B. apply feq_zero_inv in A as [s ->].
  apply feq_zero_inv in B as [s' ->]. destruct s, s'; reflexivity.
Qed.

Lemma finite_opp (a : float) : is_finite (fopp a) = is_finite a.
Proof. destruct a; reflexivity. Qed.

Lemma zero_plus_finite (a c : float) :
  feq a zero = true -> is_finite c = true -> feq (fadd a c) c = true.
Proof.
  intros A F. apply feq_zero_inv in A as [s ->].
  destruct c as [s'|s'| |s' m e]; cbn in F; try discriminate.
  - destruct s, s'; reflexivity.
  - cbn. unfold feq, SFeqb, SFcompare.
    rewrite Z.compare_refl, Pos.compare_cont_refl. destruct s'; reflexivity.
Qed.

(** X11.  [_rotate_point] leaves the pivot where it is: for a finite pivot
    and angles at which [math.cos] and [math.sin] return finite numbers, the
    pivot is mapped to a point equal to it in each coordinate (as floats
    compare, so up to the sign of a zero). *)
Theorem pivot_is_fixed (pivot rotation_deg : vec3) :
  (let '(cx, cy, cz) := pivot in
   is_finite cx = true /\ is_finite cy = true /\ is_finite cz = true) ->
  (let '(rx, ry, rz) := rotation_deg in
   finite_at math_cos (radians rx) /\ finite_at math_sin (radians rx) /\
   finite_at math_cos (radians ry) /\ finite_at math_sin (radians ry) /\
   finite_at math_cos (radians rz) /\ finite_at math_sin (radians rz)) ->
  let '(cx, cy, cz) := pivot in
  exists x y z,
    _rotate_point cx cy cz pivot rotation_deg = Ok (x, y, z) /\
    feq x cx = true /\ feq y cy = true /\ feq z cz = true.
Proof.
  destruct pivot as [[cx cy] cz], rotation_deg as [[rx ry] rz].
  intros (Fx & Fy & Fz)
    ((c1 & C1 & Fc1) & (s1 & S1 & Fs1) & (c2 & C2 & Fc2) & (s2 & S2 & Fs2)
     & (c3 & C3 & Fc3) & (s3 & S3 & Fs3)).
  unfold _rotate_point. rewrite C1, S1. cbn [bind].
  rewrite C2, S2. cbn [bind]. rewrite C3, S3. cbn [bind].
  rewrite !fsub_diag by assumption.
  assert (Z0 : feq zero zero = true) by reflexivity.
  assert (Fo : is_finite (fopp s2) = true) by (rewrite finite_opp; exact Fs2).
  eexists. eexists. eexists. split; [reflexivity|].
  repeat split; apply zero_plus_finite; try assumption;
    repeat (apply zero_minus || apply zero_plus || apply zero_times);
    assumption.
Qed.

Lemma rotate_point_returns (px py pz : float) (pivot rotation_deg : vec3) :
  (let '(rx, ry, rz) := rotation_deg in
   returns (math_cos (radians rx)) /\ returns (math_sin (radians rx)) /\
   returns (math_cos (radians ry)) /\ returns (math_sin (radians ry)) /\
   returns (math_cos (radians rz)) /\ returns (math_sin (radians rz))) ->
  returns (_rotate_point px py pz pivot rotation_deg).
Proof.
  destruct pivot as [[cx cy] cz], rotation_deg as [[rx ry] rz].
  intros ([c1 C1] & [s1 S1] & [c2 C2] & [s2 S2] & [c3 C3] & [s3 S3]).
  unfold _rotate_point. rewrite C1, S1. cbn [bind].
  rewrite C2, S2. cbn [bind]. rewrite C3, S3. cbn [bind].
  eexists. reflexivity.
Qed.

Lemma map_r_returns {A B} (f : A -> result B) (xs : list A) :
  (forall x, In x xs -> returns (f x)) ->
  exists ys, map_r f xs = Ok ys /\ List.length ys = List.length xs.
Proof.
  induction xs as [|x xs IH]; cbn; intros H; [eauto|].
  destruct (H x (or_introl eq_refl)) as [y ->]. cbn [bind].
  destruct IH as (ys & -> & L); [auto|]. cbn [bind].
  eexists. split; [reflexivity|]. cbn. congruence.
Qed.

Lemma transformed_quads_return (part : BoxPart) (quads0 : list quad) :
  get_face_quads part = Ok quads0 ->
  (let '(rx, ry, rz) := rotation part in
   returns (math_cos (radians rx)) /\ returns (math_sin (radians rx)) /\
   returns (math_cos (radians ry)) /\ returns (math_sin (radians ry)) /\
   returns (math_cos (radians rz)) /\ returns (math_sin (radians rz))) ->
  exists quads,
    get_transformed_quads part = Ok quads /\
    map face_and_uvs quads = map face_and_uvs quads0 /\
    map (fun q : quad => List.length (snd (fst q))) quads
    = map (fun q : quad => List.length (snd (fst q))) quads0.
Proof.
  intros Q T. unfold get_transformed_quads. rewrite Q. cbn [bind].
  destruct (rotation part) as [[rx ry] rz] eqn:R.
  destruct (feq rx zero && feq ry zero && feq rz zero); [eauto|].
  assert (V : forall verts : list vec3,
             exists vs,
               map_r (fun v : vec3 =>
                        let '(vx, vy, vz) := v in
                        _rotate_point vx vy vz (pivot part) (rx, ry, rz))
                     verts = Ok vs /\
               List.length vs = List.length verts).
  { intros verts. apply map_r_returns.
    intros [[vx vy] vz] _. apply rotate_point_returns. exact T. }
  match goal with
  | |- exists quads, map_r ?f quads0 = Ok quads /\ _ =>
      destruct (map_r_returns f quads0) as (quads & E & _)
  end.
  { intros [[face verts] tex] _.
    destruct (V verts) as (vs & -> & _). eexists. reflexivity. }
  exists quads. split; [exact E|]. split.
  - eapply ModelClaims.map_r_keeps; [|exact E].
    intros [[face verts] tex] y.
    destruct (map_r _ verts); cbn [bind]; [|discriminate].
    intros [= <-]. reflexivity.
  - eapply ModelClaims.map_r_keeps; [|exact E].
    intros [[face verts] tex] y.
    destruct (V verts) as (vs & -> & L). cbn [bind].
    intros [= <-]. exact L.
Qed.

Lemma transformed_quads_shape (part : BoxPart) (quads : list quad) :
  get_transformed_quads part = Ok quads ->
  List.length quads = 6%nat /\ Forall four_each quads.
Proof.
  unfold get_transformed_quads.
  destruct (get_face_quads part) as [quads0|] eqn:Q; cbn [bind];
    [|discriminate].
  destruct (get_face_quads_six _ _ Q) as [N F].
  assert (L0 : List.length quads0 = 6%nat).
  { rewrite <- (length_map (fun q : quad => fst (fst q))), N. reflexivity. }
  destruct (rotation part) as [[rx ry] rz].
  destruct (feq rx zero && feq ry zero && feq rz zero).
  { intros [= <-]. auto. }
  intros E.
  assert (K : map (fun q : quad =>
                     (List.length (snd (fst q)), List.length (snd q))) quads
              = map (fun q : quad =>
                       (List.length (snd (fst q)), List.length (snd q)))
                    quads0).
  { eapply ModelClaims.map_r_keeps; [|exact E].
    intros [[face verts] tex] y.
    destruct (map_r _ verts) as [vs|] eqn:V; cbn [bind]; [|discriminate].
    intros [= <-]. cbn [fst snd]. f_equal.
    rewrite <- (length_map (fun _ => tt) vs),
      <- (length_map (fun _ => tt) verts).
    f_equal. eapply ModelClaims.map_r_keeps; [|exact V]. reflexivity. }
  split.
  - apply (f_equal (@List.length _)) in K. rewrite !length_map in K.
    congruence.
  - clear - F K. revert quads K.
    induction F as [|q0 quads0 [A B] F IH]; intros [|q quads] K;
      cbn [map] in K; try discriminate; constructor.
    + injection K as K1 K2 _. split; congruence.
    + injection K as _ _ K. apply IH. exact K.
Qed.

(** X12.  For a part built by the constructor and then rotated,
    [get_transformed_quads] returns as soon as [math.cos] and [math.sin]
    return at the three angles: six quads in the fixed order, with the face
    names and UVs of [get_face_quads] and four vertices each. *)
Theorem constructed_part_transforms name origin size uv_origin inflate pivot
  rotation (pose : vec3) :
  (let '(rx, ry, rz) := pose in
   returns (math_cos (radians rx)) /\ returns (math_sin (radians rx)) /\
   returns (math_cos (radians ry)) /\ returns (math_sin (radians ry)) /\
   returns (math_cos (radians rz)) /\ returns (math_sin (radians rz))) ->
  exists part quads0 quads,
    BoxPart_init name origin size uv_origin inflate pivot rotation = Ok part /\
    get_face_quads part = Ok quads0 /\
    get_transformed_quads (set_rotation part pose) = Ok quads /\
    map face_and_uvs quads = map face_and_uvs quads0 /\
    map (fun q : quad => fst (fst q)) quads
    = ["front"; "back"; "right"; "left"; "top"; "bottom"] /\
    Forall (fun q : quad =>
              List.length (snd (fst q)) = 4%nat /\
              List.length (snd q) = 4%nat) quads.
Proof.
  intros T.
  destruct (ModelClaims.get_face_quads_shape name origin size uv_origin
              inflate pivot rotation) as (quads0 & Q & N & F).
  destruct (transformed_quads_return
              (set_rotation
                 (built name origin size uv_origin inflate pivot rotation)
                 pose) quads0 Q T) as (quads & E & U & L).
  exists (built name origin size uv_origin inflate pivot rotation),
    quads0, quads.
  split; [apply BoxPart_init_ok|]. split; [exact Q|]. split; [exact E|].
  split; [exact U|]. split.
  - rewrite <- N.
    change (fun q : quad => fst (fst q))
      with (fun q : quad => fst (face_and_uvs q)).
    rewrite <- !(map_map face_and_uvs fst), U. reflexivity.
  - assert (F0 : Forall (fun q : quad =>
                           List.length (snd (fst q)) = 4%nat /\
                           List.length (snd q) = 4%nat) quads0).
    { eapply Forall_impl; [|exact F]. intros [[face verts] tex].
      cbn [fst snd]. tauto. }
    clear - F0 U L. revert quads U L.
    induction F0 as [|q0 quads0 [A B] F0 IH]; intros [|q quads] U L;
      cbn [map] in U, L; try discriminate; constructor.
    + injection U as _ U1 _. injection L as L0 _. split; congruence.
    + injection U as _ _ U. injection L as _ L. apply IH; assumption.
Qed.

End Rotating.

Lemma pivot_is_fixed_example :
  (is_finite (of_Z (-6)) = true /\ is_finite (of_Z 22) = true /\
   is_finite (of_Z 0) = true) /\
  (finite_at (math_cos (Trig := series_libm)) (radians (of_Z 30)) /\
   finite_at (math_sin (Trig := series_libm)) (radians (of_Z 30)) /\
   finite_at (math_cos (Trig := series_libm)) (radians (of_Z 0)) /\
   finite_at (math_sin (Trig := series_libm)) (radians (of_Z 0)) /\
   finite_at (math_cos (Trig := series_libm)) (radians (of_Z 0)) /\
   finite_at (math_sin (Trig := series_libm)) (radians (of_Z 0))) /\
  exists x y z,
    _rotate_point (libm := series_libm) (of_Z (-6)) (of_Z 22) (of_Z 0)
                  (i3 (-6) 22 0) (i3 30 0 0) = Ok (x, y, z) /\
    feq x (of_Z (-6)) = true /\ feq y (of_Z 22) = true /\
    feq z (of_Z 0) = true.
Proof.
  assert (F : is_finite (of_Z (-6)) = true /\ is_finite (of_Z 22) = true /\
              is_finite (of_Z 0) = true).
  { split; [|split]; vm_compute; reflexivity. }
  assert (C30 : finite_at (math_cos (Trig := series_libm))
                          (radians (of_Z 30))).
  { eexists. split; [reflexivity|]. vm_compute. reflexivity. }
  assert (S30 : finite_at (math_sin (Trig := series_libm))
                          (radians (of_Z 30))).
  { eexists. split; [reflexivity|]. vm_compute. reflexivity. }
  assert (C0 : finite_at (math_cos (Trig := series_libm))
                         (radians (of_Z 0))).
  { eexists. split; [reflexivity|]. vm_compute. reflexivity. }
  assert (S0 : finite_at (math_sin (Trig := series_libm))
                         (radians (of_Z 0))).
  { eexists. split; [reflexivity|]. vm_compute. reflexivity. }
  split; [exact F|].
  split; [exact (conj C30 (conj S30 (conj C0 (conj S0 (conj C0 S0)))))|].
  exact (pivot_is_fixed (libm := series_libm) (i3 (-6) 22 0) (i3 30 0 0) F
           (conj C30 (conj S30 (conj C0 (conj S0 (conj C0 S0)))))).
Defined.

Lemma constructed_part_transforms_example :
  (returns (math_cos (Trig := series_libm) (radians (of_Z 30))) /\
   returns (math_sin (Trig := series_libm) (radians (of_Z 30))) /\
   returns (math_cos (Trig := series_libm) (radians (of_Z 0))) /\
   returns (math_sin (Trig := series_libm) (radians (of_Z 0))) /\
   returns (math_cos (Trig := series_libm) (radians (of_Z 0))) /\
   returns (math_sin (Trig := series_libm) (radians (of_Z 0)))) /\
  exists part quads0 quads,
    BoxPart_init "rightArm" (i3 (-8) 12 (-2)) (i3 4 12 4) (i2 40 16) zero
                 (Some (i3 (-6) 22 0)) None = Ok part /\
    get_face_quads part = Ok quads0 /\
    get_transformed_quads (libm := series_libm)
      (set_rotation part (i3 30 0 0)) = Ok quads /\
    map face_and_uvs quads = map face_and_uvs quads0 /\
    map (fun q : quad => fst (fst q)) quads
    = ["front"; "back"; "right"; "left"; "top"; "bottom"] /\
    Forall (fun q : quad =>
              List.length (snd (fst q)) = 4%nat /\
              List.length (snd q) = 4%nat) quads.
Proof.
  assert (T : returns (math_cos (Trig := series_libm) (radians (of_Z 30))) /\
              returns (math_sin (Trig := series_libm) (radians (of_Z 30))) /\
              returns (math_cos (Trig := series_libm) (radians (of_Z 0))) /\
              returns (math_sin (Trig := series_libm) (radians (of_Z 0))) /\
              returns (math_cos (Trig := series_libm) (radians (of_Z 0))) /\
              returns (math_sin (Trig := series_libm) (radians (of_Z 0)))).
  { repeat split; eexists; reflexivity. }
  split; [exact T|].
  exact (constructed_part_transforms (libm := series_libm) "rightArm"
           (i3 (-8) 12 (-2)) (i3 4 12 4) (i2 40 16) zero
           (Some (i3 (-6) 22 0)) None (i3 30 0 0) T).
Defined.

End ModelExtras.

(* ================================================================== *)
(** ** More about the ray caster *)

Module InteractionExtras.

Import B64 B64Facts OrderFacts model interaction Spec Spec2 KernelFacts
  InteractionFacts.
Local Open Scope Z_scope.

(** X13.  [_ray_triangle_intersect] never raises, whatever the floats
    (the one division is guarded by the test on [abs(a)]), and a hit it
    returns is never closer than [EPSILON]: [t < 1e-7] is false. *)
Theorem ray_triangle_hit_is_ahead (origin direction v0 v1 v2 : vec3)
  (uv0 uv1 uv2 : uv) :
  returns (_ray_triangle_intersect origin direction v0 v1 v2 uv0 uv1 uv2) /\
  (forall t tex_u tex_v,
      _ray_triangle_intersect origin direction v0 v1 v2 uv0 uv1 uv2
      = Ok (Some (t, tex_u, tex_v)) ->
      flt t EPSILON = false).
Proof.
  split; [apply ray_triangle_returns|].
  intros t tu tv.
  unfold _ray_triangle_intersect.
  destruct origin as [[ox oy] oz], direction as [[dx dy] dz],
    v0 as [[v0x v0y] v0z], v1 as [[v1x v1y] v1z], v2 as [[v2x v2y] v2z].
  cbv zeta.
  match goal with
  | |- context [flt (fabs ?a) EPSILON] =>
      destruct (flt (fabs a) EPSILON) eqn:G; [discriminate|];
      rewrite (py_div_ok _ _ (guarded_abs _ _ eps7_pos G))
  end.
  cbn [bind].
  repeat match goal with
         | |- context [if ?c then Ok None else _] =>
             let C := fresh "C" in destruct c eqn:C; [discriminate|]
         end.
  intros [= <- _ _]. assumption.
Qed.

Lemma ray_triangle_hit_is_ahead_example :
  _ray_triangle_intersect (i3 0 0 (-1)) forward
    (i3 (-1) (-1) 0) (i3 1 (-1) 0) (i3 0 1 0) (i2 0 0) (i2 1 0) (i2 0 1)
  = Ok (Some (fst (fst triangle_hit), snd (fst triangle_hit),
              snd triangle_hit)) /\
  flt (fst (fst triangle_hit)) EPSILON = false.
Proof.
  assert (E : _ray_triangle_intersect (i3 0 0 (-1)) forward
                (i3 (-1) (-1) 0) (i3 1 (-1) 0) (i3 0 1 0)
                (i2 0 0) (i2 1 0) (i2 0 1)
              = Ok (Some (fst (fst triangle_hit), snd (fst triangle_hit),
                          snd triangle_hit))) by (vm_compute; reflexivity).
  split; [exact E|].
  exact (proj2 (ray_triangle_hit_is_ahead _ _ _ _ _ _ _ _) _ _ _ E).
Defined.

(** X14.  [_ray_quad_intersect] on four or more vertices and UVs never
    raises and returns the hit of the triangle (0, 1, 2) when there is one,
    that of the triangle (0, 2, 3) otherwise; on fewer than three vertices
    or UVs it raises [IndexError]. *)
Theorem ray_quad_triangles (origin direction : vec3) :
  (forall (a0 a1 a2 a3 : vec3) (more : list vec3)
          (t0 t1 t2 t3 : uv) (more_uvs : list uv),
      exists first second,
        _ray_triangle_intersect origin direction a0 a1 a2 t0 t1 t2
        = Ok first /\
        _ray_triangle_intersect origin direction a0 a2 a3 t0 t2 t3
        = Ok second /\
        _ray_quad_intersect origin direction
          (a0 :: a1 :: a2 :: a3 :: more) (t0 :: t1 :: t2 :: t3 :: more_uvs)
        = Ok match first with
             | Some hit => Some hit
             | None => second
             end) /\
  (forall (verts : list vec3) (uvs : list uv),
      (List.length verts < 3)%nat \/ (List.length uvs < 3)%nat ->
      _ray_quad_intersect origin direction verts uvs = Raise IndexError).
Proof.
  split.
  - intros a0 a1 a2 a3 more t0 t1 t2 t3 more_uvs.
    destruct (ray_triangle_returns origin direction a0 a1 a2 t0 t1 t2)
      as [first F].
    destruct (ray_triangle_returns origin direction a0 a2 a3 t0 t2 t3)
      as [second S].
    exists first, second. split; [exact F|]. split; [exact S|].
    unfold _ray_quad_intersect. cbn [item nth_error bind].
    rewrite F. cbn [bind]. destruct first; [reflexivity|exact S].
  - intros verts uvs [L|L]; unfold _ray_quad_intersect.
    + destruct verts as [|a0 [|a1 [|a2 verts]]]; cbn in L; try lia;
        reflexivity.
    + destruct verts as [|a0 [|a1 [|a2 verts]]]; try reflexivity.
      destruct uvs as [|t0 [|t1 [|t2 uvs]]]; cbn in L; try lia;
        reflexivity.
Qed.

Lemma ray_quad_triangles_example :
  ((List.length (@nil vec3) < 3)%nat \/ (List.length (@nil uv) < 3)%nat) /\
  _ray_quad_intersect arm_ray_origin forward [] [] = Raise IndexError.
Proof.
  assert (S : (List.length (@nil vec3) < 3)%nat \/
              (List.length (@nil uv) < 3)%nat) by (left; cbn; lia).
  split; [exact S|].
  exact (proj2 (ray_quad_triangles arm_ray_origin forward) [] [] S).
Defined.

(** X15.  The last lines of [pick], from UV to texel: when [u * 64] and
    [v * 64] are finite the texel is returned and lies in 0..63 on both
    axes; a NaN raises [ValueError] and an infinity [OverflowError], from
    [int()], the first coordinate being converted first. *)
Theorem texel_outcomes (tex_u tex_v : float) :
  let x := fmul tex_u (of_Z 64) in
  let y := fmul tex_v (of_Z 64) in
  (is_finite x = true -> is_finite y = true ->
   exists px py, texel (tex_u, tex_v) = Ok (px, py) /\
                 0 <= px <= 63 /\ 0 <= py <= 63) /\
  (is_nan x = true -> texel (tex_u, tex_v) = Raise ValueError) /\
  (is_inf x = true -> texel (tex_u, tex_v) = Raise OverflowError) /\
  (is_finite x = true -> is_nan y = true ->
   texel (tex_u, tex_v) = Raise ValueError) /\
  (is_finite x = true -> is_inf y = true ->
   texel (tex_u, tex_v) = Raise OverflowError).
Proof.
  intros x y. unfold texel.
  change (fmul tex_u (of_Z TEX_W)) with x.
  change (fmul tex_v (of_Z TEX_H)) with y.
  clearbody x y. unfold clamp. change TEX_W with 64. change TEX_H with 64.
  repeat split.
  - destruct x, y; cbn; try discriminate; intros _ _;
      eexists; eexists; (split; [reflexivity|]); lia.
  - destruct x; cbn; try discriminate; reflexivity.
  - destruct x; cbn; try discriminate; reflexivity.
  - destruct x, y; cbn; try discriminate; reflexivity.
  - destruct x, y; cbn; try discriminate; reflexivity.
Qed.

Lemma texel_outcomes_example :
  (is_finite (fmul (lit 1 2) (of_Z 64)) = true /\
   exists px py, texel (lit 1 2, lit 1 2) = Ok (px, py) /\
                 0 <= px <= 63 /\ 0 <= py <= 63) /\
  (is_nan (fmul S754_nan (of_Z 64)) = true /\
   texel (S754_nan, one) = Raise ValueError) /\
  (is_inf (fmul inf (of_Z 64)) = true /\
   texel (inf, one) = Raise OverflowError) /\
  (is_finite (fmul one (of_Z 64)) = true /\
   texel (one, S754_nan) = Raise ValueError) /\
  (is_finite (fmul one (of_Z 64)) = true /\
   texel (one, inf) = Raise OverflowError).
Proof.
  assert (F : is_finite (fmul (lit 1 2) (of_Z 64)) = true)
    by (vm_compute; reflexivity).
  assert (N : is_nan (fmul S754_nan (of_Z 64)) = true)
    by (vm_compute; reflexivity).
  assert (I : is_inf (fmul inf (of_Z 64)) = true)
    by (vm_compute; reflexivity).
  assert (F1 : is_finite (fmul one (of_Z 64)) = true)
    by (vm_compute; reflexivity).
  split; [|split; [|split; [|split]]].
  - split; [exact F|].
    exact (proj1 (texel_outcomes (lit 1 2) (lit 1 2)) F F).
  - split; [exact N|].
    exact (proj1 (proj2 (texel_outcomes S754_nan one)) N).
  - split; [exact I|].
    exact (proj1 (proj2 (proj2 (texel_outcomes inf one))) I).
  - split; [exact F1|].
    exact (proj1 (proj2 (proj2 (proj2 (texel_outcomes one S754_nan)))) F1 N).
  - split; [exact F1|].
    exact (proj2 (proj2 (proj2 (proj2 (texel_outcomes one inf)))) F1 I).
Defined.

Section Closest.

Context {libm : Trig} {libc : Pow}.

Lemma not_above_trans (a b c : best) :
  not_above a b -> not_above b c -> not_above a c.
Proof.
  unfold not_above. intros [E1|L1] [E2|L2].
  - left. congruence.
  - right. congruence.
  - right. congruence.
  - right. eapply flt_trans; eauto.
Qed.

Lemma not_above_keeps (t : float) (b' b : best) :
  not_above b' b -> flt t (fst b) = false -> flt t (fst b') = false.
Proof.
  intros [E|L] H; [congruence|].
  destruct (flt t (fst b')) eqn:C; [|reflexivity].
  rewrite (flt_trans _ _ _ C L) in H. discriminate.
Qed.

Lemma test_quad_step (o d : vec3) (q : quad) (b b' : best) :
  test_quad o d q b = Ok b' ->
  not_above b' b /\
  (snd b' = None -> b' = b) /\
  forall t u v,
    _ray_quad_intersect o d (snd (fst q)) (snd q) = Ok (Some (t, u, v)) ->
    flt t (fst b') = false.
Proof.
  unfold test_quad, not_above. destruct q as [[face verts] tex].
  cbn [fst snd].
  destruct (_ray_quad_intersect o d verts tex) as [[[[t u] v]|]|];
    cbn [bind]; try discriminate.
  - destruct (flt t (fst b)) eqn:C; intros [= <-]; cbn [fst snd].
    + split; [auto|]. split; [discriminate|].
      intros t' u' v' [= <- <- <-]. apply flt_irrefl.
    + split; [auto|]. split; [reflexivity|].
      intros t' u' v' [= <- <- <-]. exact C.
  - intros [= <-]. split; [auto|]. split; [reflexivity|]. discriminate.
Qed.

Lemma scan_quads_closest (o d : vec3) (quads : list quad) (b b' : best) :
  for_each quads (test_quad o d) b = Ok b' ->
  not_above b' b /\
  (snd b' = None -> b' = b) /\
  forall q t u v,
    In q quads ->
    _ray_quad_intersect o d (snd (fst q)) (snd q) = Ok (Some (t, u, v)) ->
    flt t (fst b') = false.
Proof.
  revert b. induction quads as [|q quads IH]; cbn [for_each]; intros b E.
  - injection E as <-. split; [left; reflexivity|].
    split; [reflexivity|]. intros q t u v [].
  - destruct (test_quad o d q b) as [b1|] eqn:T; cbn [bind] in E;
      [|discriminate].
    destruct (test_quad_step _ _ _ _ _ T) as (A1 & N1 & H1).
    destruct (IH _ E) as (A2 & N2 & H2).
    split; [eapply not_above_trans; eauto|].
    split.
    { intros N. rewrite (N2 N) in *. apply N1. rewrite <- (N2 N). exact N. }
    intros q' t u v [<-|I] R.
    + eapply not_above_keeps; [exact A2|]. eapply H1; eauto.
    + eapply H2; eauto.
Qed.

Lemma scan_parts_closest (o d : vec3) (parts : list BoxPart) (b b' : best) :
  for_each parts (fun part b =>
      quads <- get_transformed_quads part ;;
      for_each quads (test_quad o d) b) b = Ok b' ->
  not_above b' b /\
  (snd b' = None -> b' = b) /\
  forall part quads q t u v,
    In part parts -> get_transformed_quads part = Ok quads -> In q quads ->
    _ray_quad_intersect o d (snd (fst q)) (snd q) = Ok (Some (t, u, v)) ->
    flt t (fst b') = false.
Proof.
  revert b. induction parts as [|part parts IH]; cbn [for_each]; intros b E.
  - injection E as <-. split; [left; reflexivity|].
    split; [reflexivity|]. intros part quads q t u v [].
  - destruct (get_transformed_quads part) as [quads|] eqn:Q; cbn [bind] in E;
      [|discriminate].
    destruct (for_each quads (test_quad o d) b) as [b1|] eqn:S;
      cbn [bind] in E; [|discriminate].
    destruct (scan_quads_closest _ _ _ _ _ S) as (A1 & N1 & H1).
    destruct (IH _ E) as (A2 & N2 & H2).
    split; [eapply not_above_trans; eauto|].
    split.
    { intros N. rewrite (N2 N) in *. apply N1. rewrite <- (N2 N). exact N. }
    intros part' quads' q t u v [<-|I] Q' Iq R.
    + rewrite Q in Q'. injection Q' as <-.
      eapply not_above_keeps; [exact A2|]. eapply H1; eauto.
    + eapply H2; eauto.
Qed.

(** X16.  The two loops of [pick] keep the closest hit: when they
    end with [(best_t, best_uv)], no quad of any part is hit at a distance
    below [best_t]; [best_uv] is [None] only with [best_t] still infinite;
    and a quad hit at a finite distance makes [best_uv] other than
    [None]. *)
Theorem closest_hit_is_closest (origin direction : vec3)
  (parts : list BoxPart) (best_t : float) (best_uv : option uv) :
  closest_hit origin direction parts = Ok (best_t, best_uv) ->
  (forall part quads q t u v,
      In part parts -> get_transformed_quads part = Ok quads -> In q quads ->
      _ray_quad_intersect origin direction (snd (fst q)) (snd q)
      = Ok (Some (t, u, v)) ->
      flt t best_t = false) /\
  (best_uv = None -> best_t = inf) /\
  (forall part quads q t u v,
      In part parts -> get_transformed_quads part = Ok quads -> In q quads ->
      _ray_quad_intersect origin direction (snd (fst q)) (snd q)
      = Ok (Some (t, u, v)) ->
      flt t inf = true ->
      best_uv <> None).
Proof.
  unfold closest_hit. intros E.
  destruct (scan_parts_closest _ _ _ _ _ E) as (_ & N & H).
  cbn [fst snd] in N, H.
  assert (U : best_uv = None -> best_t = inf).
  { intros ->. specialize (N eq_refl). congruence. }
  split; [|split].
  - intros part quads q t u v I Q Iq R. exact (H _ _ _ _ _ _ I Q Iq R).
  - exact U.
  - intros part quads q t u v I Q Iq R F B.
    pose proof (H _ _ _ _ _ _ I Q Iq R) as C.
    rewrite (U B) in C. congruence.
Qed.

Lemma scan_quads_miss (o d : vec3) (quads : list quad) (b : best) :
  (forall q, In q quads ->
             _ray_quad_intersect o d (snd (fst q)) (snd q) = Ok None) ->
  for_each quads (test_quad o d) b = Ok b.
Proof.
  induction quads as [|q quads IH]; cbn [for_each]; intros M; [reflexivity|].
  unfold test_quad at 1. destruct q as [[face verts] tex].
  pose proof (M _ (or_introl eq_refl)) as M0. cbn [fst snd] in M0.
  rewrite M0. cbn [bind]. apply IH.
  intros q I. apply M. right. exact I.
Qed.

(** X17.  When the ray is unprojected and every quad of every part
    tested misses it, [pick] returns [None]; the parts tested are the base
    parts alone when the overlay is hidden. *)
Theorem pick_misses (mx my viewport_w viewport_h : float)
  (proj view : list float) (model : PlayerModel) (overlay_visible : bool)
  (origin direction : vec3) :
  _unproject mx my viewport_w viewport_h proj view
  = Ok (Some (origin, direction)) ->
  (forall part,
      In part (if overlay_visible then get_all_parts model
               else base_parts model) ->
      exists quads,
        get_transformed_quads part = Ok quads /\
        forall q, In q quads ->
                  _ray_quad_intersect origin direction (snd (fst q)) (snd q)
                  = Ok None) ->
  pick mx my viewport_w viewport_h proj view model overlay_visible = Ok None.
Proof.
  intros U M. unfold pick. rewrite U. cbn [bind].
  set (parts := if overlay_visible then get_all_parts model
                else base_parts model) in *.
  assert (C : closest_hit origin direction parts = Ok (inf, None)).
  { unfold closest_hit. generalize (inf, @None uv). clearbody parts.
    induction parts as [|part parts IH]; cbn [for_each]; intros b;
      [reflexivity|].
    destruct (M part (or_introl eq_refl)) as (quads & -> & Q). cbn [bind].
    rewrite (scan_quads_miss _ _ _ _ Q). cbn [bind].
    apply IH. intros p I. apply M. right. exact I. }
  rewrite C. reflexivity.
Qed.

(** X18.  With a viewport of nonzero width and height and
    matrices of sixteen entries, a projection or view matrix whose
    determinant, as [mat4_inverse] computes it, is below [1e-12] in absolute
    value makes [pick] return [None], whatever the model. *)
Theorem pick_with_singular_camera (mx my viewport_w viewport_h : float)
  (proj view : list float) (model : PlayerModel) (overlay_visible : bool) :
  feq viewport_w zero = false -> feq viewport_h zero = false ->
  (16 <= List.length proj)%nat -> (16 <= List.length view)%nat ->
  flt (fabs (mathutil.det_of proj)) eps12 = true \/
  flt (fabs (mathutil.det_of view)) eps12 = true ->
  pick mx my viewport_w viewport_h proj view model overlay_visible = Ok None.
Proof.
  intros Hw Hh Lp Lv S.
  pose proof (InteractionClaims.unproject_outcomes mx my _ _ _ _ Hw Hh Lp Lv)
    as O.
  assert (N : near_and_far mx my viewport_w viewport_h proj view = None).
  { unfold near_and_far, inverted.
    rewrite (mat4_inverse_float proj Lp), (mat4_inverse_float view Lv).
    destruct S as [-> | ->]; [reflexivity|].
    destruct (flt (fabs (mathutil.det_of proj)) eps12); reflexivity. }
  rewrite N in O. unfold pick. rewrite O. reflexivity.
Qed.

End Closest.

Lemma closest_hit_is_closest_example :
  closest_hit (libm := series_libm) arm_ray_origin forward [swung_arm]
  = Ok (fst arm_hit, snd arm_hit) /\
  get_transformed_quads (libm := series_libm) swung_arm = Ok swung_arm_quads /\
  In back_quad swung_arm_quads /\
  _ray_quad_intersect arm_ray_origin forward (snd (fst back_quad))
                      (snd back_quad)
  = Ok (Some (fst (fst back_hit), snd (fst back_hit), snd back_hit)) /\
  flt (fst (fst back_hit)) inf = true /\
  flt (fst (fst back_hit)) (fst arm_hit) = false /\
  snd arm_hit <> None /\
  closest_hit (libm := series_libm) arm_ray_origin forward []
  = Ok (inf, None) /\
  (@None uv = None -> inf = inf).
Proof.
  assert (C : closest_hit (libm := series_libm) arm_ray_origin forward
                [swung_arm] = Ok (fst arm_hit, snd arm_hit))
    by (vm_compute; reflexivity).
  assert (Q : get_transformed_quads (libm := series_libm) swung_arm
              = Ok swung_arm_quads) by (vm_compute; reflexivity).
  assert (I : In back_quad swung_arm_quads)
    by (vm_compute; right; left; reflexivity).
  assert (R : _ray_quad_intersect arm_ray_origin forward
                (snd (fst back_quad)) (snd back_quad)
              = Ok (Some (fst (fst back_hit), snd (fst back_hit),
                          snd back_hit))) by (vm_compute; reflexivity).
  assert (F : flt (fst (fst back_hit)) inf = true)
    by (vm_compute; reflexivity).
  assert (E : closest_hit (libm := series_libm) arm_ray_origin forward []
              = Ok (inf, None)) by reflexivity.
  pose proof (closest_hit_is_closest (libm := series_libm) _ _ _ _ _ C)
    as (A1 & _ & A3).
  pose proof (closest_hit_is_closest (libm := series_libm) _ _ _ _ _ E)
    as (_ & B2 & _).
  split; [exact C|]. split; [exact Q|]. split; [exact I|].
  split; [exact R|]. split; [exact F|].
  split; [exact (A1 _ _ _ _ _ _ (or_introl eq_refl) Q I R)|].
  split; [exact (A3 _ _ _ _ _ _ (or_introl eq_refl) Q I R F)|].
  split; [exact E|exact B2].
Defined.

Lemma pick_misses_example :
  _unproject (libc := rounded_pow) (of_Z 6000) (of_Z 350) (of_Z 600) (of_Z 700) identity4 identity4
  = Ok (Some (far_ray_origin, forward)) /\
  get_transformed_quads (libm := series_libm) swung_arm = Ok swung_arm_quads /\
  forallb (misses far_ray_origin forward) swung_arm_quads = true /\
  pick (libm := series_libm) (libc := rounded_pow) (of_Z 6000) (of_Z 350) (of_Z 600) (of_Z 700)
       identity4 identity4 two_arms false
  = Ok None.
Proof.
  assert (U : _unproject (libc := rounded_pow) (of_Z 6000) (of_Z 350) (of_Z 600) (of_Z 700)
                identity4 identity4
              = Ok (Some (far_ray_origin, forward)))
    by (vm_compute; reflexivity).
  assert (Q : get_transformed_quads (libm := series_libm) swung_arm
              = Ok swung_arm_quads) by (vm_compute; reflexivity).
  assert (M : forallb (misses far_ray_origin forward) swung_arm_quads = true)
    by (vm_compute; reflexivity).
  split; [exact U|]. split; [exact Q|]. split; [exact M|].
  apply (pick_misses (libm := series_libm)
           (libc := rounded_pow) _ _ _ _ _ _ two_arms false _ _ U).
  intros part [<-|[]]. exists swung_arm_quads. split; [exact Q|].
  intros q Iq.
  pose proof (proj1 (forallb_forall _ _) M q Iq) as H.
  unfold misses in H.
  destruct (_ray_quad_intersect far_ray_origin forward (snd (fst q)) (snd q))
    as [[hit|]|]; [discriminate H|reflexivity|discriminate H].
Defined.

Lemma pick_with_singular_camera_example :
  feq (of_Z 600) zero = false /\ feq (of_Z 700) zero = false /\
  (16 <= List.length flat)%nat /\ (16 <= List.length identity4)%nat /\
  (flt (fabs (mathutil.det_of flat)) eps12 = true \/
   flt (fabs (mathutil.det_of identity4)) eps12 = true) /\
  pick (libm := series_libm) (libc := rounded_pow) (of_Z 300) (of_Z 350) (of_Z 600) (of_Z 700)
       flat identity4 steve true
  = Ok None.
Proof.
  assert (W : feq (of_Z 600) zero = false) by (vm_compute; reflexivity).
  assert (H : feq (of_Z 700) zero = false) by (vm_compute; reflexivity).
  assert (Lp : (16 <= List.length flat)%nat) by (cbn; apply Nat.le_refl).
  assert (Lv : (16 <= List.length identity4)%nat)
    by (cbn; apply Nat.le_refl).
  assert (S : flt (fabs (mathutil.det_of flat)) eps12 = true \/
              flt (fabs (mathutil.det_of identity4)) eps12 = true)
    by (left; vm_compute; reflexivity).
  split; [exact W|]. split; [exact H|]. split; [exact Lp|].
  split; [exact Lv|]. split; [exact S|].
  exact (pick_with_singular_camera (libm := series_libm)
           (libc := rounded_pow) _ _ _ _ _ _ steve
           true W H Lp Lv S).
Defined.

End InteractionExtras.

(* ================================================================== *)
(** ** The renderer: the mesh and the orbit camera *)

Module RendererExtras.

Import B64 B64Facts OrderFacts model interaction renderer Spec Spec2
  ModelExtras.

Lemma face_normal_returns (v0 v1 v2 : vec3) (rest : list vec3) :
  exists n, face_normal (v0 :: v1 :: v2 :: rest) = Ok n.
Proof.
  unfold face_normal. cbn [item nth_error bind].
  destruct v0 as [[v0x v0y] v0z], v1 as [[v1x v1y] v1z],
    v2 as [[v2x v2y] v2z].
  cbv zeta.
  match goal with
  | |- context [py_sqrt ?s] =>
      assert (S : py_sqrt s = Ok (fsqrt s));
      [unfold py_sqrt; rewrite unsigned_not_below_zero;
       [reflexivity|repeat apply add_unsigned; apply square_unsigned]|];
      rewrite S; cbn [bind]; generalize (fsqrt s)
  end.
  intros nl. destruct (flt zero nl) eqn:P; [|eauto].
  rewrite !(py_div_ok _ _ (positive_nonzero _ P)). cbn [bind]. eauto.
Qed.

Lemma face_normal_short (verts : list vec3) :
  (List.length verts < 3)%nat -> face_normal verts = Raise IndexError.
Proof.
  destruct verts as [|v0 [|v1 [|v2 rest]]]; cbn [List.length]; try lia;
    reflexivity.
Qed.

Ltac normal_is N :=
  match type of N with
  | _ = ?r =>
      match goal with
      | |- context [face_normal ?l] =>
          replace (face_normal l) with r by (symmetry; exact N)
      end
  end.

Lemma add_quad_returns (face_name : string) (verts : list vec3)
  (uvs : list uv) (b : buffers) :
  (4 <= List.length verts)%nat -> (4 <= List.length uvs)%nat ->
  exists b' floats,
    add_quad (face_name, verts, uvs) b = Ok b' /\
    vertices b' = vertices b ++ floats /\ List.length floats = 32%nat /\
    indices b' = indices b ++ map (Nat.add (vertex_offset b))
                                  [0; 1; 2; 0; 2; 3]%nat /\
    vertex_offset b' = (vertex_offset b + 4)%nat.
Proof.
  intros Lv Lu.
  destruct verts as [|[[x0 y0] z0] [|[[x1 y1] z1] [|[[x2 y2] z2]
    [|[[x3 y3] z3] verts]]]]; cbn [List.length] in Lv; try lia.
  destruct uvs as [|[a0 c0] [|[a1 c1] [|[a2 c2] [|[a3 c3] uvs]]]];
    cbn [List.length] in Lu; try lia.
  destruct (face_normal_returns (x0, y0, z0) (x1, y1, z1) (x2, y2, z2)
              ((x3, y3, z3) :: verts)) as [[[nx ny] nz] N].
  eexists. eexists. split.
  { cbv beta iota delta [add_quad]. normal_is N.
    cbn [bind for_each item nth_error]. reflexivity. }
  cbn [vertices indices vertex_offset].
  rewrite <- !app_assoc. split; [reflexivity|]. split; [reflexivity|].
  split; [|reflexivity].
  cbn [map]. rewrite !Nat.add_0_r. reflexivity.
Qed.

Lemma add_quad_short (face_name : string) (verts : list vec3)
  (uvs : list uv) (b : buffers) :
  (List.length verts < 4)%nat \/ (List.length uvs < 4)%nat ->
  add_quad (face_name, verts, uvs) b = Raise IndexError.
Proof.
  intros [L|L]; cbv beta iota delta [add_quad].
  - destruct verts as [|v0 [|v1 [|v2 [|v3 verts]]]]; cbn [List.length] in L;
      try lia; try reflexivity.
    destruct (face_normal_returns v0 v1 v2 []) as [[[nx ny] nz] N].
    normal_is N.
    cbn [bind for_each item nth_error].
    destruct v0 as [[x0 y0] z0], v1 as [[x1 y1] z1], v2 as [[x2 y2] z2].
    destruct uvs as [|[a0 c0] [|[a1 c1] [|[a2 c2] uvs]]]; reflexivity.
  - destruct verts as [|v0 [|v1 [|v2 verts]]]; try reflexivity.
    destruct (face_normal_returns v0 v1 v2 verts) as [[[nx ny] nz] N].
    normal_is N.
    cbn [bind for_each].
    destruct v0 as [[x0 y0] z0], v1 as [[x1 y1] z1], v2 as [[x2 y2] z2].
    destruct uvs as [|[a0 c0] [|[a1 c1] [|[a2 c2] [|[a3 c3] uvs]]]];
      cbn [List.length] in L; try lia; cbn [item nth_error bind];
      try reflexivity;
      destruct verts as [|[[x3 y3] z3] verts]; reflexivity.
Qed.

(** X19.  The body of the loop of [build_model_buffers] over the quads:
    on a quad of four or more vertices and UVs it never raises (the root is
    taken of a sum of squares and the division guarded by [nl > 0]) and
    appends 32 floats, the six indices [o, o+1, o+2, o, o+2, o+3] and moves
    the offset [o] by four; on fewer vertices or UVs it raises
    [IndexError]. *)
Theorem add_quad_outcomes (face_name : string) (verts : list vec3)
  (uvs : list uv) (b : buffers) :
  ((4 <= List.length verts)%nat -> (4 <= List.length uvs)%nat ->
   exists b' floats,
     add_quad (face_name, verts, uvs) b = Ok b' /\
     vertices b' = vertices b ++ floats /\ List.length floats = 32%nat /\
     indices b' = indices b ++ map (Nat.add (vertex_offset b))
                                   [0; 1; 2; 0; 2; 3]%nat /\
     vertex_offset b' = (vertex_offset b + 4)%nat) /\
  ((List.length verts < 4)%nat \/ (List.length uvs < 4)%nat ->
   add_quad (face_name, verts, uvs) b = Raise IndexError).
Proof.
  split; [apply add_quad_returns|apply add_quad_short].
Qed.

Lemma add_quad_outcomes_example :
  ((4 <= List.length unit_square)%nat /\
   (4 <= List.length whole_texture)%nat /\
   exists b' floats,
     add_quad ("front"%string, unit_square, whole_texture) (mkBuffers [] [] 0)
     = Ok b' /\
     vertices b' = [] ++ floats /\ List.length floats = 32%nat /\
     indices b' = [] ++ map (Nat.add 0) [0; 1; 2; 0; 2; 3]%nat /\
     vertex_offset b' = (0 + 4)%nat) /\
  (((List.length (@nil vec3) < 4)%nat \/
    (List.length whole_texture < 4)%nat) /\
   add_quad ("front"%string, [], whole_texture) (mkBuffers [] [] 0)
   = Raise IndexError).
Proof.
  assert (Lv : (4 <= List.length unit_square)%nat)
    by (cbn; apply Nat.le_refl).
  assert (Lu : (4 <= List.length whole_texture)%nat)
    by (cbn; apply Nat.le_refl).
  assert (S : (List.length (@nil vec3) < 4)%nat \/
              (List.length whole_texture < 4)%nat) by (left; cbn; lia).
  split.
  - split; [exact Lv|]. split; [exact Lu|].
    exact (proj1 (add_quad_outcomes "front"%string unit_square whole_texture
                    (mkBuffers [] [] 0)) Lv Lu).
  - split; [exact S|].
    exact (proj2 (add_quad_outcomes "front"%string [] whole_texture
                    (mkBuffers [] [] 0)) S).
Defined.

(** What the loops keep: the lists only grow, by eight floats a vertex
    and six indices every four vertices, and a new index names one of the
    four new vertices. *)
Lemma add_quad_keeps (q : quad) (b b' : buffers) :
  add_quad q b = Ok b' ->
  exists floats more,
    vertices b' = vertices b ++ floats /\ List.length floats = 32%nat /\
    indices b' = indices b ++ more /\ List.length more = 6%nat /\
    Forall (fun i => vertex_offset b <= i < vertex_offset b')%nat more /\
    vertex_offset b' = (vertex_offset b + 4)%nat.
Proof.
  destruct q as [[face verts] tex]. intros E.
  destruct (Nat.lt_ge_cases (List.length verts) 4) as [L|Lv].
  { rewrite (add_quad_short face verts tex b (or_introl L)) in E.
    discriminate. }
  destruct (Nat.lt_ge_cases (List.length tex) 4) as [L|Lu].
  { rewrite (add_quad_short face verts tex b (or_intror L)) in E.
    discriminate. }
  destruct (add_quad_returns face verts tex b Lv Lu)
    as (b1 & floats & E1 & V & F & I & O).
  rewrite E1 in E. injection E as <-.
  exists floats. eexists. split; [exact V|]. split; [exact F|].
  split; [exact I|]. split; [reflexivity|]. split; [|exact O].
  rewrite O. cbn [map]. repeat constructor; lia.
Qed.

(** How a mesh under construction relates to an earlier state of it. *)
Lemma grows_refl (b : buffers) : grows b b.
Proof.
  exists [], [], 0%nat. rewrite !app_nil_r, Nat.add_0_r, Nat.mul_0_r.
  cbn. repeat split; auto.
Qed.

Lemma grows_trans (a b c : buffers) : grows a b -> grows b c -> grows a c.
Proof.
  intros (f1 & i1 & n1 & V1 & F1 & I1 & L1 & B1 & O1)
         (f2 & i2 & n2 & V2 & F2 & I2 & L2 & B2 & O2).
  exists (f1 ++ f2), (i1 ++ i2), (n1 + n2)%nat.
  rewrite V2, V1, I2, I1, <- !app_assoc, !length_app.
  repeat split; try lia.
  apply Forall_app. split.
  - eapply Forall_impl; [|exact B1]. cbn. intros; lia.
  - eapply Forall_impl; [|exact B2]. cbn. intros; lia.
Qed.

Lemma add_quad_grows (q : quad) (b b' : buffers) :
  add_quad q b = Ok b' -> grows b b'.
Proof.
  intros E. destruct (add_quad_keeps _ _ _ E) as (f & i & V & F & I & L & B & O).
  exists f, i, 1%nat. repeat split; try assumption; try lia.
Qed.

Lemma add_quads_grow (quads : list quad) (b b' : buffers) :
  for_each quads add_quad b = Ok b' -> grows b b'.
Proof.
  revert b. induction quads as [|q quads IH]; cbn [for_each]; intros b E.
  - injection E as <-. apply grows_refl.
  - destruct (add_quad q b) as [b1|] eqn:A; cbn [bind] in E; [|discriminate].
    eapply grows_trans; [exact (add_quad_grows _ _ _ A)|exact (IH _ E)].
Qed.

Section Meshes.

Context {libm : Trig} {gl : GL}.

Lemma add_parts_grow (parts : list BoxPart) (b b' : buffers) :
  _add_parts parts b = Ok b' -> grows b b'.
Proof.
  unfold _add_parts. revert b.
  induction parts as [|part parts IH]; cbn [for_each]; intros b E.
  - injection E as <-. apply grows_refl.
  - destruct (get_transformed_quads part) as [quads|]; cbn [bind] in E;
      [|discriminate].
    destruct (for_each quads add_quad b) as [b1|] eqn:A; cbn [bind] in E;
      [|discriminate].
    eapply grows_trans; [exact (add_quads_grow _ _ _ A)|exact (IH _ E)].
Qed.

(** X20.  What [build_model_buffers] hands to the GPU, whenever it
    returns: eight floats a vertex, three indices for every two vertices,
    every index below [_vertex_count], the overlay starting where the base
    ends, the base indices naming base vertices only and the overlay
    indices overlay vertices only. *)
Theorem mesh_is_well_formed (model : PlayerModel) (m : mesh) :
  build_model_buffers model = Ok m ->
  List.length (mesh_vertices m) = (8 * _vertex_count m)%nat /\
  List.length (mesh_indices m) = _index_count m /\
  (2 * _index_count m = 3 * _vertex_count m)%nat /\
  Forall (fun i => (i < _vertex_count m)%nat) (mesh_indices m) /\
  _overlay_index_offset m = _base_index_count m /\
  (_base_index_count m <= _index_count m)%nat /\
  Forall (fun i => (3 * i < 2 * _base_index_count m)%nat)
         (firstn (_base_index_count m) (mesh_indices m)) /\
  Forall (fun i => (2 * _base_index_count m <= 3 * i)%nat)
         (skipn (_overlay_index_offset m) (mesh_indices m)).
Proof.
  unfold build_model_buffers. intros E.
  destruct (_add_parts (base_parts model) (mkBuffers [] [] 0)) as [b1|] eqn:B;
    cbn [bind] in E; [|discriminate].
  destruct (_add_parts (overlay_parts model) b1) as [b2|] eqn:O;
    cbn [bind] in E; [|discriminate].
  destruct (upload (vertices b2) (indices b2)) as [done|]; cbn [bind] in E;
    [|discriminate].
  injection E as <-. cbn [mesh_vertices mesh_indices _base_index_count
    _overlay_index_offset _index_count _vertex_count].
  destruct (add_parts_grow _ _ _ B) as (f1 & i1 & n1 & V1 & F1 & I1 & L1 & B1 & O1).
  destruct (add_parts_grow _ _ _ O) as (f2 & i2 & n2 & V2 & F2 & I2 & L2 & B2 & O2).
  cbn [vertices indices vertex_offset app] in V1, I1, B1, O1.
  rewrite V2, I2, V1, I1, !length_app, O2, O1.
  split; [lia|]. split; [reflexivity|]. split; [lia|].
  split.
  { apply Forall_app. split.
    - eapply Forall_impl; [|exact B1]. cbn. intros; lia.
    - eapply Forall_impl; [|exact B2]. cbn. intros; lia. }
  split; [reflexivity|]. split; [lia|].
  split.
  - rewrite firstn_app, Nat.sub_diag, firstn_all, firstn_O, app_nil_r.
    eapply Forall_impl; [|exact B1]. cbn. intros; lia.
  - rewrite skipn_app, Nat.sub_diag, skipn_all, skipn_O. cbn [app].
    eapply Forall_impl; [|exact B2]. cbn. intros; lia.
Qed.

Lemma add_quads_count (quads : list quad) (b : buffers) :
  Forall four_each quads ->
  exists b',
    for_each quads add_quad b = Ok b' /\
    vertex_offset b' = (vertex_offset b + 4 * List.length quads)%nat /\
    List.length (indices b')
    = (List.length (indices b) + 6 * List.length quads)%nat.
Proof.
  intros F. revert b.
  induction F as [|[[face verts] tex] quads [Lv Lu] F IH]; intros b;
    cbn [for_each List.length].
  - exists b. split; [reflexivity|]. lia.
  - cbn [fst snd] in Lv, Lu.
    destruct (add_quad_returns face verts tex b) as (b1 & fl & -> & _ & _ & I & O);
      [lia|lia|].
    cbn [bind]. destruct (IH b1) as (b' & -> & O' & I').
    exists b'. split; [reflexivity|].
    rewrite O', I', I, O, length_app, length_map. cbn [List.length]. lia.
Qed.

Lemma add_parts_return (parts : list BoxPart) (b : buffers) :
  (forall part, In part parts -> returns (get_transformed_quads part)) ->
  exists b',
    _add_parts parts b = Ok b' /\
    vertex_offset b' = (vertex_offset b + 24 * List.length parts)%nat /\
    List.length (indices b')
    = (List.length (indices b) + 36 * List.length parts)%nat.
Proof.
  unfold _add_parts. revert b.
  induction parts as [|part parts IH]; intros b H; cbn [for_each List.length].
  - exists b. split; [reflexivity|]. lia.
  - destruct (H part (or_introl eq_refl)) as [quads Q]. rewrite Q.
    cbn [bind].
    destruct (transformed_quads_shape _ _ Q) as [L F].
    destruct (add_quads_count quads b F) as (b1 & -> & O1 & I1).
    cbn [bind].
    destruct (IH b1) as (b' & -> & O' & I').
    { intros p I. apply H. right. exact I. }
    exists b'. split; [reflexivity|]. lia.
Qed.

Lemma add_parts_raise (parts : list BoxPart) (b : buffers) (e : exn) :
  _add_parts parts b = Raise e ->
  exists part, In part parts /\ get_transformed_quads part = Raise e.
Proof.
  unfold _add_parts. revert b.
  induction parts as [|part parts IH]; intros b; cbn [for_each];
    [discriminate|].
  destruct (get_transformed_quads part) as [quads|e'] eqn:Q; cbn [bind].
  - destruct (transformed_quads_shape _ _ Q) as [_ F].
    destruct (add_quads_count quads b F) as (b1 & -> & _). cbn [bind].
    intros E. destruct (IH _ E) as (p & I & R).
    exists p. split; [right; exact I|exact R].
  - intros [= <-]. exists part. split; [left; reflexivity|exact Q].
Qed.

(** X21.  [_add_parts], the nested function of [build_model_buffers]
    that fills the two lists, adds no failure of its own: if
    [get_transformed_quads] returns for every part it returns, with 24
    more vertices and 36 more indices a part; and an exception it raises is
    one that [get_transformed_quads] raises on one of the parts. *)
Theorem add_parts_outcomes (parts : list BoxPart) (b : buffers) :
  ((forall part, In part parts -> returns (get_transformed_quads part)) ->
   exists b',
     _add_parts parts b = Ok b' /\
     vertex_offset b' = (vertex_offset b + 24 * List.length parts)%nat /\
     List.length (indices b')
     = (List.length (indices b) + 36 * List.length parts)%nat) /\
  (forall e,
      _add_parts parts b = Raise e ->
      exists part, In part parts /\ get_transformed_quads part = Raise e).
Proof.
  split; [apply add_parts_return|intros e; apply add_parts_raise].
Qed.

(** The angles of the poses are 0, 30, -30, 90 and -90 degrees. *)
Lemma pose_angles (pose_index : Z) (n : string) :
  exists a b c,
    pose_rotation pose_index n = rot a b c /\
    In a [0; 30; -30; 90; -90]%Z /\ In b [0; 30; -30; 90; -90]%Z /\
    In c [0; 30; -30; 90; -90]%Z.
Proof.
  unfold pose_rotation.
  repeat match goal with
         | |- context [if ?c then _ else _] => destruct c
         end;
    do 3 eexists; (split; [reflexivity|]); cbn; auto 10.
Qed.

(** X22.  For the classic and the slim model in any pose, also an index
    that names no pose, the two calls of [_add_parts] in
    [build_model_buffers] return as soon as [math.cos] and [math.sin]
    return at the five angles the poses use: 216 indices after the base
    parts, 432 indices and 288 vertices after the overlay parts. *)
Theorem shipped_models_build (m : PlayerModel) (pose_index : Z) :
  m = steve \/ m = alex ->
  (forall a, In a [0; 30; -30; 90; -90]%Z ->
             returns (math_cos (radians (of_Z a))) /\
             returns (math_sin (radians (of_Z a)))) ->
  exists base_done all_done,
    _add_parts (base_parts (set_pose m pose_index)) (mkBuffers [] [] 0)
    = Ok base_done /\
    _add_parts (overlay_parts (set_pose m pose_index)) base_done
    = Ok all_done /\
    List.length (indices base_done) = 216%nat /\
    List.length (indices all_done) = 432%nat /\
    vertex_offset all_done = 288%nat.
Proof.
  intros M T.
  assert (P : forallb has_faces (get_all_parts m) = true
              /\ List.length (base_parts m) = 6%nat
              /\ List.length (overlay_parts m) = 6%nat).
  { destruct M as [-> | ->];
      (split; [|split]); vm_compute; reflexivity. }
  destruct P as (P & Lb & Lo).
  assert (H : forall part, In part (get_all_parts (set_pose m pose_index)) ->
                           returns (get_transformed_quads part)).
  { intros part I.
    rewrite set_pose_by_name in I.
    unfold get_all_parts, for_all_parts in I.
    cbn [base_parts overlay_parts] in I. rewrite <- map_app in I.
    apply in_map_iff in I as (p & <- & I).
    rewrite forallb_forall in P. specialize (P p I).
    unfold has_faces in P.
    rewrite <- (get_face_quads_posed p
                  (pose_rotation pose_index (name p))) in P.
    destruct (get_face_quads (set_rotation p _)) as [quads0|] eqn:Q;
      [|discriminate].
    destruct (transformed_quads_return _ _ Q) as (quads & E & _).
    { cbn [rotation set_rotation].
      destruct (pose_angles pose_index (name p))
        as (a & b & c & -> & Ia & Ib & Ic).
      unfold rot.
      repeat split; first [apply (T a Ia)|apply (T b Ib)|apply (T c Ic)]. }
    exists quads. exact E. }
  assert (Lb' : List.length (base_parts (set_pose m pose_index)) = 6%nat).
  { rewrite set_pose_by_name. unfold for_all_parts. cbn [base_parts].
    rewrite length_map. exact Lb. }
  assert (Lo' : List.length (overlay_parts (set_pose m pose_index)) = 6%nat).
  { rewrite set_pose_by_name. unfold for_all_parts. cbn [overlay_parts].
    rewrite length_map. exact Lo. }
  clear P M Lb Lo T.
  generalize dependent (set_pose m pose_index). intros posed H Lb' Lo'.
  destruct (add_parts_return (base_parts posed) (mkBuffers [] [] 0))
    as (b1 & E1 & O1 & I1).
  { intros p I. apply H. apply in_or_app. left. exact I. }
  destruct (add_parts_return (overlay_parts posed) b1)
    as (b2 & E2 & O2 & I2).
  { intros p I. apply H. apply in_or_app. right. exact I. }
  exists b1, b2. split; [exact E1|]. split; [exact E2|].
  cbn [vertices indices vertex_offset List.length] in O1, I1.
  rewrite Lb' in O1, I1. rewrite Lo' in O2, I2.
  repeat split; lia.
Qed.

End Meshes.

Lemma mesh_is_well_formed_example :
  build_model_buffers (libm := series_libm) (gl := accepting_gl) two_arms
  = Ok two_arms_mesh /\
  List.length (mesh_vertices two_arms_mesh)
  = (8 * _vertex_count two_arms_mesh)%nat /\
  List.length (mesh_indices two_arms_mesh) = _index_count two_arms_mesh /\
  (2 * _index_count two_arms_mesh = 3 * _vertex_count two_arms_mesh)%nat /\
  Forall (fun i => (i < _vertex_count two_arms_mesh)%nat)
         (mesh_indices two_arms_mesh) /\
  _overlay_index_offset two_arms_mesh = _base_index_count two_arms_mesh /\
  (_base_index_count two_arms_mesh <= _index_count two_arms_mesh)%nat /\
  Forall (fun i => (3 * i < 2 * _base_index_count two_arms_mesh)%nat)
         (firstn (_base_index_count two_arms_mesh)
                 (mesh_indices two_arms_mesh)) /\
  Forall (fun i => (2 * _base_index_count two_arms_mesh <= 3 * i)%nat)
         (skipn (_overlay_index_offset two_arms_mesh)
                (mesh_indices two_arms_mesh)).
Proof.
  assert (E : build_model_buffers (libm := series_libm) (gl := accepting_gl)
                two_arms = Ok two_arms_mesh) by (vm_compute; reflexivity).
  split; [exact E|].
  exact (mesh_is_well_formed (libm := series_libm) (gl := accepting_gl)
           two_arms two_arms_mesh E).
Defined.

Lemma add_parts_outcomes_example :
  (get_transformed_quads (libm := series_libm) swung_arm
   = Ok swung_arm_quads /\
   exists b',
     _add_parts (libm := series_libm) [swung_arm; swung_arm]
                (mkBuffers [] [] 0) = Ok b' /\
     vertex_offset b' = (0 + 24 * 2)%nat /\
     List.length (indices b') = (0 + 36 * 2)%nat) /\
  (_add_parts (libm := series_libm) [swung_arm; bare_part]
              (mkBuffers [] [] 0) = Raise KeyError /\
   exists part, In part [swung_arm; bare_part] /\
                get_transformed_quads (libm := series_libm) part
                = Raise KeyError).
Proof.
  assert (Q : get_transformed_quads (libm := series_libm) swung_arm
              = Ok swung_arm_quads) by (vm_compute; reflexivity).
  assert (R : _add_parts (libm := series_libm) [swung_arm; bare_part]
                (mkBuffers [] [] 0) = Raise KeyError)
    by (vm_compute; reflexivity).
  split.
  - split; [exact Q|].
    apply (proj1 (add_parts_outcomes (libm := series_libm)
                    [swung_arm; swung_arm] (mkBuffers [] [] 0))).
    intros part [<-|[<-|[]]]; exists swung_arm_quads; exact Q.
  - split; [exact R|].
    exact (proj2 (add_parts_outcomes (libm := series_libm)
                    [swung_arm; bare_part] (mkBuffers [] [] 0)) _ R).
Defined.

Lemma shipped_models_build_example :
  (steve = steve \/ steve = alex) /\
  (forall a, In a [0; 30; -30; 90; -90]%Z ->
             returns (math_cos (Trig := series_libm) (radians (of_Z a))) /\
             returns (math_sin (Trig := series_libm) (radians (of_Z a)))) /\
  exists base_done all_done,
    _add_parts (libm := series_libm) (base_parts (set_pose steve 1))
               (mkBuffers [] [] 0) = Ok base_done /\
    _add_parts (libm := series_libm) (overlay_parts (set_pose steve 1))
               base_done = Ok all_done /\
    List.length (indices base_done) = 216%nat /\
    List.length (indices all_done) = 432%nat /\
    vertex_offset all_done = 288%nat.
Proof.
  assert (M : steve = steve \/ steve = alex) by (left; reflexivity).
  assert (T : forall a, In a [0; 30; -30; 90; -90]%Z ->
                returns (math_cos (Trig := series_libm) (radians (of_Z a)))
                /\ returns (math_sin (Trig := series_libm)
                              (radians (of_Z a)))).
  { intros a _. split; eexists; reflexivity. }
  split; [exact M|]. split; [exact T|].
  exact (shipped_models_build (libm := series_libm) steve 1 M T).
Defined.

Lemma clamp_between (lo hi x : float) :
  flt lo hi = true -> fle lo lo = true -> fle hi hi = true ->
  fle lo (py_max lo (py_min hi x)) = true /\
  fle (py_max lo (py_min hi x)) hi = true.
Proof.
  intros LH Lo Hi. unfold py_max, py_min.
  destruct (flt x hi) eqn:A.
  - destruct (flt lo x) eqn:B.
    + split; apply flt_fle; assumption.
    + split; [exact Lo|apply flt_fle; exact LH].
  - rewrite LH. split; [apply flt_fle; exact LH|exact Hi].
Qed.

(** X23.  The orbit camera stays in range whatever the input, NaN and
    infinities included: after [camera_rotate] the pitch is within
    [-89, 89], after [camera_zoom] the distance within [10, 120], and
    neither touches the other's field or the target. *)
Theorem orbit_stays_in_range (self : orbit) :
  (forall dx dy,
      let o := camera_rotate self dx dy in
      fle (of_Z (-89)) (_cam_pitch o) = true /\
      fle (_cam_pitch o) (of_Z 89) = true /\
      _cam_distance o = _cam_distance self /\
      _cam_target o = _cam_target self) /\
  (forall delta,
      let o := camera_zoom self delta in
      fle (of_Z 10) (_cam_distance o) = true /\
      fle (_cam_distance o) (of_Z 120) = true /\
      _cam_yaw o = _cam_yaw self /\ _cam_pitch o = _cam_pitch self /\
      _cam_target o = _cam_target self).
Proof.
  assert (P1 : flt (of_Z (-89)) (of_Z 89) = true) by (vm_compute; reflexivity).
  assert (P2 : fle (of_Z (-89)) (of_Z (-89)) = true)
    by (vm_compute; reflexivity).
  assert (P3 : fle (of_Z 89) (of_Z 89) = true) by (vm_compute; reflexivity).
  assert (D1 : flt (of_Z 10) (of_Z 120) = true) by (vm_compute; reflexivity).
  assert (D2 : fle (of_Z 10) (of_Z 10) = true) by (vm_compute; reflexivity).
  assert (D3 : fle (of_Z 120) (of_Z 120) = true) by (vm_compute; reflexivity).
  split.
  - intros dx dy o. subst o.
    cbn [camera_rotate _cam_pitch _cam_distance _cam_target].
    destruct (clamp_between (of_Z (-89)) (of_Z 89)
                (fadd (_cam_pitch self) (fmul dy (lit 1 2))) P1 P2 P3)
      as [A B].
    auto.
  - intros delta o. subst o.
    cbn [camera_zoom _cam_pitch _cam_distance _cam_target _cam_yaw].
    destruct (clamp_between (of_Z 10) (of_Z 120)
                (fadd (_cam_distance self) (fmul delta two)) D1 D2 D3)
      as [A B].
    auto.
Qed.

End RendererExtras.
